(** * Weather-Forecast-ML-System: feature engineering, ensemble training,
      recursive forecasting, registry and validation gate

    A shallow embedding of [model/train.py], [app/services/model_registry.py]
    and [scripts/validate_model.py], and the properties of the system
    specification settled against it.

    Modelling conventions.
    - A pandas [DataFrame] is a row count together with an ordered list of
      named columns; a column ([Series]) carries its dtype as its
      constructor.  Every frame operation the sources use is positional, so
      index labels are not kept.
    - [float64] values are exact rationals, with [None] for NaN.  Rounding of
      binary64 arithmetic is not modelled.
    - Timestamps are day numbers (days since 1970-01-01): every date the
      sources handle is used at day resolution only.
    - What lives in third-party libraries and cannot be computed over the
      rationals (sin, cos, sqrt, non-integer powers, the three tree learners,
      the random data generator) is a field of the class [Library]; every
      theorem holds for every instance of it.
    - A raised exception is [inl e]; the state of an object survives the
      exception, as it does in Python. *)

From Stdlib Require Import ZArith QArith Qround Qminmax Qabs List String Ascii Bool Lia.
From stdpp Require Import gmap strings list pretty.
Import ListNotations.

Local Open Scope string_scope.
Local Open Scope Z_scope.
Local Open Scope list_scope.

(** ** Exceptions *)

Inductive exn : Type :=
| KeyError (key : string)
| IndexError (msg : string)
| TypeError (msg : string)
| AttributeError (msg : string)
| ValueError (msg : string).

Definition res (A : Type) : Type := (exn + A)%type.

Definition Ok {A : Type} (a : A) : res A := inr a.
Definition Raise {A : Type} (e : exn) : res A := inl e.

#[global] Instance res_ret : MRet res := fun A a => inr a.
#[global] Instance res_bind : MBind res :=
  fun A B k m => match m with inl e => inl e | inr a => k a end.

#[global] Instance res_fmap : FMap res :=
  fun A B f m => match m with inl e => inl e | inr a => inr (f a) end.

Definition raised {A : Type} (r : res A) : bool :=
  match r with inl _ => true | inr _ => false end.

(** ** Calendar

    The proleptic Gregorian calendar on day numbers, as pandas' [.dt]
    accessors and [strftime] compute it. *)

Module Calendar.

Definition days_from_civil (y m d : Z) : Z :=
  let y := if m <=? 2 then y - 1 else y in
  let era := y / 400 in
  let yoe := y - era * 400 in
  let mp := if 2 <? m then m - 3 else m + 9 in
  let doy := (153 * mp + 2) / 5 + d - 1 in
  let doe := yoe * 365 + yoe / 4 - yoe / 100 + doy in
  era * 146097 + doe - 719468.

Definition civil_from_days (z : Z) : Z * Z * Z :=
  let z := z + 719468 in
  let era := z / 146097 in
  let doe := z - era * 146097 in
  let yoe := (doe - doe / 1460 + doe / 36524 - doe / 146096) / 365 in
  let y := yoe + era * 400 in
  let doy := doe - (365 * yoe + yoe / 4 - yoe / 100) in
  let mp := (5 * doy + 2) / 153 in
  let d := doy - (153 * mp + 2) / 5 + 1 in
  let m := if mp <? 10 then mp + 3 else mp - 9 in
  (if m <=? 2 then y + 1 else y, m, d).

Definition year (z : Z) : Z := let '(y, _, _) := civil_from_days z in y.
Definition month (z : Z) : Z := let '(_, m, _) := civil_from_days z in m.
Definition day (z : Z) : Z := let '(_, _, d) := civil_from_days z in d.

(** Monday is 0; 1970-01-01 was a Thursday. *)
Definition dayofweek (z : Z) : Z := (z + 3) mod 7.
Definition dayofyear (z : Z) : Z := z - days_from_civil (year z) 1 1 + 1.
Definition quarter (z : Z) : Z := (month z - 1) / 3 + 1.

Definition weeks_in_year (y : Z) : Z :=
  let p := fun y => (y + y / 4 - y / 100 + y / 400) mod 7 in
  if (p y =? 4) || (p (y - 1) =? 3) then 53 else 52.

(** ISO 8601 week number. *)
Definition isoweek (z : Z) : Z :=
  let w := (dayofyear z - (dayofweek z + 1) + 10) / 7 in
  if w <? 1 then weeks_in_year (year z - 1)
  else if weeks_in_year (year z) <? w then 1
  else w.

Definition digit (n : Z) : ascii := ascii_of_nat (48 + Z.to_nat (n mod 10)).

Definition pad2 (n : Z) : string :=
  String (digit (n / 10)) (String (digit n) EmptyString).

Definition pad4 (n : Z) : string :=
  String (digit (n / 1000)) (String (digit (n / 100)) (pad2 n)).

(** [strftime('%Y-%m-%d')] *)
Definition strftime (z : Z) : string :=
  let '(y, m, d) := civil_from_days z in
  pad4 y +:+ "-" +:+ pad2 m +:+ "-" +:+ pad2 d.

Definition digit_value (c : ascii) : option Z :=
  let n := nat_of_ascii c in
  if (48 <=? n)%nat && (n <=? 57)%nat then Some (Z.of_nat (n - 48)) else None.

Fixpoint number (acc : Z) (s : string) : option Z :=
  match s with
  | EmptyString => Some acc
  | String c s => v ← digit_value c; number (10 * acc + v) s
  end.

(** The ISO form YYYY-MM-DD, the one the sources write themselves; a string
    that is not a calendar date in that form is rejected. *)
Definition parse (s : string) : option Z :=
  if (String.length s =? 10)%nat
     && String.eqb (substring 4 1 s) "-" && String.eqb (substring 7 1 s) "-"
  then
    y ← number 0 (substring 0 4 s);
    m ← number 0 (substring 5 2 s);
    d ← number 0 (substring 8 2 s);
    let z := days_from_civil y m d in
    if (1 <=? m) && (m <=? 12) && (1 <=? d)
       && (year z =? y) && (month z =? m) && (day z =? d)
    then Some z else None
  else None.

End Calendar.

(** ** Python scalars, pandas Series and DataFrames *)

(** A [float64]: an exact rational, or [None] for NaN. *)
Definition float64 : Type := option Q.

Inductive pyval : Type :=
| PyNone
| PyFloat (x : float64)
| PyInt (n : Z)
| PyStr (s : string)
| PyTimestamp (t : option Z).

(** A column; the constructor is its dtype ([int64] and [int32] are not told
    apart, [None] in a [DateS] is NaT). *)
Inductive Series : Type :=
| FloatS (xs : list float64)
| IntS (xs : list Z)
| DateS (xs : list (option Z))
| ObjS (xs : list pyval).

Record DataFrame : Type := mkDataFrame {
  nrows : nat;
  columns : list (string * Series)
}.

Definition is_nan {A : Type} (x : option A) : bool :=
  match x with None => true | Some _ => false end.

Definition isna_val (v : pyval) : bool :=
  match v with
  | PyNone | PyFloat None | PyTimestamp None => true
  | _ => false
  end.

(** [Series.isna()] *)
Definition isna (s : Series) : list bool :=
  match s with
  | FloatS xs => map is_nan xs
  | IntS xs => map (fun _ => false) xs
  | DateS xs => map is_nan xs
  | ObjS xs => map isna_val xs
  end.

Definition series_len (s : Series) : nat := length (isna s).

(** Boolean indexing [xs[mask]]. *)
Fixpoint select {A : Type} (mask : list bool) (xs : list A) : list A :=
  match mask, xs with
  | b :: mask, x :: xs => if b then x :: select mask xs else select mask xs
  | _, _ => []
  end.

Definition series_map (f : forall A : Type, list A -> list A) (s : Series) : Series :=
  match s with
  | FloatS xs => FloatS (f _ xs)
  | IntS xs => IntS (f _ xs)
  | DateS xs => DateS (f _ xs)
  | ObjS xs => ObjS (f _ xs)
  end.

Definition series_select (mask : list bool) : Series -> Series :=
  series_map (fun A => select mask).

(** Positional indexing [s.iloc[idx]]. *)
Definition take_at {A : Type} (idx : list nat) (xs : list A) : list A :=
  omap (fun i => xs !! i) idx.

Definition series_iloc (idx : list nat) : Series -> Series :=
  series_map (fun A => take_at idx).

Definition to_pyvals (s : Series) : list pyval :=
  match s with
  | FloatS xs => map PyFloat xs
  | IntS xs => map PyInt xs
  | DateS xs => map PyTimestamp xs
  | ObjS xs => xs
  end.

(** A scalar repeated over [n] rows, with the dtype pandas infers for it. *)
Definition broadcast (v : pyval) (n : nat) : Series :=
  match v with
  | PyFloat x => FloatS (replicate n x)
  | PyInt z => IntS (replicate n z)
  | PyTimestamp t => DateS (replicate n t)
  | PyStr _ | PyNone => ObjS (replicate n v)
  end.

(** Dictionaries in insertion order. *)
Fixpoint assoc {A : Type} (k : string) (l : list (string * A)) : option A :=
  match l with
  | [] => None
  | (k', v) :: l => if String.eqb k' k then Some v else assoc k l
  end.

(** [d[k] = v]: the key keeps its place when present, else goes last. *)
Fixpoint assoc_set {A : Type} (k : string) (v : A) (l : list (string * A))
  : list (string * A) :=
  match l with
  | [] => [(k, v)]
  | (k', w) :: l =>
      if String.eqb k' k then (k', v) :: l else (k', w) :: assoc_set k v l
  end.

Definition mem (k : string) (l : list string) : bool := existsb (String.eqb k) l.

Definition column_names (df : DataFrame) : list string := map fst (columns df).

(** [name in df.columns] *)
Definition has_column (df : DataFrame) (name : string) : bool :=
  mem name (column_names df).

(** [df[name]] *)
Definition getitem (df : DataFrame) (name : string) : res Series :=
  match assoc name (columns df) with
  | Some s => Ok s
  | None => Raise (KeyError name)
  end.

(** The frame after [df[name] = s]. *)
Definition setitem (df : DataFrame) (name : string) (s : Series) : DataFrame :=
  {| nrows := nrows df; columns := assoc_set name s (columns df) |}.

(** [df[names]]: the listed columns, in the order listed. *)
Definition getitems (df : DataFrame) (names : list string) : res DataFrame :=
  cols ← mapM (fun n => s ← getitem df n; Ok (n, s)) names;
  Ok {| nrows := nrows df; columns := cols |}.

(** [pd.DataFrame([d])]: one row from a dictionary. *)
Definition frame_of_dict (d : list (string * pyval)) : DataFrame :=
  {| nrows := 1; columns := map (fun '(k, v) => (k, broadcast v 1)) d |}.

(** [pd.DataFrame(0, index=index, columns=names)] *)
Definition zeros (n : nat) (names : list string) : DataFrame :=
  {| nrows := n; columns := map (fun name => (name, IntS (replicate n 0))) names |}.

Definition df_iloc (idx : list nat) (df : DataFrame) : DataFrame :=
  {| nrows := length (List.filter (fun i => (i <? nrows df)%nat) idx);
     columns := map (fun '(n, s) => (n, series_iloc idx s)) (columns df) |}.

(** [df.iloc[-1:]]: the last row as a frame, no row when there is none. *)
Definition iloc_tail (df : DataFrame) : DataFrame :=
  df_iloc (match nrows df with O => [] | S n => [n] end) df.

(** [df.iloc[-1]]: the last row as a dictionary of scalars. *)
Definition iloc_last (df : DataFrame) : res (list (string * pyval)) :=
  match nrows df with
  | O => Raise (IndexError "single positional indexer is out-of-bounds")
  | S n =>
      mapM (fun '(name, s) =>
              match to_pyvals s !! n with
              | Some v => Ok (name, v)
              | None => Raise (IndexError "single positional indexer is out-of-bounds")
              end) (columns df)
  end.

(** [s.iloc[-1]] *)
Definition series_last (s : Series) : res pyval :=
  match last (to_pyvals s) with
  | Some v => Ok v
  | None => Raise (IndexError "single positional indexer is out-of-bounds")
  end.

(** [df.dropna()]: the rows in which no column is NaN, NaT or None. *)
Definition notna_row (df : DataFrame) (i : nat) : bool :=
  forallb (fun c => negb (nth i (isna (snd c)) false)) (columns df).

Definition dropna (df : DataFrame) : DataFrame :=
  let keep := map (notna_row df) (seq 0 (nrows df)) in
  {| nrows := length (select keep keep);
     columns := map (fun c => (fst c, series_select keep (snd c))) (columns df) |}.

(** [s.shift(k)]: integers become floats to make room for NaN. *)
Definition shift_list {A : Type} (fill : A) (k : nat) (xs : list A) : list A :=
  take (length xs) (replicate k fill ++ xs).

Definition shift (k : nat) (s : Series) : Series :=
  match s with
  | FloatS xs => FloatS (shift_list None k xs)
  | IntS xs => FloatS (shift_list None k (map (fun n => Some (inject_Z n)) xs))
  | DateS xs => DateS (shift_list None k xs)
  | ObjS xs => ObjS (shift_list (PyFloat None) k xs)
  end.

(** The numeric values of a column; numpy and pandas refuse arithmetic and
    aggregation on the others. *)
Definition to_numeric (s : Series) : res (list float64) :=
  match s with
  | FloatS xs => Ok xs
  | IntS xs => Ok (map (fun n => Some (inject_Z n)) xs)
  | DateS _ | ObjS _ => Raise (TypeError "non-numeric column")
  end.

Fixpoint all_defined (xs : list float64) : option (list Q) :=
  match xs with
  | [] => Some []
  | x :: xs => v ← x; vs ← all_defined xs; Some (v :: vs)
  end.

(** [s.rolling(w)]: the [w] values ending at row [i]; the window is
    undefined while fewer than [w] rows are available, and whenever it holds
    a NaN ([min_periods] defaults to the window size). *)
Definition window (w : nat) (xs : list float64) (i : nat) : option (list Q) :=
  if (w <=? i + 1)%nat then all_defined (take w (drop (i + 1 - w) xs)) else None.

Definition rolling (w : nat) (agg : list Q -> float64) (xs : list float64)
  : list float64 :=
  map (fun i => window w xs i ≫= agg) (seq 0 (length xs)).

Definition Qsum (xs : list Q) : Q := fold_left Qplus xs 0%Q.

Definition Qmean (xs : list Q) : float64 :=
  match xs with
  | [] => None
  | _ => Some (Qsum xs / inject_Z (Z.of_nat (length xs)))%Q
  end.

Definition Qmaximum (xs : list Q) : float64 :=
  match xs with [] => None | x :: xs => Some (fold_left Qmax xs x) end.

Definition Qminimum (xs : list Q) : float64 :=
  match xs with [] => None | x :: xs => Some (fold_left Qmin xs x) end.

Definition lift2 (f : Q -> Q -> Q) (a b : float64) : float64 :=
  x ← a; y ← b; Some (f x y).

(** Element-wise arithmetic of two columns. *)
Definition map2 {A B C : Type} (f : A -> B -> C) (xs : list A) (ys : list B) : list C :=
  map (fun p => f (fst p) (snd p)) (combine xs ys).

(** ** What the third-party libraries provide *)

(** A fitted sub-model: one prediction for each feature row. *)
Definition Regressor : Type := list float64 -> Q.

(** An estimator before fitting: [fit(X, y)] on the rows of [X]. *)
Definition Learner : Type := list (list float64) -> list Q -> Regressor.

Class Library : Type := {
  (** numpy over the reals *)
  np_sin : Q -> Q;
  np_cos : Q -> Q;
  np_sqrt : Q -> Q;
  (** [x ** e] for a base that is not negative *)
  np_pow : Q -> Q -> Q;
  (** the estimator constructors, from their keyword arguments *)
  XGBRegressor : list (string * pyval) -> Learner;
  LGBMRegressor : list (string * pyval) -> Learner;
  RandomForestRegressor : list (string * pyval) -> Learner;
  (** [generate_synthetic_training_data], which draws from numpy's random
      generator: the frame it builds at a given time for [n_days] days *)
  synthetic_weather : Z -> nat -> DataFrame
}.

Definition np_pi : Q := 3.141592653589793%Q.

(** ** [class WeatherFeatureEngineer]

    Each [create_*] method is [df = df.copy()] followed by a sequence of
    column assignments [df[name] = rhs], some of them under an
    [if ... in df.columns].  The assignments are kept as a block of
    statements; on frame values the copy is the identity, and the block is
    run by [run_block].  The same blocks are run on frame objects in a store
    further down, where the copy allocates. *)

Definition expr : Type := DataFrame -> res Series.

Inductive stmt : Type :=
| Assign (name : string) (rhs : expr)
| IfColumns (required : list string) (body : list (string * expr)).

Definition assign (df : DataFrame) (a : string * expr) : res DataFrame :=
  s ← snd a df; Ok (setitem df (fst a) s).

Fixpoint assign_all (body : list (string * expr)) (df : DataFrame) : res DataFrame :=
  match body with
  | [] => Ok df
  | a :: body => df ← assign df a; assign_all body df
  end.

Definition run_stmt (df : DataFrame) (st : stmt) : res DataFrame :=
  match st with
  | Assign name rhs => assign df (name, rhs)
  | IfColumns required body =>
      if forallb (has_column df) required then assign_all body df else Ok df
  end.

Fixpoint run_block (b : list stmt) (df : DataFrame) : res DataFrame :=
  match b with
  | [] => Ok df
  | st :: b => df ← run_stmt df st; run_block b df
  end.

Definition ns_per_day : Z := 86400000000000.

(** [pd.to_datetime] of one value: numbers count nanoseconds since the epoch. *)
Definition scalar_to_datetime (v : pyval) : res (option Z) :=
  match v with
  | PyNone | PyFloat None => Ok None
  | PyFloat (Some q) => Ok (Some (Qfloor q / ns_per_day))
  | PyInt n => Ok (Some (n / ns_per_day))
  | PyTimestamp t => Ok t
  | PyStr s =>
      match Calendar.parse s with
      | Some z => Ok (Some z)
      | None => Raise (ValueError "Unknown datetime string format")
      end
  end.

Definition pd_to_datetime (s : Series) : res Series :=
  match s with
  | DateS xs => Ok (DateS xs)
  | _ => ts ← mapM scalar_to_datetime (to_pyvals s); Ok (DateS ts)
  end.

Definition datetimelike (s : Series) : res (list (option Z)) :=
  match s with
  | DateS xs => Ok xs
  | _ => Raise (AttributeError "Can only use .dt accessor with datetimelike values")
  end.

Fixpoint all_dates (xs : list (option Z)) : option (list Z) :=
  match xs with
  | [] => Some []
  | x :: xs => v ← x; vs ← all_dates xs; Some (v :: vs)
  end.

(** [s.dt.<field>]: integers, or floats with NaN where the date is NaT. *)
Definition dt (field : Z -> Z) (s : Series) : res Series :=
  xs ← datetimelike s;
  match all_dates xs with
  | Some ds => Ok (IntS (map field ds))
  | None => Ok (FloatS (map (option_map (fun d => inject_Z (field d))) xs))
  end.

(** [s.dt.isocalendar().week.astype(int)] *)
Definition dt_isocalendar_week_int (s : Series) : res Series :=
  xs ← datetimelike s;
  match all_dates xs with
  | Some ds => Ok (IntS (map Calendar.isoweek ds))
  | None => Raise (TypeError "cannot convert NA to integer")
  end.

Definition Zmem (n : Z) (l : list Z) : bool := existsb (Z.eqb n) l.

(** [s.isin(values).astype(int)] *)
Definition isin_int (values : list Z) (s : Series) : Series :=
  let flag (b : bool) : Z := if b then 1 else 0 in
  IntS (match s with
        | IntS xs => map (fun n => flag (Zmem n values)) xs
        | FloatS xs =>
            map (fun x => flag (match x with
                                | Some q => existsb (fun v => Qeq_bool q (inject_Z v)) values
                                | None => false
                                end)) xs
        | DateS xs => map (fun _ => 0) xs
        | ObjS xs => map (fun _ => 0) xs
        end).

(** [str(n)] *)
Definition str (n : nat) : string := pretty n.

Definition weather_cols : list string :=
  ["temp_max"; "temp_min"; "humidity"; "pressure"; "wind_speed"; "precipitation"].

Definition heat_index (T H : Q) : Q :=
  (-8.78469475556 +
   1.61139411 * T +
   2.33854883889 * H -
   0.14611605 * T * H -
   0.012308094 * T ^ 2 -
   0.0164248277778 * H ^ 2 +
   0.002211732 * T ^ 2 * H +
   0.00072546 * T * H ^ 2 -
   0.000003582 * T ^ 2 * H ^ 2)%Q.

Section FeatureEngineer.

Context `{Library}.

(** [f(2 * np.pi * s / period)] *)
Definition cyclical (f : Q -> Q) (period : Z) (s : Series) : res Series :=
  xs ← to_numeric s;
  Ok (FloatS (map (option_map (fun x => f (2 * np_pi * x / inject_Z period)%Q)) xs)).

Definition temporal_block : list stmt :=
  [ Assign "date" (fun df => getitem df "date" ≫= pd_to_datetime);

    Assign "day_of_year" (fun df => getitem df "date" ≫= dt Calendar.dayofyear);
    Assign "day_of_week" (fun df => getitem df "date" ≫= dt Calendar.dayofweek);
    Assign "month" (fun df => getitem df "date" ≫= dt Calendar.month);
    Assign "quarter" (fun df => getitem df "date" ≫= dt Calendar.quarter);
    Assign "week_of_year" (fun df => getitem df "date" ≫= dt_isocalendar_week_int);
    Assign "is_weekend" (fun df => s ← getitem df "day_of_week"; Ok (isin_int [5; 6] s));

    Assign "sin_day" (fun df => getitem df "day_of_year" ≫= cyclical np_sin 365);
    Assign "cos_day" (fun df => getitem df "day_of_year" ≫= cyclical np_cos 365);
    Assign "sin_month" (fun df => getitem df "month" ≫= cyclical np_sin 12);
    Assign "cos_month" (fun df => getitem df "month" ≫= cyclical np_cos 12);
    Assign "sin_dow" (fun df => getitem df "day_of_week" ≫= cyclical np_sin 7);
    Assign "cos_dow" (fun df => getitem df "day_of_week" ≫= cyclical np_cos 7) ].

(** Extract time-based features *)
Definition create_temporal_features (df : DataFrame) : res DataFrame :=
  run_block temporal_block df.

Definition lag_block (cols : list string) (lags : list nat) : list stmt :=
  col ← cols;
  lag ← lags;
  [ Assign (col +:+ "_lag_" +:+ str lag)
           (fun df => s ← getitem df col; Ok (shift lag s)) ].

(** Create lagged features for time series *)
Definition create_lag_features (df : DataFrame) (cols : list string) (lags : list nat)
  : res DataFrame :=
  run_block (lag_block cols lags) df.

(** Sample standard deviation of a window ([ddof = 1]). *)
Definition Qstd (xs : list Q) : float64 :=
  match xs with
  | [] | [_] => None
  | _ =>
      m ← Qmean xs;
      Some (np_sqrt (Qsum (map (fun x => (x - m) ^ 2) xs)
                     / inject_Z (Z.of_nat (length xs) - 1)))%Q
  end.

Definition roll (col : string) (window : nat) (agg : list Q -> float64) : expr :=
  fun df => s ← getitem df col; xs ← to_numeric s; Ok (FloatS (rolling window agg xs)).

Definition rolling_block (cols : list string) : list stmt :=
  let windows := [3; 7; 14]%nat in
  col ← cols;
  window ← windows;
  [ Assign (col +:+ "_roll_mean_" +:+ str window) (roll col window Qmean);
    Assign (col +:+ "_roll_std_" +:+ str window) (roll col window Qstd);
    Assign (col +:+ "_roll_max_" +:+ str window) (roll col window Qmaximum);
    Assign (col +:+ "_roll_min_" +:+ str window) (roll col window Qminimum) ].

(** Create rolling statistics *)
Definition create_rolling_features (df : DataFrame) (cols : list string) : res DataFrame :=
  run_block (rolling_block cols) df.

(** [x ** e] with a fractional exponent: NaN on a negative base. *)
Definition power (x : float64) (e : Q) : float64 :=
  v ← x; if Qle_bool 0 v then Some (np_pow v e) else None.

Definition wind_chill (temp_min wind_speed : float64) : float64 :=
  t ← temp_min;
  p ← power wind_speed 0.16;
  Some (13.12 + 0.6215 * t - 11.37 * p + 0.3965 * t * p)%Q.

(** A column computed row by row from two numeric columns. *)
Definition binary (f : float64 -> float64 -> float64) (a b : string) : expr :=
  fun df =>
    xs ← getitem df a ≫= to_numeric;
    ys ← getitem df b ≫= to_numeric;
    Ok (FloatS (map2 f xs ys)).

Definition indices_block : list stmt :=
  [ (* Heat index approximation *)
    IfColumns ["temp_max"; "humidity"]
      [ ("heat_index", binary (lift2 heat_index) "temp_max" "humidity") ];
    (* Temperature range *)
    IfColumns ["temp_max"; "temp_min"]
      [ ("temp_range", binary (lift2 Qminus) "temp_max" "temp_min");
        ("temp_avg", binary (lift2 (fun a b => (a + b) / 2)%Q) "temp_max" "temp_min") ];
    (* Wind chill *)
    IfColumns ["temp_min"; "wind_speed"]
      [ ("wind_chill", binary wind_chill "temp_min" "wind_speed") ] ].

(** Create derived weather indices *)
Definition create_weather_indices (df : DataFrame) : res DataFrame :=
  run_block indices_block df.

(** Full feature engineering pipeline *)
Definition engineer_features (df : DataFrame) : res DataFrame :=
  df ← create_temporal_features df;

  let existing_cols := List.filter (has_column df) weather_cols in

  df ← create_lag_features df existing_cols [1; 2; 3; 7]%nat;
  df ← create_rolling_features df existing_cols;
  df ← create_weather_indices df;

  Ok (dropna df).

End FeatureEngineer.

(** ** scikit-learn: the voting ensemble, the split, the metrics *)

(** The feature rows of a frame, as the estimators receive them. *)
Definition feature_rows (X : DataFrame) : res (list (list float64)) :=
  cols ← mapM (fun c => to_numeric (snd c)) (columns X);
  Ok (map (fun i => map (fun col => default None (col !! i)) cols) (seq 0 (nrows X))).

Definition target_values (y : Series) : res (list Q) :=
  ys ← to_numeric y;
  match all_defined ys with
  | Some vs => Ok vs
  | None => Raise (ValueError "Input y contains NaN.")
  end.

(** scikit-learn's input validation asks for one sample at least.  Which
    sub-model of an ensemble meets a matrix of no rows first is the
    libraries' matter; the random forest refuses it with this error, and
    were an empty array returned instead, [[0]] on it would raise as well. *)
Definition EmptyInput : exn :=
  ValueError "Found array with 0 sample(s) while a minimum of 1 is required.".

(** [VotingRegressor(estimators=..., weights=...)] before and after [fit]. *)
Record VotingRegressor : Type := mkVotingRegressor {
  estimators : list (string * Learner);
  weights : list Q
}.

Record FittedVotingRegressor : Type := mkFitted {
  estimators_ : list Regressor;
  weights_ : list Q
}.

(** [np.average(values, weights=weights)] *)
Definition np_average (values weights : list Q) : Q :=
  (Qsum (map2 Qmult values weights) / Qsum weights)%Q.

(** The ensemble's prediction for one feature row. *)
Definition predict_row (model : FittedVotingRegressor) (row : list float64) : Q :=
  np_average (map (fun est => est row) (estimators_ model)) (weights_ model).

Definition voting_fit (model : VotingRegressor) (X : DataFrame) (y : Series)
  : res FittedVotingRegressor :=
  if (nrows X =? 0)%nat then Raise EmptyInput
  else
    rows ← feature_rows X;
    ys ← target_values y;
    Ok {| estimators_ := map (fun e => snd e rows ys) (estimators model);
          weights_ := weights model |}.

Definition voting_predict (model : FittedVotingRegressor) (X : DataFrame) : res (list Q) :=
  if (nrows X =? 0)%nat then Raise EmptyInput
  else rows ← feature_rows X; Ok (map (predict_row model) rows).

(** [values[0]] *)
Definition first {A : Type} (values : list A) : res A :=
  match values with
  | v :: _ => Ok v
  | [] => Raise (IndexError "index 0 is out of bounds for axis 0 with size 0")
  end.

(** [train_test_split(X, y, test_size=0.2, shuffle=False)]: the test size is
    the ceiling of a fifth of the rows, the training rows are the rest, and
    an empty training set is refused.  Without shuffling the training
    indices are [0 .. n_train - 1] and the test indices follow them. *)
Definition EmptyTrainingSet (n_samples : nat) : exn :=
  ValueError ("With n_samples=" +:+ str n_samples +:+
              ", test_size=0.2 and train_size=None, the resulting train set " +:+
              "will be empty. Adjust any of the aforementioned parameters.").

Definition validate_shuffle_split (n_samples : nat) : res (nat * nat) :=
  let n_test := Z.to_nat (Qceiling (0.2 * inject_Z (Z.of_nat n_samples))) in
  let n_train := (n_samples - n_test)%nat in
  if (n_train =? 0)%nat then Raise (EmptyTrainingSet n_samples)
  else Ok (n_train, n_test).

Definition split_indices (n_samples : nat) : res (list nat * list nat) :=
  '(n_train, n_test) ← validate_shuffle_split n_samples;
  Ok (seq 0 n_train, seq n_train n_test).

Definition train_test_split (X : DataFrame) (y : Series)
  : res (DataFrame * DataFrame * Series * Series) :=
  '(train, test) ← split_indices (nrows X);
  Ok (df_iloc train X, df_iloc test X, series_iloc train y, series_iloc test y).

Definition mean_squared_error (y_true y_pred : list Q) : float64 :=
  Qmean (map2 (fun a b => (a - b) ^ 2)%Q y_true y_pred).

Definition mean_absolute_error (y_true y_pred : list Q) : float64 :=
  Qmean (map2 (fun a b => Qabs (a - b)) y_true y_pred).

(** R²; not defined on fewer than two samples, and made finite when the
    targets are constant. *)
Definition r2_score (y_true y_pred : list Q) : float64 :=
  match y_true with
  | [] | [_] => None
  | _ =>
      m ← Qmean y_true;
      let ss_res := Qsum (map2 (fun a b => (a - b) ^ 2)%Q y_true y_pred) in
      let ss_tot := Qsum (map (fun a => (a - m) ^ 2)%Q y_true) in
      if Qeq_bool ss_tot 0 then Some (if Qeq_bool ss_res 0 then 1 else 0)%Q
      else Some (1 - ss_res / ss_tot)%Q
  end.

(** [np.mean] of floats: NaN as soon as one of them is. *)
Definition np_mean (xs : list float64) : float64 := all_defined xs ≫= Qmean.

(** [round(x, 2)], ties to even. *)
Definition round_half_even (q : Q) : Z :=
  let f := Qfloor q in
  match (q - inject_Z f ?= 1 # 2)%Q with
  | Lt => f
  | Gt => f + 1
  | Eq => if Z.even f then f else f + 1
  end.

Definition round2 (q : Q) : Q := (inject_Z (round_half_even (q * 100)) / 100)%Q.

(** [pd.concat([a, b], ignore_index=True)]: the union of the columns, those
    of [a] first; a column missing on one side is NaN there. *)
Definition of_ints (xs : list Z) : list float64 := map (fun n => Some (inject_Z n)) xs.

Definition pad_after (s : Series) (n : nat) : Series :=
  match s with
  | FloatS xs => FloatS (xs ++ replicate n None)
  | IntS xs => FloatS (of_ints xs ++ replicate n None)
  | DateS xs => DateS (xs ++ replicate n None)
  | ObjS xs => ObjS (xs ++ replicate n (PyFloat None))
  end.

Definition pad_before (n : nat) (s : Series) : Series :=
  match s with
  | FloatS xs => FloatS (replicate n None ++ xs)
  | IntS xs => FloatS (replicate n None ++ of_ints xs)
  | DateS xs => DateS (replicate n None ++ xs)
  | ObjS xs => ObjS (replicate n (PyFloat None) ++ xs)
  end.

Definition concat_series (n1 n2 : nat) (a b : option Series) : Series :=
  match a, b with
  | Some (FloatS xs), Some (FloatS ys) => FloatS (xs ++ ys)
  | Some (IntS xs), Some (IntS ys) => IntS (xs ++ ys)
  | Some (DateS xs), Some (DateS ys) => DateS (xs ++ ys)
  | Some (IntS xs), Some (FloatS ys) => FloatS (of_ints xs ++ ys)
  | Some (FloatS xs), Some (IntS ys) => FloatS (xs ++ of_ints ys)
  | Some a, Some b => ObjS (to_pyvals a ++ to_pyvals b)
  | Some a, None => pad_after a n2
  | None, Some b => pad_before n1 b
  | None, None => FloatS (replicate (n1 + n2) None)
  end.

Definition concat (a b : DataFrame) : DataFrame :=
  let names := column_names a
               ++ List.filter (fun n => negb (has_column a n)) (column_names b) in
  {| nrows := nrows a + nrows b;
     columns := map (fun n => (n, concat_series (nrows a) (nrows b)
                                    (assoc n (columns a)) (assoc n (columns b))))
                    names |}.

(** ** [class WeatherMLModel] *)

Record Metrics : Type := mkMetrics {
  rmse : float64;
  mae : float64;
  r2 : float64
}.

(** The attributes of the object.  [target_columns] is set once by
    [__init__] and never assigned again: it is the constant below.  The
    feature engineer the object holds has no attribute that any method
    reads. *)
Record WeatherMLModel : Type := mkWeatherMLModel {
  experiment_name : string;
  models : gmap string FittedVotingRegressor;
  feature_columns : list string;
  model_metrics : list (string * Metrics);
  run_id : option string
}.

Definition target_columns : list string :=
  ["temp_max"; "temp_min"; "precipitation"; "humidity"; "wind_speed"].

(** [WeatherMLModel(experiment_name)] *)
Definition init (experiment_name : string) : WeatherMLModel :=
  {| experiment_name := experiment_name;
     models := ∅;
     feature_columns := [];
     model_metrics := [];
     run_id := None |}.

(** What [joblib.dump] writes. *)
Record Artifact : Type := mkArtifact {
  artifact_models : gmap string FittedVotingRegressor;
  artifact_feature_columns : list string;
  artifact_metrics : list (string * Metrics);
  artifact_run_id : string;
  artifact_trained_at : Z
}.

(** What [train] returns. *)
Record TrainResult : Type := mkTrainResult {
  result_run_id : string;
  result_metrics : list (string * Metrics);
  avg_r2 : float64;
  avg_rmse : float64;
  model_path : string
}.

(** The object and the files written so far. *)
Record World : Type := mkWorld {
  self : WeatherMLModel;
  disk : list (string * Artifact)
}.

(** Methods: they may raise, and what they did to the object and to the
    disk before raising stays done. *)
Definition M (A : Type) : Type := World -> res A * World.

#[global] Instance M_ret : MRet M := fun A a w => (inr a, w).
#[global] Instance M_bind : MBind M :=
  fun A B k m w =>
    match m w with
    | (inl e, w) => (inl e, w)
    | (inr a, w) => k a w
    end.

Definition lift {A : Type} (r : res A) : M A := fun w => (r, w).

Definition get_self : M WeatherMLModel := fun w => (inr (self w), w).

Definition update_self (f : WeatherMLModel -> WeatherMLModel) : M unit :=
  fun w => (inr tt, {| self := f (self w); disk := disk w |}).

Definition joblib_dump (a : Artifact) (path : string) : M unit :=
  fun w => (inr tt, {| self := self w; disk := assoc_set path a (disk w) |}).

Definition set_feature_columns (cols : list string) (m : WeatherMLModel) : WeatherMLModel :=
  {| experiment_name := experiment_name m;
     models := models m;
     feature_columns := cols;
     model_metrics := model_metrics m;
     run_id := run_id m |}.

Definition set_model (target : string) (ensemble : FittedVotingRegressor)
  (m : WeatherMLModel) : WeatherMLModel :=
  {| experiment_name := experiment_name m;
     models := <[target := ensemble]> (models m);
     feature_columns := feature_columns m;
     model_metrics := model_metrics m;
     run_id := run_id m |}.

Definition set_run (metrics : list (string * Metrics)) (run : string)
  (m : WeatherMLModel) : WeatherMLModel :=
  {| experiment_name := experiment_name m;
     models := models m;
     feature_columns := feature_columns m;
     model_metrics := metrics;
     run_id := Some run |}.

Definition numeric_dtype (s : Series) : bool :=
  match s with FloatS _ | IntS _ => true | DateS _ | ObjS _ => false end.

(** [not self.models] *)
Definition no_models (m : WeatherMLModel) : bool :=
  match map_to_list (models m) with [] => true | _ :: _ => false end.

Section Model.

Context `{Library}.

Definition _build_xgboost : Learner :=
  XGBRegressor
    [ ("n_estimators", PyInt 500);
      ("max_depth", PyInt 6);
      ("learning_rate", PyFloat (Some 0.05%Q));
      ("subsample", PyFloat (Some 0.8%Q));
      ("colsample_bytree", PyFloat (Some 0.8%Q));
      ("min_child_weight", PyInt 3);
      ("gamma", PyFloat (Some 0.1%Q));
      ("reg_alpha", PyFloat (Some 0.1%Q));
      ("reg_lambda", PyFloat (Some 1.0%Q));
      ("random_state", PyInt 42);
      ("n_jobs", PyInt (-1));
      ("tree_method", PyStr "hist") ].

Definition _build_lightgbm : Learner :=
  LGBMRegressor
    [ ("n_estimators", PyInt 500);
      ("max_depth", PyInt 6);
      ("learning_rate", PyFloat (Some 0.05%Q));
      ("num_leaves", PyInt 31);
      ("subsample", PyFloat (Some 0.8%Q));
      ("colsample_bytree", PyFloat (Some 0.8%Q));
      ("min_child_samples", PyInt 20);
      ("reg_alpha", PyFloat (Some 0.1%Q));
      ("reg_lambda", PyFloat (Some 1.0%Q));
      ("random_state", PyInt 42);
      ("n_jobs", PyInt (-1));
      ("verbose", PyInt (-1)) ].

Definition _build_random_forest : Learner :=
  RandomForestRegressor
    [ ("n_estimators", PyInt 200);
      ("max_depth", PyInt 10);
      ("min_samples_split", PyInt 5);
      ("min_samples_leaf", PyInt 2);
      ("max_features", PyStr "sqrt");
      ("random_state", PyInt 42);
      ("n_jobs", PyInt (-1)) ].

(** The ensemble [train] builds for each target. *)
Definition build_ensemble : VotingRegressor :=
  {| estimators :=
       [ ("xgb", _build_xgboost);
         ("lgb", _build_lightgbm);
         ("rf", _build_random_forest) ];
     weights := [0.4; 0.4; 0.2]%Q |}.

(** Prepare features and target for training *)
Definition prepare_features (df : DataFrame) (target : string) : M (DataFrame * Series) :=
  df_engineered ← lift (engineer_features df);

  let exclude_cols :=
    ["date"] ++ target_columns ++
    List.filter (fun c => negb (String.eqb c target) && has_column df_engineered c)
                target_columns in
  let feature_cols :=
    List.filter (fun c => negb (mem c exclude_cols)) (column_names df_engineered) in

  (* Keep only numeric columns *)
  let feature_cols :=
    List.filter (fun c => match assoc c (columns df_engineered) with
                          | Some s => numeric_dtype s
                          | None => false
                          end) feature_cols in

  X ← lift (getitems df_engineered feature_cols);
  y ← lift (getitem df_engineered target);

  _ ← update_self (set_feature_columns feature_cols);
  mret (X, y).

(** The body of the loop over the targets in [train]. *)
Definition train_target (df : DataFrame) (all_metrics : list (string * Metrics))
  (target : string) : M (list (string * Metrics)) :=
  '(X, y) ← prepare_features df target;

  (* Time-series split *)
  '(X_train, X_test, y_train, y_test) ← lift (train_test_split X y);

  (* Build models, ensemble *)
  ensemble ← lift (voting_fit build_ensemble X_train y_train);
  y_pred ← lift (voting_predict ensemble X_test);

  (* Metrics *)
  y_test ← lift (target_values y_test);
  let metrics :=
    {| rmse := np_sqrt <$> mean_squared_error y_test y_pred;
       mae := mean_absolute_error y_test y_pred;
       r2 := r2_score y_test y_pred |} in

  _ ← update_self (set_model target ensemble);
  mret (assoc_set target metrics all_metrics).

Fixpoint train_targets (df : DataFrame) (all_metrics : list (string * Metrics))
  (targets : list string) : M (list (string * Metrics)) :=
  match targets with
  | [] => mret all_metrics
  | target :: targets =>
      all_metrics ← train_target df all_metrics target;
      train_targets df all_metrics targets
  end.

(** Train the ensemble model.  [now] is the clock and [run] the run id
    the tracking server hands out; tracking itself is not modelled. *)
Definition train (now : Z) (run : string) (df : option DataFrame) : M TrainResult :=
  let df := default (synthetic_weather now 3650) df in

  _ ← lift (getitem df "date");

  all_metrics ← train_targets df [] target_columns;

  (* Log average metrics *)
  let avg_r2 := np_mean (map (fun m => r2 (snd m)) all_metrics) in
  let avg_rmse := np_mean (map (fun m => rmse (snd m)) all_metrics) in

  (* Save model *)
  let model_path := "/tmp/weather_model_" +:+ run in
  self ← get_self;
  _ ← joblib_dump {| artifact_models := models self;
                     artifact_feature_columns := feature_columns self;
                     artifact_metrics := all_metrics;
                     artifact_run_id := run;
                     artifact_trained_at := now |} (model_path +:+ ".pkl");

  _ ← update_self (set_run all_metrics run);

  mret {| result_run_id := run;
          result_metrics := all_metrics;
          avg_r2 := avg_r2;
          avg_rmse := avg_rmse;
          model_path := model_path +:+ ".pkl" |}.

(** [timestamp + timedelta(days=1)] *)
Definition next_day (v : pyval) : res (option Z) :=
  match v with
  | PyTimestamp t => Ok ((fun d => d + 1) <$> t)
  | _ => Raise (TypeError "unsupported operand type(s) for +")
  end.

Definition strftime (t : option Z) : res string :=
  match t with
  | Some d => Ok (Calendar.strftime d)
  | None => Raise (ValueError "NaTType does not support strftime")
  end.

(** Pad missing features with zeros *)
Fixpoint pad (X_padded X_pred : DataFrame) (available_features : list string)
  : res DataFrame :=
  match available_features with
  | [] => Ok X_padded
  | col :: available_features =>
      s ← getitem X_pred col;
      pad (setitem X_padded col s) X_pred available_features
  end.

(** The loop over the targets that fills one day's forecast. *)
Fixpoint forecast_targets (self : WeatherMLModel) (X_pred : DataFrame)
  (available_features : list string) (day_forecast : list (string * pyval))
  (targets : list string) : res (list (string * pyval)) :=
  match targets with
  | [] => Ok day_forecast
  | target :: targets =>
      day_forecast ←
        match models self !! target with
        | Some model =>
            X_padded ← pad (zeros (nrows X_pred) (feature_columns self))
                           X_pred available_features;
            pred ← voting_predict model X_padded ≫= first;
            Ok (assoc_set target (PyFloat (Some (round2 pred))) day_forecast)
        | None => Ok day_forecast
        end;
      forecast_targets self X_pred available_features day_forecast targets
  end.

(** Update current data with prediction for next iteration *)
Definition carry (day_forecast : list (string * pyval)) (new_row : list (string * pyval))
  : list (string * pyval) :=
  fold_left (fun new_row target =>
               match assoc target day_forecast with
               | Some v => assoc_set target v new_row
               | None => new_row
               end) target_columns new_row.

(** One iteration of the loop over the days in [predict]. *)
Definition predict_day (self : WeatherMLModel) (current_data : DataFrame)
  : res (list (string * pyval) * DataFrame) :=
  last_date ← getitem current_data "date" ≫= series_last;
  forecast_date ← next_day last_date;
  let current_data_copy :=
    setitem current_data "date"
            (broadcast (PyTimestamp forecast_date) (nrows current_data)) in

  df_features ← engineer_features current_data_copy;
  let available_features :=
    List.filter (has_column df_features) (feature_columns self) in

  X_pred ← iloc_tail <$> getitems df_features available_features;

  date ← strftime forecast_date;
  day_forecast ← forecast_targets self X_pred available_features
                                  [("date", PyStr date)] target_columns;

  new_row ← iloc_last current_data;
  let new_row := assoc_set "date" (PyTimestamp forecast_date) new_row in
  let new_row := carry day_forecast new_row in
  Ok (day_forecast, concat current_data (frame_of_dict new_row)).

Fixpoint predict_days (self : WeatherMLModel) (forecast_days : nat)
  (current_data : DataFrame) (forecasts : list (list (string * pyval)))
  : res (list (list (string * pyval))) :=
  match forecast_days with
  | O => Ok forecasts
  | S forecast_days =>
      '(day_forecast, current_data) ← predict_day self current_data;
      predict_days self forecast_days current_data (forecasts ++ [day_forecast])
  end.

Definition ModelNotTrained : exn := ValueError "Model not trained. Call train() first.".

(** [current_data.get('date', datetime.now())] through [pd.to_datetime] *)
Definition seed_dates (now : Z) (current_data : DataFrame) : res Series :=
  match assoc "date" (columns current_data) with
  | Some s => pd_to_datetime s
  | None => Ok (broadcast (PyTimestamp (Some now)) (nrows current_data))
  end.

(** Generate multi-day forecast.  [now] is the clock. *)
Definition predict (now : Z) (features : list (string * pyval)) (forecast_days : nat)
  : M (list (list (string * pyval))) :=
  self ← get_self;
  if no_models self then lift (Raise ModelNotTrained)
  else
    lift (let current_data := frame_of_dict features in
          dates ← seed_dates now current_data;
          let current_data := setitem current_data "date" dates in
          predict_days self forecast_days current_data []).

End Model.

(** ** [class ModelRegistry] ([app/services/model_registry.py]) *)

Module Registry.

Record ModelRegistry : Type := mkModelRegistry {
  current_model : option WeatherMLModel;
  model_version : option string;
  loaded_at : option Z
}.

(** [ModelRegistry()] *)
Definition init : ModelRegistry :=
  {| current_model := None; model_version := None; loaded_at := None |}.

(** [try: body except Exception as e: handler] *)
Definition try_except {S A : Type} (body : S -> res A * S) (handler : exn -> S -> res A * S)
  : S -> res A * S :=
  fun s => match body s with
           | (inl e, s) => handler e s
           | (inr a, s) => (inr a, s)
           end.

(** Load the latest production model.  The method takes no stage; the
    registry lookup is a comment in the source, and [current_model] is not
    assigned.  The handler only logs a warning. *)
Definition load_latest_model (now : Z) : ModelRegistry -> res unit * ModelRegistry :=
  try_except
    (fun r => (Ok tt, {| current_model := current_model r;
                         model_version := Some "1.0.0-ensemble";
                         loaded_at := Some now |}))
    (fun e r => (Ok tt, r)).

(** Generate predictions using loaded model *)
Definition predict `{Library} (now : Z) (features : list (string * pyval)) (days : nat)
  (r : ModelRegistry) : res (list (list (string * pyval))) :=
  match current_model r with
  | None => Raise (ValueError "No model loaded")
  | Some model => fst (predict now features days {| self := model; disk := [] |})
  end.

Definition is_loaded (r : ModelRegistry) : bool := true.

Definition version (r : ModelRegistry) : option string := model_version r.

End Registry.

(** ** The validation gate ([scripts/validate_model.py]) *)

Module Validate.










End Validate.

(** ** Frames as objects

    The feature engineer once more, on frame objects in a store: a frame is
    reached through its address, [df.copy()] allocates a new object,
    [df[name] = rhs] changes the object in place, and [dropna()] returns a
    new object.  The statements run are the blocks above. *)

Module Store.

(** Addresses, and the store: the frame objects by address. *)
Abbreviation loc := nat.
Abbreviation heap := (list DataFrame).

Definition S (A : Type) : Type := heap -> res A * heap.

#[global] Instance S_ret : MRet S := fun A a h => (inr a, h).
#[global] Instance S_bind : MBind S :=
  fun A B k m h =>
    match m h with
    | (inl e, h) => (inl e, h)
    | (inr a, h) => k a h
    end.

Definition NotAFrame : exn := AttributeError "object has no attribute 'copy'".

Definition alloc (df : DataFrame) : S loc := fun h => (inr (length h), h ++ [df]).

Definition read (p : loc) : S DataFrame :=
  fun h => match h !! p with
           | Some df => (inr df, h)
           | None => (inl NotAFrame, h)
           end.

(** [df.copy()] *)
Definition copy (p : loc) : S loc := df ← read p; alloc df.

(** [df[name] = rhs], on the object at [p]. *)
Definition assign (p : loc) (a : string * expr) : S unit :=
  fun h => match h !! p with
           | Some df =>
               match snd a df with
               | inr s => (inr tt, <[p := setitem df (fst a) s]> h)
               | inl e => (inl e, h)
               end
           | None => (inl NotAFrame, h)
           end.

Fixpoint assign_all (p : loc) (body : list (string * expr)) : S unit :=
  match body with
  | [] => mret tt
  | a :: body => _ ← assign p a; assign_all p body
  end.

Definition run_stmt (p : loc) (st : stmt) : S unit :=
  match st with
  | Assign name rhs => assign p (name, rhs)
  | IfColumns required body =>
      df ← read p;
      if forallb (has_column df) required then assign_all p body else mret tt
  end.

Fixpoint run_block (p : loc) (b : list stmt) : S unit :=
  match b with
  | [] => mret tt
  | st :: b => _ ← run_stmt p st; run_block p b
  end.

Section FeatureEngineer.

Context `{Library}.

Definition create_temporal_features (df : loc) : S loc :=
  df ← copy df;
  _ ← run_block df temporal_block;
  mret df.

Definition create_lag_features (df : loc) (cols : list string) (lags : list nat) : S loc :=
  df ← copy df;
  _ ← run_block df (lag_block cols lags);
  mret df.

Definition create_rolling_features (df : loc) (cols : list string) : S loc :=
  df ← copy df;
  _ ← run_block df (rolling_block cols);
  mret df.

Definition create_weather_indices (df : loc) : S loc :=
  df ← copy df;
  _ ← run_block df indices_block;
  mret df.

Definition engineer_features (df : loc) : S loc :=
  df ← create_temporal_features df;

  frame ← read df;
  let existing_cols := List.filter (has_column frame) weather_cols in

  df ← create_lag_features df existing_cols [1; 2; 3; 7]%nat;
  df ← create_rolling_features df existing_cols;
  df ← create_weather_indices df;

  frame ← read df;
  alloc (dropna frame).

End FeatureEngineer.

End Store.

(** ** Weather records and example data *)

Record WeatherRecord : Type := mkWeatherRecord {
  date : Z;
  latitude : Q;
  longitude : Q;
  temp_max : Q;
  temp_min : Q;
  humidity : Q;
  pressure : Q;
  wind_speed : Q;
  cloud_cover : Q;
  precipitation : Q
}.

(** A record as the dictionary [predict] is seeded with. *)
Definition features_of_record (r : WeatherRecord) : list (string * pyval) :=
  [ ("date", PyTimestamp (Some (date r)));
    ("latitude", PyFloat (Some (latitude r)));
    ("longitude", PyFloat (Some (longitude r)));
    ("temp_max", PyFloat (Some (temp_max r)));
    ("temp_min", PyFloat (Some (temp_min r)));
    ("humidity", PyFloat (Some (humidity r)));
    ("pressure", PyFloat (Some (pressure r)));
    ("wind_speed", PyFloat (Some (wind_speed r)));
    ("cloud_cover", PyFloat (Some (cloud_cover r)));
    ("precipitation", PyFloat (Some (precipitation r))) ].

(** A sequence of records as a frame, with the columns in the order
    [generate_synthetic_training_data] gives them. *)
Definition frame_of_records (rs : list WeatherRecord) : DataFrame :=
  let float (f : WeatherRecord -> Q) := FloatS (map (fun r => Some (f r)) rs) in
  {| nrows := length rs;
     columns :=
       [ ("date", DateS (map (fun r => Some (date r)) rs));
         ("temp_max", float temp_max);
         ("temp_min", float temp_min);
         ("humidity", float humidity);
         ("pressure", float pressure);
         ("wind_speed", float wind_speed);
         ("precipitation", float precipitation);
         ("cloud_cover", float cloud_cover);
         ("latitude", float latitude);
         ("longitude", float longitude) ] |}.

(** An instance of [Library] for the closed examples.  The square root is
    the integer square root at six decimals; sine, cosine and the power are
    stand-ins, and the three learners are stubs that ignore the training
    data and predict 1, 2 and 3.  No theorem depends on these choices. *)
Definition stub_library : Library :=
  {| np_sin := fun x => 0%Q;
     np_cos := fun x => 1%Q;
     np_sqrt := fun x => (Z.sqrt (Qfloor (x * 1000000000000)) # 1000000)%Q;
     np_pow := fun x e => x;
     XGBRegressor := fun _ _ _ _ => 1%Q;
     LGBMRegressor := fun _ _ _ _ => 2%Q;
     RandomForestRegressor := fun _ _ _ _ => 3%Q;
     synthetic_weather := fun _ _ => {| nrows := 0; columns := [] |} |}.

(** The seed of the specification's end-to-end example, 2024-01-01. *)
Definition seed_2024_01_01 : WeatherRecord :=
  {| date := 19723;
     latitude := 40.7128;
     longitude := -74.0060;
     temp_max := 10;
     temp_min := 2;
     humidity := 70;
     pressure := 1015;
     wind_speed := 12;
     cloud_cover := 40;
     precipitation := 1 |}.

(** Daily records from 2024-01-01 on. *)
Definition daily (i : nat) : WeatherRecord :=
  let k := inject_Z (Z.of_nat (i mod 7)) in
  {| date := 19723 + Z.of_nat i;
     latitude := 40.7128;
     longitude := -74.0060;
     temp_max := 10 + k;
     temp_min := 2 + k / 2;
     humidity := 70 - k;
     pressure := 1015;
     wind_speed := 12 + k;
     cloud_cover := 40;
     precipitation := 1 |}.

Definition days (n : nat) : list WeatherRecord := map daily (seq 0 n).

(** A fitted ensemble of the three stubs. *)
Definition stub_ensemble : FittedVotingRegressor :=
  {| estimators_ := [fun _ => 1%Q; fun _ => 2%Q; fun _ => 3%Q];
     weights_ := [0.4; 0.4; 0.2]%Q |}.

Definition some_feature_columns : list string :=
  ["pressure"; "cloud_cover"; "latitude"; "longitude"; "day_of_year"; "sin_day";
   "temp_max_lag_1"; "humidity_roll_mean_14"; "heat_index"].

(** An object holding an ensemble for every target. *)
Definition trained_model : WeatherMLModel :=
  {| experiment_name := "weather-forecast";
     models := list_to_map (map (fun t => (t, stub_ensemble)) target_columns);
     feature_columns := some_feature_columns;
     model_metrics := [];
     run_id := Some "run-1" |}.

(** An object holding an ensemble for [temp_max] only. *)
Definition partial_model : WeatherMLModel :=
  {| experiment_name := "weather-forecast";
     models := {[ "temp_max" := stub_ensemble ]};
     feature_columns := some_feature_columns;
     model_metrics := [];
     run_id := Some "run-1" |}.

(** A seed that carries a date and a place, and no observation. *)
Definition bare_seed : list (string * pyval) :=
  [ ("date", PyStr "2024-01-01");
    ("latitude", PyFloat (Some 40.7128%Q));
    ("longitude", PyFloat (Some (-74.0060)%Q)) ].

Definition fresh_world : World := {| self := init "weather-forecast"; disk := [] |}.

(** ** Vocabulary of the statements *)

(** Some cell of the frame is NaN, NaT or None. *)
Definition has_na (df : DataFrame) : bool :=
  existsb (fun c => existsb id (isna (snd c))) (columns df).

(** The rows [dropna] keeps. *)
Definition keep_mask (df : DataFrame) : list bool :=
  map (notna_row df) (seq 0 (nrows df)).

(** The columns a block may assign. *)
Definition assigned_by (st : stmt) : list string :=
  match st with
  | Assign name _ => [name]
  | IfColumns _ body => map fst body
  end.

Definition assigned (b : list stmt) : list string := flat_map assigned_by b.

(** The weather columns the frame has are numeric. *)
Definition weather_numeric (df : DataFrame) : Prop :=
  forall c s, In c weather_cols -> assoc c (columns df) = Some s -> numeric_dtype s = true.

(** The invariant of the lag, rolling and index stages: the columns they
    read are there, and the weather columns are numeric. *)
Definition staged (cols : list string) (d : DataFrame) : Prop :=
  (forall c, In c cols -> has_column d c = true) /\ weather_numeric d.

(** A numeric column with no NaN in it. *)
Definition defined_numeric (s : Series) : Prop :=
  numeric_dtype s = true /\ existsb id (isna s) = false.

(** An engineered frame [train] can work on: every target is a numeric
    column, and no cell is undefined. *)
Definition trainable (eng : DataFrame) : Prop :=
  (forall t, In t target_columns ->
             exists s, assoc t (columns eng) = Some s /\ numeric_dtype s = true) /\
  has_na eng = false.

(** The frame has a date column that parses, with no NaT in it. *)
Definition dated (df : DataFrame) : Prop :=
  exists ds zs,
    (getitem df "date" ≫= pd_to_datetime) = inr (DateS ds) /\ all_dates ds = Some zs.

(** The expressions a block may evaluate. *)
Definition expressions_of (st : stmt) : list expr :=
  match st with
  | Assign _ rhs => [rhs]
  | IfColumns _ body => map snd body
  end.

Definition expressions (b : list stmt) : list expr := flat_map expressions_of b.

(** Every column has one cell for each row. *)
Definition well_formed (df : DataFrame) : Prop :=
  Forall (fun c => series_len (snd c) = nrows df) (columns df).

(** An expression fits when the column it computes has the rows of the
    frame it is computed from. *)
Definition fits (rhs : expr) : Prop :=
  forall df s, well_formed df -> rhs df = inr s -> series_len s = nrows df.


(** The targets present in a forecast entry, in order. *)
Definition forecast_keys (entry : list (string * pyval)) : list string := map fst entry.

(** What an entry holds for an object: the date, then the targets that
    have an ensemble. *)
Definition served_keys (m : WeatherMLModel) : list string :=
  "date" :: List.filter (fun t => negb (is_nan (models m !! t))) target_columns.


(** ** Vocabulary of the further statements *)

(** A record that leaves a row when it is engineered with the records
    before it: thirteen days of history, and a wind speed that is not
    negative (the wind chill of a negative speed is NaN). *)
Definition calm (r : WeatherRecord) : bool := Qle_bool 0 (wind_speed r).

Definition survives (rs : list WeatherRecord) (i : nat) : bool :=
  (13 <=? i)%nat && match rs !! i with Some r => calm r | None => false end.

(** The columns the feature engineer reads and never assigns anew. *)
Definition raw_columns : list string := "date" :: weather_cols.

(** The cells of the rows that survive are defined. *)
Definition defined_on (rs : list WeatherRecord) (s : Series) : Prop :=
  forall i, survives rs i = true -> isna s !! i = Some false.

(** The invariant of the stages on the frame of a sequence of records: the
    raw columns are those of the records, and every column is defined on
    the rows that survive. *)
Definition settled (rs : list WeatherRecord) (d : DataFrame) : Prop :=
  nrows d = length rs /\
  well_formed d /\
  (forall c, In c raw_columns ->
             assoc c (columns d) = assoc c (columns (frame_of_records rs))) /\
  Forall (fun c => defined_on rs (snd c)) (columns d).

(** The assignments a block may make, each with its right-hand side. *)
Definition assignments_of (st : stmt) : list (string * expr) :=
  match st with
  | Assign name rhs => [(name, rhs)]
  | IfColumns _ body => body
  end.

Definition assignments (b : list stmt) : list (string * expr) := flat_map assignments_of b.

(** What an assignment [df[name] = rhs] must give on the frame of a sequence
    of records to keep [settled]: the column fits, it is defined on the rows
    that survive, and a raw column is assigned the value it has. *)
Definition settles (rs : list WeatherRecord) (a : string * expr) : Prop :=
  forall d s,
    settled rs d -> snd a d = inr s ->
    series_len s = nrows d /\
    defined_on rs s /\
    (In (fst a) raw_columns -> assoc (fst a) (columns (frame_of_records rs)) = Some s).


(** * Properties *)

(** ** Boolean indexing and [dropna] *)

Section Select.

Context {A : Type}.

Lemma select_length_le (mask : list bool) (xs : list A) :
  (length (select mask xs) <= length xs)%nat.
Proof.
  revert xs. induction mask as [|b mask IH]; intros [|x xs]; simpl; try lia.
  specialize (IH xs). destruct b; simpl; lia.
Qed.

Lemma select_length (mask : list bool) (xs : list A) :
  length mask = length xs ->
  length (select mask xs) = length (select mask mask).
Proof.
  revert xs. induction mask as [|b mask IH]; intros [|x xs] Hlen; simpl in *;
    try discriminate; auto.
  injection Hlen as Hlen. destruct b; simpl; auto.
Qed.

Lemma select_map {B : Type} (f : A -> B) (mask : list bool) (xs : list A) :
  select mask (map f xs) = map f (select mask xs).
Proof.
  revert xs. induction mask as [|b mask IH]; intros [|x xs]; simpl; auto.
  destruct b; simpl; rewrite IH; auto.
Qed.

(** What survives the mask sat at a position the mask keeps. *)
Lemma select_In (mask : list bool) (xs : list A) (x : A) :
  In x (select mask xs) ->
  exists i, mask !! i = Some true /\ xs !! i = Some x.
Proof.
  revert xs. induction mask as [|b mask IH]; intros [|y xs]; simpl; try tauto.
  destruct b; simpl.
  - intros [-> | Hin].
    + exists 0%nat. auto.
    + destruct (IH _ Hin) as (i & ? & ?). exists (S i). auto.
  - intros Hin. destruct (IH _ Hin) as (i & ? & ?). exists (S i). auto.
Qed.

(** The mask keeps the order of the rows. *)
Lemma select_sublist (mask : list bool) (xs : list A) :
  sublist (select mask xs) xs.
Proof.
  revert xs. induction mask as [|b mask IH]; intros [|x xs]; simpl;
    try apply sublist_nil_l.
  destruct b; [apply sublist_skip | apply sublist_cons]; apply IH.
Qed.

End Select.

Lemma isna_series_select (mask : list bool) (s : Series) :
  isna (series_select mask s) = select mask (isna s).
Proof. destruct s; simpl; symmetry; apply select_map. Qed.

Lemma series_len_select (mask : list bool) (s : Series) :
  length mask = series_len s ->
  series_len (series_select mask s) = length (select mask mask).
Proof.
  unfold series_len. intros Hlen. rewrite isna_series_select.
  apply select_length. exact Hlen.
Qed.

Lemma keep_mask_lookup (df : DataFrame) (i : nat) :
  keep_mask df !! i = Some true -> notna_row df i = true.
Proof.
  unfold keep_mask. intros Hi.
  change (map (notna_row df) (seq 0 (nrows df))) with (notna_row df <$> seq 0 (nrows df)) in Hi.
  rewrite list_lookup_fmap in Hi.
  destruct (seq 0 (nrows df) !! i) as [j|] eqn:Hj; simpl in Hi; [|discriminate].
  apply lookup_seq in Hj as [-> _]. simpl in Hi. congruence.
Qed.

Lemma dropna_columns (df : DataFrame) :
  columns (dropna df)
  = map (fun c => (fst c, series_select (keep_mask df) (snd c))) (columns df).
Proof. reflexivity. Qed.

Lemma dropna_nrows (df : DataFrame) :
  nrows (dropna df) = length (select (keep_mask df) (keep_mask df)).
Proof. reflexivity. Qed.

(** No row is added. *)
Lemma dropna_nrows_le (df : DataFrame) : (nrows (dropna df) <= nrows df)%nat.
Proof.
  rewrite dropna_nrows.
  etransitivity; [apply select_length_le|].
  unfold keep_mask. rewrite length_map, length_seq. lia.
Qed.

(** No undefined cell is left. *)
Lemma dropna_no_na (df : DataFrame) : has_na (dropna df) = false.
Proof.
  unfold has_na. rewrite dropna_columns.
  apply not_true_is_false. intros Hex.
  apply existsb_exists in Hex as (c & Hc & Hna).
  apply in_map_iff in Hc as (c0 & <- & Hc0). simpl in Hna.
  rewrite isna_series_select in Hna.
  apply existsb_exists in Hna as (b & Hb & Hid). unfold id in Hid. subst b.
  apply select_In in Hb as (i & Hmask & Hcell).
  apply keep_mask_lookup in Hmask. unfold notna_row in Hmask.
  rewrite forallb_forall in Hmask. specialize (Hmask _ Hc0).
  apply nth_lookup_Some with (d := false) in Hcell.
  rewrite Hcell in Hmask. discriminate.
Qed.

Lemma dropna_well_formed (df : DataFrame) :
  well_formed df -> well_formed (dropna df).
Proof.
  unfold well_formed. rewrite dropna_columns, dropna_nrows, Forall_map.
  intros Hwf. eapply Forall_impl; [exact Hwf|]. intros c Hc. simpl.
  apply series_len_select. unfold keep_mask. rewrite length_map, length_seq. auto.
Qed.

Lemma dropna_column_names (df : DataFrame) :
  column_names (dropna df) = column_names df.
Proof.
  unfold column_names. rewrite dropna_columns, map_map. reflexivity.
Qed.

Lemma assoc_map_snd {A B : Type} (f : A -> B) (k : string) (l : list (string * A)) :
  assoc k (map (fun c => (fst c, f (snd c))) l) = f <$> assoc k l.
Proof.
  induction l as [|[k' v] l IH]; simpl; auto.
  destruct (String.eqb k' k); auto.
Qed.

Lemma dropna_assoc (df : DataFrame) (name : string) :
  assoc name (columns (dropna df))
  = series_select (keep_mask df) <$> assoc name (columns df).
Proof. rewrite dropna_columns. apply assoc_map_snd. Qed.


(** ** Dictionaries and column assignment *)

Lemma assoc_set_same {A : Type} (k : string) (v : A) (l : list (string * A)) :
  assoc k (assoc_set k v l) = Some v.
Proof.
  induction l as [|[k' w] l IH]; simpl.
  - rewrite String.eqb_refl. reflexivity.
  - destruct (String.eqb k' k) eqn:E; simpl; rewrite E; auto.
Qed.

Lemma assoc_set_other {A : Type} (k k' : string) (v : A) (l : list (string * A)) :
  k <> k' -> assoc k' (assoc_set k v l) = assoc k' l.
Proof.
  intros Hne. induction l as [|[k0 w] l IH]; simpl.
  - apply String.eqb_neq in Hne. rewrite Hne. reflexivity.
  - destruct (String.eqb k0 k) eqn:E; simpl.
    + apply String.eqb_eq in E. subst k0.
      apply String.eqb_neq in Hne. rewrite Hne. reflexivity.
    + destruct (String.eqb k0 k'); auto.
Qed.

Lemma assoc_In {A : Type} (k : string) (v : A) (l : list (string * A)) :
  assoc k l = Some v -> In (k, v) l.
Proof.
  induction l as [|[k' w] l IH]; simpl; [discriminate|].
  destruct (String.eqb k' k) eqn:E.
  - apply String.eqb_eq in E. intros [= ->]. subst. auto.
  - auto.
Qed.

Lemma mem_In (k : string) (l : list string) : mem k l = true <-> In k l.
Proof.
  unfold mem. rewrite existsb_exists. split.
  - intros (x & Hin & Heq). apply String.eqb_eq in Heq. subst. auto.
  - intros Hin. exists k. split; auto. apply String.eqb_refl.
Qed.

Lemma assoc_mem {A : Type} (k : string) (l : list (string * A)) :
  mem k (map fst l) = negb (is_nan (assoc k l)).
Proof.
  induction l as [|[k' w] l IH]; simpl; auto.
  rewrite String.eqb_sym. destruct (String.eqb k' k); simpl; auto.
Qed.

Lemma has_column_assoc (df : DataFrame) (name : string) :
  has_column df name = true <-> exists s, assoc name (columns df) = Some s.
Proof.
  unfold has_column, column_names. rewrite assoc_mem.
  destruct (assoc name (columns df)); simpl; split; eauto; try discriminate.
  intros (? & [=]).
Qed.

Lemma getitem_assoc (df : DataFrame) (name : string) (s : Series) :
  getitem df name = inr s <-> assoc name (columns df) = Some s.
Proof.
  unfold getitem. destruct (assoc name (columns df)); simpl; split;
    intros [=]; subst; auto.
Qed.

Lemma assoc_set_names {A : Type} (k : string) (v : A) (l : list (string * A)) :
  map fst (assoc_set k v l)
  = if mem k (map fst l) then map fst l else map fst l ++ [k].
Proof.
  induction l as [|[k' w] l IH]; simpl; auto.
  unfold mem in *. simpl. rewrite (String.eqb_sym k k').
  destruct (String.eqb k' k) eqn:E; simpl; auto.
  rewrite IH. destruct (existsb (String.eqb k) (map fst l)); auto.
Qed.

(** ** Running a block of assignments *)

Lemma bind_inr {A B : Type} (m : res A) (k : A -> res B) (b : B) :
  m ≫= k = inr b -> exists a, m = inr a /\ k a = inr b.
Proof. destruct m as [e|a]; simpl; [discriminate | eauto]. Qed.

Lemma bind_Ok {A B : Type} (a : A) (k : A -> res B) : (inr a : res A) ≫= k = k a.
Proof. reflexivity. Qed.

Lemma mapM_cons {A B : Type} (f : A -> res B) (x : A) (l : list A) :
  mapM f (x :: l) = y ← f x; ys ← mapM f l; Ok (y :: ys).
Proof. reflexivity. Qed.

Lemma assign_inr (df df' : DataFrame) (a : string * expr) :
  assign df a = inr df' ->
  exists s, snd a df = inr s /\ df' = setitem df (fst a) s.
Proof.
  unfold assign. intros Hrun. apply bind_inr in Hrun as (s & Hs & [= <-]). eauto.
Qed.

(** An assignment keeps the row count and every other column. *)
Lemma assign_frame (df df' : DataFrame) (a : string * expr) :
  assign df a = inr df' ->
  nrows df' = nrows df /\
  forall name, name <> fst a -> assoc name (columns df') = assoc name (columns df).
Proof.
  intros Hrun. apply assign_inr in Hrun as (s & _ & ->). split; [reflexivity|].
  intros name Hne. simpl. apply assoc_set_other. auto.
Qed.

Lemma assign_all_frame (body : list (string * expr)) (df df' : DataFrame) :
  assign_all body df = inr df' ->
  nrows df' = nrows df /\
  forall name, ~ In name (map fst body) ->
               assoc name (columns df') = assoc name (columns df).
Proof.
  revert df. induction body as [|a body IH]; simpl; intros df Hrun.
  - injection Hrun as <-. auto.
  - apply bind_inr in Hrun as (df1 & H1 & Hrest).
    apply assign_frame in H1 as [Hn1 Hc1]. apply IH in Hrest as [Hn2 Hc2].
    split; [congruence|]. intros name Hnot.
    rewrite Hc2, Hc1; auto.
Qed.

Lemma run_stmt_frame (st : stmt) (df df' : DataFrame) :
  run_stmt df st = inr df' ->
  nrows df' = nrows df /\
  forall name, ~ In name (assigned_by st) ->
               assoc name (columns df') = assoc name (columns df).
Proof.
  destruct st as [name rhs | required body]; simpl; intros Hrun.
  - apply assign_frame in Hrun as [Hn Hc]. split; [exact Hn|].
    intros k Hk. apply Hc. simpl. intros ->. apply Hk. auto.
  - destruct (forallb (has_column df) required).
    + apply assign_all_frame. exact Hrun.
    + injection Hrun as <-. auto.
Qed.

Lemma run_block_frame (b : list stmt) (df df' : DataFrame) :
  run_block b df = inr df' ->
  nrows df' = nrows df /\
  forall name, ~ In name (assigned b) ->
               assoc name (columns df') = assoc name (columns df).
Proof.
  revert df. induction b as [|st b IH]; simpl; intros df Hrun.
  - injection Hrun as <-. auto.
  - apply bind_inr in Hrun as (df1 & H1 & Hrest).
    apply run_stmt_frame in H1 as [Hn1 Hc1]. apply IH in Hrest as [Hn2 Hc2].
    split; [congruence|]. intros name Hnot.
    rewrite Hc2, Hc1; auto; intros Hin; apply Hnot, in_or_app; auto.
Qed.

Lemma run_block_cons (st : stmt) (b : list stmt) (df : DataFrame) :
  run_block (st :: b) df = run_stmt df st ≫= run_block b.
Proof. reflexivity. Qed.

(** ** The names the feature engineer assigns *)

Lemma length_append (a b : string) :
  String.length (a +:+ b) = (String.length a + String.length b)%nat.
Proof. induction a; simpl; auto. Qed.

Section Names.

Context `{Library}.

Lemma lag_block_assigned (cols : list string) (lags : list nat) (name : string) :
  In name (assigned (lag_block cols lags)) ->
  exists col lag, name = col +:+ "_lag_" +:+ str lag.
Proof.
  unfold assigned, lag_block. rewrite in_flat_map.
  intros (st & Hst & Hname).
  apply list_elem_of_In, list_elem_of_bind in Hst as (col & Hst & _).
  apply list_elem_of_bind in Hst as (lag & Hst & _).
  apply list_elem_of_singleton in Hst. subst st.
  simpl in Hname. destruct Hname as [<- | []]. eauto.
Qed.

Lemma rolling_block_assigned (cols : list string) (name : string) :
  In name (assigned (rolling_block cols)) ->
  exists col stat, name = col +:+ "_roll_" +:+ stat.
Proof.
  unfold assigned, rolling_block. rewrite in_flat_map.
  intros (st & Hst & Hname).
  apply list_elem_of_In, list_elem_of_bind in Hst as (col & Hst & _).
  apply list_elem_of_bind in Hst as (window & Hst & _).
  exists col.
  apply list_elem_of_In in Hst. simpl in Hst.
  destruct Hst as [<- | [<- | [<- | [<- | []]]]];
    simpl in Hname; destruct Hname as [<- | []]; eexists; reflexivity.
Qed.

Lemma date_not_lagged (cols : list string) (lags : list nat) :
  ~ In "date" (assigned (lag_block cols lags)).
Proof.
  intros Hin. apply lag_block_assigned in Hin as (col & lag & Heq).
  apply (f_equal String.length) in Heq.
  rewrite !length_append in Heq. simpl in Heq. lia.
Qed.

Lemma date_not_rolled (cols : list string) :
  ~ In "date" (assigned (rolling_block cols)).
Proof.
  intros Hin. apply rolling_block_assigned in Hin as (col & stat & Heq).
  apply (f_equal String.length) in Heq.
  rewrite !length_append in Heq. simpl in Heq. lia.
Qed.

(** What [engineer_features] returns is [dropna] of a frame with the rows
    of the input and its dates, parsed. *)
Lemma engineer_features_inr (df out : DataFrame) :
  engineer_features df = inr out ->
  exists pre dates,
    out = dropna pre /\
    nrows pre = nrows df /\
    (getitem df "date" ≫= pd_to_datetime) = inr dates /\
    assoc "date" (columns pre) = Some dates.
Proof.
  unfold engineer_features, create_temporal_features, create_lag_features,
    create_rolling_features, create_weather_indices.
  intros Hrun.
  apply bind_inr in Hrun as (df1 & H1 & Hrun).
  apply bind_inr in Hrun as (df2 & H2 & Hrun).
  apply bind_inr in Hrun as (df3 & H3 & Hrun).
  apply bind_inr in Hrun as (df4 & H4 & Hrun).
  injection Hrun as <-.
  apply run_block_frame in H2 as [Hn2 Hc2].
  apply run_block_frame in H3 as [Hn3 Hc3].
  apply run_block_frame in H4 as [Hn4 Hc4].
  unfold temporal_block in H1. rewrite run_block_cons in H1.
  apply bind_inr in H1 as (df0 & H0 & H1).
  apply assign_inr in H0 as (dates & Hdates & ->). simpl in Hdates.
  apply run_block_frame in H1 as [Hn1 Hc1].
  exists df4, dates. repeat split.
  - simpl in Hn1. congruence.
  - exact Hdates.
  - rewrite Hc4, Hc3, Hc2, Hc1.
    + simpl. apply assoc_set_same.
    + vm_compute. intuition discriminate.
    + apply date_not_lagged.
    + apply date_not_rolled.
    + vm_compute. intuition discriminate.
Qed.

(** On every frame: no undefined cell is left, and no row is added. *)
Lemma engineer_features_defined (df out : DataFrame) :
  engineer_features df = inr out ->
  has_na out = false /\ (nrows out <= nrows df)%nat.
Proof.
  intros Hrun. apply engineer_features_inr in Hrun as (pre & dates & -> & Hn & _).
  split; [apply dropna_no_na|]. rewrite <- Hn. apply dropna_nrows_le.
Qed.

End Names.


(** ** When feature engineering returns *)

Lemma run_block_assign (name : string) (rhs : expr) (b : list stmt) (df : DataFrame)
  (s : Series) :
  rhs df = inr s ->
  run_block (Assign name rhs :: b) df = run_block b (setitem df name s).
Proof. intros Hrhs. simpl. unfold assign. simpl. rewrite Hrhs. reflexivity. Qed.

Lemma run_block_step (st : stmt) (b : list stmt) (df d : DataFrame) :
  run_stmt df st = inr d -> run_block (st :: b) df = run_block b d.
Proof. intros Hst. rewrite run_block_cons, Hst. reflexivity. Qed.

Lemma getitem_setitem (df : DataFrame) (name name' : string) (s : Series) :
  getitem (setitem df name s) name'
  = if String.eqb name name' then inr s else getitem df name'.
Proof.
  unfold getitem. simpl. destruct (String.eqb name name') eqn:E.
  - apply String.eqb_eq in E. subst. rewrite assoc_set_same. reflexivity.
  - apply String.eqb_neq in E. rewrite assoc_set_other; auto.
Qed.

Lemma assoc_setitem (df : DataFrame) (name name' : string) (s : Series) :
  assoc name' (columns (setitem df name s))
  = if String.eqb name name' then Some s else assoc name' (columns df).
Proof.
  simpl. destruct (String.eqb name name') eqn:E.
  - apply String.eqb_eq in E. subst. apply assoc_set_same.
  - apply String.eqb_neq in E. apply assoc_set_other; auto.
Qed.

Lemma has_column_setitem (df : DataFrame) (name c : string) (s : Series) :
  has_column df c = true -> has_column (setitem df name s) c = true.
Proof.
  rewrite !has_column_assoc, assoc_setitem. intros (s' & Hs').
  destruct (String.eqb name c); eauto.
Qed.

(** Assigning a numeric column, or a column that is not a weather column,
    keeps the weather columns numeric. *)
Lemma weather_numeric_setitem (df : DataFrame) (name : string) (s : Series) :
  weather_numeric df ->
  numeric_dtype s = true \/ ~ In name weather_cols ->
  weather_numeric (setitem df name s).
Proof.
  intros Hnum Hs c s' Hc. rewrite assoc_setitem.
  destruct (String.eqb name c) eqn:E.
  - apply String.eqb_eq in E. subst c. intros [= <-]. destruct Hs; tauto.
  - apply Hnum. exact Hc.
Qed.

Lemma to_numeric_total (s : Series) :
  numeric_dtype s = true -> exists xs, to_numeric s = inr xs.
Proof. destruct s; simpl; try discriminate; eauto. Qed.

Lemma shift_numeric (k : nat) (s : Series) :
  numeric_dtype s = true -> numeric_dtype (shift k s) = true.
Proof. destruct s; simpl; auto. Qed.

(** A block runs to its end when each of its statements runs on every frame
    an invariant holds of, and keeps the invariant. *)
Lemma run_block_invariant (P : DataFrame -> Prop) (b : list stmt) :
  (forall st, In st b -> forall d, P d -> exists d', run_stmt d st = inr d' /\ P d') ->
  forall df, P df -> exists df', run_block b df = inr df' /\ P df'.
Proof.
  induction b as [|st b IH]; intros Hstep df HP.
  - exists df. auto.
  - destruct (Hstep st (or_introl eq_refl) df HP) as (d1 & H1 & HP1).
    destruct (IH (fun st' Hin => Hstep st' (or_intror Hin)) d1 HP1) as (d2 & H2 & HP2).
    exists d2. split; auto. rewrite run_block_cons, H1. exact H2.
Qed.

Section Total.

Context `{Library}.

Lemma staged_column (cols : list string) (d : DataFrame) (c : string) :
  incl cols weather_cols -> staged cols d -> In c cols ->
  exists s xs, getitem d c = inr s /\ numeric_dtype s = true /\ to_numeric s = inr xs.
Proof.
  intros Hincl [Hhas Hnum] Hc.
  destruct (proj1 (has_column_assoc d c) (Hhas c Hc)) as (s & Hs).
  assert (Hs' : numeric_dtype s = true) by (eapply Hnum; eauto).
  destruct (to_numeric_total s Hs') as (xs & Hxs).
  exists s, xs. rewrite getitem_assoc. auto.
Qed.

Lemma staged_setitem (cols : list string) (d : DataFrame) (name : string) (s : Series) :
  staged cols d -> numeric_dtype s = true -> staged cols (setitem d name s).
Proof.
  intros [Hhas Hnum] Hs. split.
  - intros c Hc. apply has_column_setitem. auto.
  - apply weather_numeric_setitem; auto.
Qed.

Lemma lag_block_total (cols : list string) (lags : list nat) (df : DataFrame) :
  incl cols weather_cols -> staged cols df ->
  exists df', create_lag_features df cols lags = inr df' /\ staged cols df'.
Proof.
  intros Hincl. unfold create_lag_features.
  apply run_block_invariant. intros st Hst d Hd.
  unfold lag_block in Hst.
  apply list_elem_of_In, list_elem_of_bind in Hst as (col & Hst & Hcol).
  apply list_elem_of_bind in Hst as (lag & Hst & _).
  apply list_elem_of_singleton in Hst. subst st.
  apply list_elem_of_In in Hcol.
  destruct (staged_column cols d col Hincl Hd Hcol) as (s & xs & Hs & Hnum & _).
  eexists. split.
  - simpl. unfold assign. simpl. rewrite Hs. reflexivity.
  - apply staged_setitem; auto. apply shift_numeric; auto.
Qed.

Lemma roll_total (cols : list string) (d : DataFrame) (col name : string)
  (window : nat) (agg : list Q -> float64) :
  incl cols weather_cols -> staged cols d -> In col cols ->
  exists d', run_stmt d (Assign name (roll col window agg)) = inr d' /\ staged cols d'.
Proof.
  intros Hincl Hd Hcol.
  destruct (staged_column cols d col Hincl Hd Hcol) as (s & xs & Hs & _ & Hxs).
  eexists. split.
  - simpl. unfold assign, roll. simpl. rewrite Hs. simpl. rewrite Hxs. reflexivity.
  - apply staged_setitem; auto.
Qed.

Lemma rolling_block_total (cols : list string) (df : DataFrame) :
  incl cols weather_cols -> staged cols df ->
  exists df', create_rolling_features df cols = inr df' /\ staged cols df'.
Proof.
  intros Hincl. unfold create_rolling_features.
  apply run_block_invariant. intros st Hst d Hd.
  unfold rolling_block in Hst.
  apply list_elem_of_In, list_elem_of_bind in Hst as (col & Hst & Hcol).
  apply list_elem_of_bind in Hst as (window & Hst & _).
  apply list_elem_of_In in Hcol.
  apply list_elem_of_In in Hst. simpl in Hst.
  destruct Hst as [<- | [<- | [<- | [<- | []]]]]; eapply roll_total; eauto.
Qed.

Lemma binary_total (cols : list string) (d : DataFrame) (name a b : string)
  (f : float64 -> float64 -> float64) :
  staged cols d -> In a weather_cols -> In b weather_cols ->
  has_column d a = true -> has_column d b = true ->
  exists d', assign d (name, binary f a b) = inr d' /\ staged cols d'
             /\ forall c, has_column d c = true -> has_column d' c = true.
Proof.
  intros Hd Ha Hb Hhasa Hhasb.
  destruct (proj1 (has_column_assoc d a) Hhasa) as (sa & Hsa).
  destruct (proj1 (has_column_assoc d b) Hhasb) as (sb & Hsb).
  destruct (to_numeric_total sa (proj2 Hd a sa Ha Hsa)) as (xs & Hxs).
  destruct (to_numeric_total sb (proj2 Hd b sb Hb Hsb)) as (ys & Hys).
  apply getitem_assoc in Hsa, Hsb.
  eexists. split; [|split].
  - unfold assign, binary. simpl. rewrite Hsa. simpl. rewrite Hxs. simpl.
    rewrite Hsb. simpl. rewrite Hys. reflexivity.
  - apply staged_setitem; auto.
  - intros c. apply has_column_setitem.
Qed.

Lemma forallb_has_column2 (d : DataFrame) (a b : string) :
  forallb (has_column d) [a; b] = true ->
  has_column d a = true /\ has_column d b = true.
Proof. simpl. rewrite !andb_true_iff. tauto. Qed.

Lemma indices_block_total (cols : list string) (df : DataFrame) :
  staged cols df ->
  exists df', create_weather_indices df = inr df' /\ staged cols df'.
Proof.
  unfold create_weather_indices, indices_block. intros H0.
  assert (Hin : forall c, In c ["temp_max"; "humidity"; "temp_min"; "wind_speed"] ->
                          In c weather_cols).
  { intros c Hc. unfold weather_cols. simpl in *. tauto. }
  (* heat index *)
  assert (H1 : exists d1, run_stmt df (IfColumns ["temp_max"; "humidity"]
               [("heat_index", binary (lift2 heat_index) "temp_max" "humidity")]) = inr d1
               /\ staged cols d1).
  { unfold run_stmt.
    destruct (forallb (has_column df) ["temp_max"; "humidity"]) eqn:E;
      [|exists df; split; [reflexivity | assumption]].
    apply forallb_has_column2 in E as [Ea Eb].
    destruct (binary_total cols df "heat_index" "temp_max" "humidity" (lift2 heat_index))
      as (d1 & Hd1 & Hs1 & _); auto; try (apply Hin; simpl; tauto).
    exists d1. split; auto. simpl. rewrite Hd1. reflexivity. }
  destruct H1 as (d1 & Hr1 & Hs1).
  (* temperature range and average *)
  assert (H2 : exists d2, run_stmt d1 (IfColumns ["temp_max"; "temp_min"]
               [("temp_range", binary (lift2 Qminus) "temp_max" "temp_min");
                ("temp_avg", binary (lift2 (fun a b => (a + b) / 2)%Q) "temp_max" "temp_min")])
               = inr d2 /\ staged cols d2).
  { unfold run_stmt.
    destruct (forallb (has_column d1) ["temp_max"; "temp_min"]) eqn:E;
      [|exists d1; split; [reflexivity | assumption]].
    apply forallb_has_column2 in E as [Ea Eb].
    destruct (binary_total cols d1 "temp_range" "temp_max" "temp_min" (lift2 Qminus))
      as (da & Hda & Hsa & Hka); auto; try (apply Hin; simpl; tauto).
    destruct (binary_total cols da "temp_avg" "temp_max" "temp_min"
                (lift2 (fun a b => (a + b) / 2)%Q))
      as (db & Hdb & Hsb & _); auto; try (apply Hin; simpl; tauto).
    exists db. split; auto. simpl. rewrite Hda. simpl. rewrite Hdb. reflexivity. }
  destruct H2 as (d2 & Hr2 & Hs2).
  (* wind chill *)
  assert (H3 : exists d3, run_stmt d2 (IfColumns ["temp_min"; "wind_speed"]
               [("wind_chill", binary wind_chill "temp_min" "wind_speed")]) = inr d3
               /\ staged cols d3).
  { unfold run_stmt.
    destruct (forallb (has_column d2) ["temp_min"; "wind_speed"]) eqn:E;
      [|exists d2; split; [reflexivity | assumption]].
    apply forallb_has_column2 in E as [Ea Eb].
    destruct (binary_total cols d2 "wind_chill" "temp_min" "wind_speed" wind_chill)
      as (d3 & Hd3 & Hs3 & _); auto; try (apply Hin; simpl; tauto).
    exists d3. split; auto. simpl. rewrite Hd3. reflexivity. }
  destruct H3 as (d3 & Hr3 & Hs3).
  exists d3. split; auto.
  rewrite (run_block_step _ _ _ _ Hr1), (run_block_step _ _ _ _ Hr2),
    (run_block_step _ _ _ _ Hr3). reflexivity.
Qed.

Lemma cyclical_total (f : Q -> Q) (period : Z) (xs : list Z) :
  exists ys, cyclical f period (IntS xs) = inr (FloatS ys).
Proof. unfold cyclical. simpl. eauto. Qed.

(** The temporal stage, statement by statement. *)
Lemma temporal_block_total (df : DataFrame) :
  dated df -> weather_numeric df ->
  exists df', create_temporal_features df = inr df' /\ weather_numeric df'
              /\ forall c, has_column df c = true -> has_column df' c = true.
Proof.
  intros (ds & zs & Hdate & Hall) Hnum.
  pose proof cyclical_total as Hcyc.
  unfold create_temporal_features, temporal_block.
  erewrite run_block_assign by exact Hdate.
  assert (Hdt : forall f, dt f (DateS ds) = inr (IntS (map f zs))).
  { intros f. unfold dt. simpl. rewrite Hall. reflexivity. }
  assert (Hwk : dt_isocalendar_week_int (DateS ds) = inr (IntS (map Calendar.isoweek zs))).
  { unfold dt_isocalendar_week_int. simpl. rewrite Hall. reflexivity. }
  repeat (erewrite run_block_assign;
          [| rewrite ?getitem_setitem; simpl; rewrite ?Hdt, ?Hwk; simpl;
             try reflexivity ]).
  eexists. split; [reflexivity | split].
  - repeat (apply weather_numeric_setitem;
            [| first [ left; reflexivity
                     | right; unfold weather_cols; simpl; intuition discriminate ] ]).
    exact Hnum.
  - intros c Hc. repeat apply has_column_setitem. exact Hc.
Qed.

Lemma run_block_has_column (b : list stmt) (c : string) :
  forall df df', run_block b df = inr df' ->
                 has_column df c = true -> has_column df' c = true.
Proof.
  induction b as [|st b IH]; intros df df' Hrun Hc.
  - injection Hrun as <-. exact Hc.
  - rewrite run_block_cons in Hrun. apply bind_inr in Hrun as (d & Hst & Hrun).
    eapply IH; [exact Hrun|].
    destruct st as [name rhs | required body]; simpl in Hst.
    + apply assign_inr in Hst as (s & _ & ->). apply has_column_setitem. exact Hc.
    + destruct (forallb (has_column df) required); [|injection Hst as <-; exact Hc].
      clear Hrun IH. revert df Hst Hc.
      induction body as [|a body IHb]; intros df Hst Hc; simpl in Hst.
      * injection Hst as <-. exact Hc.
      * apply bind_inr in Hst as (d1 & Ha & Hst).
        apply assign_inr in Ha as (s & _ & ->).
        eapply IHb; [exact Hst|]. apply has_column_setitem. exact Hc.
Qed.

(** Feature engineering fails only on the dates: it returns on every frame
    whose dates parse and whose weather columns are numeric.  What it
    returns is [dropna] of a frame that still has the columns of the input,
    the weather columns numeric. *)
Lemma engineer_features_total (df : DataFrame) :
  dated df -> weather_numeric df ->
  exists pre,
    engineer_features df = inr (dropna pre) /\
    weather_numeric pre /\
    forall c, has_column df c = true -> has_column pre c = true.
Proof.
  intros Hdate Hnum.
  destruct (temporal_block_total df Hdate Hnum) as (df1 & H1 & Hnum1 & Hk1).
  set (existing_cols := List.filter (has_column df1) weather_cols).
  assert (Hincl : incl existing_cols weather_cols).
  { intros c Hc. apply filter_In in Hc. tauto. }
  assert (Hst1 : staged existing_cols df1).
  { split; auto. intros c Hc. apply filter_In in Hc. tauto. }
  destruct (lag_block_total existing_cols [1; 2; 3; 7]%nat df1 Hincl Hst1)
    as (df2 & H2 & Hst2).
  destruct (rolling_block_total existing_cols df2 Hincl Hst2) as (df3 & H3 & Hst3).
  destruct (indices_block_total existing_cols df3 Hst3) as (df4 & H4 & Hst4).
  exists df4. split; [|split].
  - unfold engineer_features.
    rewrite H1, bind_Ok. cbv zeta. fold existing_cols.
    rewrite H2, bind_Ok, H3, bind_Ok, H4. reflexivity.
  - apply Hst4.
  - intros c Hc.
    eapply run_block_has_column; [exact H4|].
    eapply run_block_has_column; [exact H3|].
    eapply run_block_has_column; [exact H2|]. auto.
Qed.

End Total.


(** ** Every engineered column has one cell for each row *)

Lemma mapM_length {A B : Type} (f : A -> res B) (l : list A) (k : list B) :
  mapM f l = inr k -> length k = length l.
Proof.
  revert k. induction l as [|a l IH]; intros k Hk.
  - injection Hk as <-. reflexivity.
  - rewrite mapM_cons in Hk.
    apply bind_inr in Hk as (b & _ & Hk). apply bind_inr in Hk as (bs & Hbs & [= <-]).
    simpl. f_equal. apply IH. exact Hbs.
Qed.

Lemma all_dates_length (xs : list (option Z)) (zs : list Z) :
  all_dates xs = Some zs -> length zs = length xs.
Proof.
  revert zs. induction xs as [|x xs IH]; intros zs; simpl.
  - intros [= <-]. reflexivity.
  - destruct x as [v|]; simpl; [|discriminate].
    destruct (all_dates xs) as [vs|]; simpl; [|discriminate].
    intros [= <-]. simpl. f_equal. apply IH. reflexivity.
Qed.

Lemma series_len_to_pyvals (s : Series) : length (to_pyvals s) = series_len s.
Proof. unfold series_len. destruct s; simpl; rewrite ?length_map; reflexivity. Qed.

Lemma to_numeric_length (s : Series) (xs : list float64) :
  to_numeric s = inr xs -> length xs = series_len s.
Proof.
  unfold series_len. destruct s; simpl; intros [= <-]; rewrite ?length_map; reflexivity.
Qed.

Lemma pd_to_datetime_length (s s' : Series) :
  pd_to_datetime s = inr s' -> series_len s' = series_len s.
Proof.
  assert (Hobj : forall ts, mapM scalar_to_datetime (to_pyvals s) = inr ts ->
                            series_len (DateS ts) = series_len s).
  { intros ts Hts. apply mapM_length in Hts. rewrite series_len_to_pyvals in Hts.
    unfold series_len at 1. simpl. rewrite length_map. exact Hts. }
  destruct s; simpl; intros Hs;
    try (apply bind_inr in Hs as (ts & Hts & [= <-]); apply Hobj; exact Hts).
  injection Hs as <-. reflexivity.
Qed.

Lemma dt_length (field : Z -> Z) (s s' : Series) :
  dt field s = inr s' -> series_len s' = series_len s.
Proof.
  unfold dt, datetimelike, series_len. destruct s; simpl; try discriminate.
  destruct (all_dates xs) as [ds|] eqn:E; intros [= <-]; simpl; rewrite !length_map.
  - apply all_dates_length. exact E.
  - reflexivity.
Qed.

Lemma dt_isocalendar_week_int_length (s s' : Series) :
  dt_isocalendar_week_int s = inr s' -> series_len s' = series_len s.
Proof.
  unfold dt_isocalendar_week_int, datetimelike, series_len.
  destruct s; simpl; try discriminate.
  destruct (all_dates xs) as [ds|] eqn:E; intros [= <-]; simpl; rewrite !length_map.
  apply all_dates_length. exact E.
Qed.

Lemma isin_int_length (values : list Z) (s : Series) :
  series_len (isin_int values s) = series_len s.
Proof. unfold series_len. destruct s; simpl; rewrite !length_map; reflexivity. Qed.

Lemma shift_length (k : nat) (s : Series) : series_len (shift k s) = series_len s.
Proof.
  assert (Hlen : forall (A : Type) (fill : A) (xs : list A),
             length (shift_list fill k xs) = length xs).
  { intros A fill xs. unfold shift_list.
    rewrite length_take, length_app, length_replicate. lia. }
  unfold series_len. destruct s; simpl; rewrite !length_map, Hlen, ?length_map; reflexivity.
Qed.

Lemma rolling_length (w : nat) (agg : list Q -> float64) (xs : list float64) :
  length (rolling w agg xs) = length xs.
Proof. unfold rolling. rewrite length_map, length_seq. reflexivity. Qed.

Lemma map2_length {A B C : Type} (f : A -> B -> C) (xs : list A) (ys : list B) :
  length xs = length ys -> length (map2 f xs ys) = length xs.
Proof.
  intros Hlen. unfold map2. rewrite length_map, length_combine. lia.
Qed.

Lemma well_formed_column (df : DataFrame) (name : string) (s : Series) :
  well_formed df -> getitem df name = inr s -> series_len s = nrows df.
Proof.
  intros Hwf Hs. apply getitem_assoc, assoc_In in Hs.
  unfold well_formed in Hwf. rewrite Forall_forall in Hwf.
  apply (Hwf (name, s)). apply list_elem_of_In. exact Hs.
Qed.

Lemma well_formed_setitem (df : DataFrame) (name : string) (s : Series) :
  well_formed df -> series_len s = nrows df -> well_formed (setitem df name s).
Proof.
  unfold well_formed. simpl. intros Hwf Hs.
  induction Hwf as [|[k v] l Hk Hl IH]; simpl.
  - repeat constructor. exact Hs.
  - destruct (String.eqb k name); constructor; auto.
Qed.

Lemma assign_well_formed (df df' : DataFrame) (a : string * expr) :
  fits (snd a) -> well_formed df -> assign df a = inr df' -> well_formed df'.
Proof.
  intros Hfit Hwf Hrun. apply assign_inr in Hrun as (s & Hs & ->).
  apply well_formed_setitem; auto.
Qed.

Lemma run_block_well_formed (b : list stmt) :
  Forall fits (expressions b) ->
  forall df df', well_formed df -> run_block b df = inr df' -> well_formed df'.
Proof.
  induction b as [|st b IH]; intros Hfits df df' Hwf Hrun.
  - injection Hrun as <-. exact Hwf.
  - unfold expressions in Hfits. simpl in Hfits. apply Forall_app in Hfits as [Hst Hb].
    rewrite run_block_cons in Hrun. apply bind_inr in Hrun as (d & Hd & Hrun).
    apply (IH Hb d df'); [|exact Hrun].
    destruct st as [name rhs | required body]; simpl in Hd, Hst.
    + apply (assign_well_formed df d (name, rhs)); auto.
      apply Forall_cons in Hst as [Hst _]. exact Hst.
    + destruct (forallb (has_column df) required); [|injection Hd as <-; exact Hwf].
      clear Hrun IH Hb. revert df Hwf Hd.
      induction body as [|a body IHb]; intros df Hwf Hd; simpl in Hd.
      * injection Hd as <-. exact Hwf.
      * simpl in Hst. apply Forall_cons in Hst as [Ha Hst].
        apply bind_inr in Hd as (d1 & Hd1 & Hd).
        apply (IHb Hst d1); [|exact Hd].
        apply (assign_well_formed df d1 a); auto.
Qed.

(** A column computed from one column, cell by cell. *)
Lemma fits_column (c : string) (f : Series -> res Series) :
  (forall s s', f s = inr s' -> series_len s' = series_len s) ->
  fits (fun df => getitem df c ≫= f).
Proof.
  intros Hf df s' Hwf Hrun. apply bind_inr in Hrun as (s & Hs & Hrun).
  rewrite (Hf s s' Hrun). eapply well_formed_column; eauto.
Qed.

Section WellFormed.

Context `{Library}.

Lemma cyclical_length (f : Q -> Q) (period : Z) (s s' : Series) :
  cyclical f period s = inr s' -> series_len s' = series_len s.
Proof.
  unfold cyclical. intros Hrun. apply bind_inr in Hrun as (xs & Hxs & [= <-]).
  apply to_numeric_length in Hxs. unfold series_len at 1. simpl.
  rewrite !length_map. exact Hxs.
Qed.

Lemma fits_roll (col : string) (window : nat) (agg : list Q -> float64) :
  fits (roll col window agg).
Proof.
  apply (fits_column col (fun s => xs ← to_numeric s; Ok (FloatS (rolling window agg xs)))).
  intros s s' Hrun. apply bind_inr in Hrun as (xs & Hxs & [= <-]).
  apply to_numeric_length in Hxs. unfold series_len at 1. simpl.
  rewrite length_map, rolling_length. exact Hxs.
Qed.

Lemma fits_binary (f : float64 -> float64 -> float64) (a b : string) :
  fits (binary f a b).
Proof.
  intros df s Hwf Hrun. unfold binary in Hrun.
  apply bind_inr in Hrun as (xs & Hxs & Hrun).
  apply bind_inr in Hrun as (ys & Hys & [= <-]).
  apply bind_inr in Hxs as (sa & Hsa & Hxs). apply bind_inr in Hys as (sb & Hsb & Hys).
  apply to_numeric_length in Hxs, Hys.
  rewrite (well_formed_column df a sa Hwf Hsa) in Hxs.
  rewrite (well_formed_column df b sb Hwf Hsb) in Hys.
  unfold series_len. simpl. rewrite length_map, map2_length; congruence.
Qed.

Lemma temporal_block_fits : Forall fits (expressions temporal_block).
Proof.
  unfold expressions, temporal_block. simpl.
  repeat match goal with
         | |- Forall _ (_ :: _) => constructor
         | |- Forall _ [] => constructor
         end;
    apply fits_column; intros s s';
    first [ apply pd_to_datetime_length
          | apply dt_length
          | apply dt_isocalendar_week_int_length
          | apply cyclical_length
          | intros [= <-]; apply isin_int_length ].
Qed.

Lemma lag_block_fits (cols : list string) (lags : list nat) :
  Forall fits (expressions (lag_block cols lags)).
Proof.
  apply Forall_forall. intros rhs Hrhs.
  apply list_elem_of_In in Hrhs. unfold expressions in Hrhs.
  apply in_flat_map in Hrhs as (st & Hst & Hrhs).
  unfold lag_block in Hst.
  apply list_elem_of_In, list_elem_of_bind in Hst as (col & Hst & _).
  apply list_elem_of_bind in Hst as (lag & Hst & _).
  apply list_elem_of_singleton in Hst. subst st.
  simpl in Hrhs. destruct Hrhs as [<- | []].
  apply (fits_column col (fun s => Ok (shift lag s))).
  intros s s' [= <-]. apply shift_length.
Qed.

Lemma rolling_block_fits (cols : list string) :
  Forall fits (expressions (rolling_block cols)).
Proof.
  apply Forall_forall. intros rhs Hrhs.
  apply list_elem_of_In in Hrhs. unfold expressions in Hrhs.
  apply in_flat_map in Hrhs as (st & Hst & Hrhs).
  unfold rolling_block in Hst.
  apply list_elem_of_In, list_elem_of_bind in Hst as (col & Hst & _).
  apply list_elem_of_bind in Hst as (window & Hst & _).
  apply list_elem_of_In in Hst. simpl in Hst.
  destruct Hst as [<- | [<- | [<- | [<- | []]]]];
    simpl in Hrhs; destruct Hrhs as [<- | []]; apply fits_roll.
Qed.

Lemma indices_block_fits : Forall fits (expressions indices_block).
Proof.
  unfold expressions, indices_block. simpl.
  repeat match goal with
         | |- Forall _ (_ :: _) => constructor
         | |- Forall _ [] => constructor
         end;
    apply fits_binary.
Qed.

(** From a frame whose columns have its rows, the engineered frame is one
    too. *)
Lemma engineer_features_well_formed (df out : DataFrame) :
  well_formed df -> engineer_features df = inr out -> well_formed out.
Proof.
  unfold engineer_features, create_temporal_features, create_lag_features,
    create_rolling_features, create_weather_indices.
  intros Hwf Hrun.
  apply bind_inr in Hrun as (df1 & H1 & Hrun).
  apply bind_inr in Hrun as (df2 & H2 & Hrun).
  apply bind_inr in Hrun as (df3 & H3 & Hrun).
  apply bind_inr in Hrun as (df4 & H4 & Hrun).
  injection Hrun as <-. apply dropna_well_formed.
  eapply run_block_well_formed; [apply indices_block_fits | | exact H4].
  eapply run_block_well_formed; [apply rolling_block_fits | | exact H3].
  eapply run_block_well_formed; [apply lag_block_fits | | exact H2].
  eapply run_block_well_formed; [apply temporal_block_fits | | exact H1].
  exact Hwf.
Qed.

End WellFormed.


(** ** Feature engineering on weather records *)

Lemma all_dates_map {A : Type} (f : A -> Z) (l : list A) :
  all_dates (map (fun a => Some (f a)) l) = Some (map f l).
Proof. induction l as [|a l IH]; simpl; [|rewrite IH]; reflexivity. Qed.

Lemma frame_of_records_dated (rs : list WeatherRecord) : dated (frame_of_records rs).
Proof.
  exists (map (fun r => Some (date r)) rs), (map date rs). split.
  - reflexivity.
  - apply all_dates_map.
Qed.

Lemma frame_of_records_numeric (rs : list WeatherRecord) :
  weather_numeric (frame_of_records rs).
Proof.
  intros c s Hc. unfold weather_cols in Hc. simpl in Hc.
  destruct Hc as [<- | [<- | [<- | [<- | [<- | [<- | []]]]]]];
    simpl; intros [= <-]; reflexivity.
Qed.

Lemma frame_of_records_well_formed (rs : list WeatherRecord) :
  well_formed (frame_of_records rs).
Proof.
  unfold well_formed, frame_of_records, series_len. simpl.
  repeat constructor; simpl; rewrite !length_map; reflexivity.
Qed.

Section Records.

Context `{Library}.

(** C2. For every sequence of weather records (and so for those of 15
    days or more with ascending unique dates) [engineer_features] returns a
    frame; every column of it has one cell for each of its rows, no cell is
    undefined, and it has at most as many rows as there are records. *)
Theorem engineer_features_fully_defined (rs : list WeatherRecord) :
  exists out,
    engineer_features (frame_of_records rs) = inr out /\
    well_formed out /\
    has_na out = false /\
    (nrows out <= length rs)%nat.
Proof.
  destruct (engineer_features_total (frame_of_records rs)) as (pre & Hout & _).
  - apply frame_of_records_dated.
  - apply frame_of_records_numeric.
  - exists (dropna pre). split; [exact Hout|]. split.
    + eapply engineer_features_well_formed; [|exact Hout].
      apply frame_of_records_well_formed.
    + apply engineer_features_defined in Hout. exact Hout.
Qed.

(** Thirteen days leave no row, fourteen leave one, fifteen leave two. *)
Example rows_left_after_dropna :
  map (fun n => nrows <$> engineer_features (H := stub_library) (frame_of_records (days n)))
      [13; 14; 15; 30]%nat
  = [inr 0; inr 1; inr 2; inr 17]%nat.
Proof. vm_compute. reflexivity. Qed.

End Records.

(** ** The chronological split *)







(** ** Methods of the model object *)

Lemma M_bind_unfold {A B : Type} (m : M A) (k : A -> M B) (w : World) :
  (m ≫= k) w = match m w with
               | (inl e, w') => (inl e, w')
               | (inr a, w') => k a w'
               end.
Proof. reflexivity. Qed.

Lemma M_bind_inr {A B : Type} (m : M A) (k : A -> M B) (w w2 : World) (b : B) :
  (m ≫= k) w = (inr b, w2) ->
  exists a w1, m w = (inr a, w1) /\ k a w1 = (inr b, w2).
Proof.
  rewrite M_bind_unfold. destruct (m w) as [[e|a] w1]; [discriminate | eauto].
Qed.

Lemma lift_inr {A : Type} (r : res A) (w w' : World) (a : A) :
  lift r w = (inr a, w') -> r = inr a /\ w' = w.
Proof. unfold lift. intros [= -> ->]. auto. Qed.

Lemma getitems_nrows (df X : DataFrame) (names : list string) :
  getitems df names = inr X -> nrows X = nrows df.
Proof.
  unfold getitems. intros Hget. apply bind_inr in Hget as (cols & _ & [= <-]).
  reflexivity.
Qed.

Section Split.

Context `{Library}.

(** What [prepare_features] returns: columns of the engineered frame, row
    for row. *)
Lemma prepare_features_inr (df X : DataFrame) (y : Series) (target : string)
  (w w' : World) :
  prepare_features df target w = (inr (X, y), w') ->
  exists eng feature_cols,
    engineer_features df = inr eng /\
    getitems eng feature_cols = inr X /\
    getitem eng target = inr y /\
    nrows X = nrows eng /\
    w' = {| self := set_feature_columns feature_cols (self w); disk := disk w |}.
Proof.
  unfold prepare_features. intros Hrun.
  apply M_bind_inr in Hrun as (eng & w1 & Heng & Hrun).
  apply lift_inr in Heng as [Heng ->].
  cbv zeta in Hrun.
  apply M_bind_inr in Hrun as (X0 & w2 & HX & Hrun).
  apply lift_inr in HX as [HX ->].
  apply M_bind_inr in Hrun as (y0 & w3 & Hy & Hrun).
  apply lift_inr in Hy as [Hy ->].
  apply M_bind_inr in Hrun as ([] & w4 & Hupd & Hrun).
  unfold update_self in Hupd. injection Hupd as <-.
  injection Hrun as <- <- <-.
  eexists eng, _. repeat split; eauto.
  eapply getitems_nrows; eauto.
Qed.



End Split.


(** ** The ensemble *)

Section Ensemble.

Context `{Library}.


End Ensemble.


(** ** The registry *)

(** C7, as the code has it.  [load_latest_model] takes no stage and looks
    nothing up: whatever the registry holds, it returns without raising,
    records the version string and the time, and leaves [current_model] as it
    was; [is_loaded] is true in any case, and a registry that held no model
    still holds none, so that [predict] raises. *)
Theorem load_latest_model_always_succeeds `{Library} (now : Z) (r : Registry.ModelRegistry) :
  Registry.load_latest_model now r
  = (inr tt, {| Registry.current_model := Registry.current_model r;
                Registry.model_version := Some "1.0.0-ensemble";
                Registry.loaded_at := Some now |}) /\
  Registry.is_loaded (snd (Registry.load_latest_model now r)) = true /\
  forall features days,
    Registry.predict now features days (snd (Registry.load_latest_model now Registry.init))
    = inl (ValueError "No model loaded").
Proof. repeat split. Qed.

(** C7 fails on an empty registry: no entry occupies any stage and nothing is
    loaded, yet the call reports success and the registry says it is loaded. *)
Lemma load_latest_model_reports_success_on_empty_registry :
  fst (Registry.load_latest_model 19723 Registry.init) = inr tt /\
  Registry.current_model (snd (Registry.load_latest_model 19723 Registry.init)) = None /\
  Registry.is_loaded (snd (Registry.load_latest_model 19723 Registry.init)) = true.
Proof. repeat split. Qed.

(** ** The validation gate *)



(** ** Forecasting *)

Lemma no_models_empty (m : WeatherMLModel) : no_models m = true <-> models m = ∅.
Proof.
  unfold no_models. split.
  - destruct (map_to_list (models m)) eqn:E; [|discriminate].
    intros _. apply map_to_list_empty_iff. exact E.
  - intros ->. rewrite map_to_list_empty. reflexivity.
Qed.

Lemma no_models_lookup (m : WeatherMLModel) (target : string) :
  is_Some (models m !! target) -> no_models m = false.
Proof.
  intros [e He]. apply not_true_is_false. intros Hno.
  apply no_models_empty in Hno. rewrite Hno, lookup_empty in He. discriminate.
Qed.

(** The columns that are there can be selected. *)
Lemma getitems_available (df : DataFrame) (names : list string) :
  exists cols,
    getitems df (List.filter (has_column df) names)
    = inr {| nrows := nrows df; columns := cols |} /\
    map fst cols = List.filter (has_column df) names.
Proof.
  unfold getitems.
  assert (Hcols : exists cols,
             mapM (fun n => s ← getitem df n; Ok (n, s)) (List.filter (has_column df) names)
             = inr cols /\ map fst cols = List.filter (has_column df) names).
  { induction names as [|n names (cols & Hcols & Hnames)]; simpl.
    - exists []. auto.
    - destruct (has_column df n) eqn:E; [|eauto].
      apply has_column_assoc in E as (s & Hs). apply getitem_assoc in Hs.
      exists ((n, s) :: cols). rewrite mapM_cons, Hs. simpl. rewrite Hcols. simpl.
      rewrite Hnames. auto. }
  destruct Hcols as (cols & -> & Hnames). exists cols. auto.
Qed.

Lemma iloc_tail_empty (df : DataFrame) :
  nrows df = 0%nat ->
  nrows (iloc_tail df) = 0%nat /\ column_names (iloc_tail df) = column_names df.
Proof.
  intros Hn. unfold iloc_tail, df_iloc, column_names. rewrite Hn. simpl. split; auto.
  rewrite map_map. apply map_ext. intros [n s]. reflexivity.
Qed.

Lemma iloc_tail_names (df : DataFrame) :
  column_names (iloc_tail df) = column_names df.
Proof.
  unfold iloc_tail, df_iloc, column_names. simpl.
  rewrite map_map. apply map_ext. intros [n s]. reflexivity.
Qed.

Section Forecast.

Context `{Library}.

Lemma pad_total (X_padded X_pred : DataFrame) (available : list string) :
  (forall col, In col available -> has_column X_pred col = true) ->
  exists X, pad X_padded X_pred available = inr X /\ nrows X = nrows X_padded.
Proof.
  revert X_padded. induction available as [|col available IH]; intros X_padded Hhas.
  - exists X_padded. auto.
  - destruct (proj1 (has_column_assoc X_pred col) (Hhas col (or_introl eq_refl)))
      as (s & Hs).
    apply getitem_assoc in Hs.
    destruct (IH (setitem X_padded col s)) as (X & HX & Hn).
    { intros c Hc. apply Hhas. right. exact Hc. }
    exists X. simpl. rewrite Hs. simpl. auto.
Qed.

(** With no row to predict from, the first target that has an ensemble
    raises. *)
Lemma forecast_targets_empty (self : WeatherMLModel) (X_pred : DataFrame)
  (available : list string) (targets : list string) (target : string) :
  nrows X_pred = 0%nat ->
  (forall col, In col available -> has_column X_pred col = true) ->
  In target targets -> is_Some (models self !! target) ->
  forall day_forecast,
    forecast_targets self X_pred available day_forecast targets = inl EmptyInput.
Proof.
  intros Hn Hhas Hin Hsome.
  induction targets as [|t targets IH]; intros day_forecast; [contradiction|].
  simpl. destruct (models self !! t) as [model|] eqn:Ht.
  - destruct (pad_total (zeros (nrows X_pred) (feature_columns self)) X_pred available Hhas)
      as (X & -> & HnX).
    simpl in HnX. rewrite Hn in HnX.
    simpl. unfold voting_predict. rewrite HnX. reflexivity.
  - destruct Hin as [-> | Hin].
    + destruct Hsome as [e He]. congruence.
    + simpl. apply IH. exact Hin.
Qed.

Lemma predict_day_empty (self : WeatherMLModel) (current_data eng : DataFrame)
  (last_date : pyval) (forecast_date : Z) (target : string) :
  getitem current_data "date" ≫= series_last = inr last_date ->
  next_day last_date = inr (Some forecast_date) ->
  engineer_features
    (setitem current_data "date"
             (broadcast (PyTimestamp (Some forecast_date)) (nrows current_data)))
  = inr eng ->
  nrows eng = 0%nat ->
  In target target_columns -> is_Some (models self !! target) ->
  predict_day self current_data = inl EmptyInput.
Proof.
  intros Hlast Hnext Heng Hn Hin Hsome.
  unfold predict_day. rewrite Hlast, bind_Ok, Hnext, bind_Ok. cbv zeta.
  rewrite Heng, bind_Ok.
  destruct (getitems_available eng (feature_columns self)) as (cols & -> & Hnames).
  change (iloc_tail <$> inr ?X) with (inr (B := DataFrame) (A := exn) (iloc_tail X)).
  rewrite bind_Ok. unfold strftime at 1. rewrite bind_Ok.
  rewrite (forecast_targets_empty self _ _ target_columns target); auto.
  - apply iloc_tail_empty. exact Hn.
  - intros col Hcol. unfold has_column. rewrite iloc_tail_names.
    unfold column_names. simpl. rewrite Hnames.
    apply mem_In. exact Hcol.
Qed.

(** A weather record engineered alone leaves no row: its lag and rolling
    features are undefined. *)
Lemma lone_record_leaves_no_row (r : WeatherRecord) (d : Z) :
  exists cols,
    engineer_features
      (setitem (setitem (frame_of_dict (features_of_record r)) "date"
                        (DateS [Some (date r)]))
               "date" (DateS [Some d]))
    = inr {| nrows := 0; columns := cols |}.
Proof. eexists. lazy. reflexivity. Qed.

(** C1 fails on the code.  For every object that holds an ensemble for
    some target, every weather record as the seed and every horizon of one
    day or more, [predict] raises on the first day: the engineered frame of
    the single seed row is empty, and the ensemble is asked to predict from
    no row. *)
Theorem predict_raises_on_weather_record (w : World) (now : Z) (r : WeatherRecord)
  (n : nat) (target : string) :
  In target target_columns ->
  is_Some (models (self w) !! target) ->
  (1 <= n)%nat ->
  predict now (features_of_record r) n w = (inl EmptyInput, w).
Proof.
  intros Hin Hsome Hn.
  unfold predict. rewrite M_bind_unfold. unfold get_self.
  rewrite (no_models_lookup _ _ Hsome). unfold lift. f_equal.
  change (seed_dates now (frame_of_dict (features_of_record r)))
    with (inr (A := exn) (DateS [Some (date r)])).
  rewrite bind_Ok.
  destruct n as [|n]; [lia|].
  destruct (lone_record_leaves_no_row r (date r + 1)) as (cols & Heng).
  cbn [predict_days].
  erewrite predict_day_empty; eauto; reflexivity.
Qed.

(** ** What an entry holds *)

Lemma forecast_targets_keys (self : WeatherMLModel) (X_pred : DataFrame)
  (available : list string) (targets : list string) :
  NoDup targets ->
  forall day_forecast entry,
    (forall t, In t targets -> ~ In t (map fst day_forecast)) ->
    forecast_targets self X_pred available day_forecast targets = inr entry ->
    map fst entry
    = map fst day_forecast
      ++ List.filter (fun t => negb (is_nan (models self !! t))) targets.
Proof.
  induction targets as [|t targets IH]; intros Hnodup day_forecast entry Hfresh Hrun.
  - simpl in *. injection Hrun as <-. rewrite app_nil_r. reflexivity.
  - apply NoDup_cons in Hnodup as [Hnotin Hnodup].
    simpl in Hrun. apply bind_inr in Hrun as (day_forecast' & Hstep & Hrun).
    apply IH in Hrun; auto.
    + rewrite Hrun. simpl.
      destruct (models self !! t) as [model|]; simpl.
      * apply bind_inr in Hstep as (X & _ & Hstep).
        apply bind_inr in Hstep as (pred & _ & [= <-]).
        rewrite assoc_set_names.
        destruct (mem t (map fst day_forecast)) eqn:E.
        -- apply mem_In in E. exfalso. eapply Hfresh; eauto. left. reflexivity.
        -- rewrite <- app_assoc. reflexivity.
      * injection Hstep as <-. reflexivity.
    + intros t' Ht' Hin'.
      destruct (models self !! t) as [model|].
      * apply bind_inr in Hstep as (X & _ & Hstep).
        apply bind_inr in Hstep as (pred & _ & [= <-]).
        rewrite assoc_set_names in Hin'.
        destruct (mem t (map fst day_forecast)).
        -- eapply Hfresh; eauto. right. exact Ht'.
        -- apply in_app_or in Hin' as [Hin' | [<- | []]].
           ++ eapply Hfresh; eauto. right. exact Ht'.
           ++ apply Hnotin. apply list_elem_of_In. exact Ht'.
      * injection Hstep as <-. eapply Hfresh; eauto. right. exact Ht'.
Qed.

Lemma predict_day_keys (self : WeatherMLModel) (current_data current_data' : DataFrame)
  (entry : list (string * pyval)) :
  predict_day self current_data = inr (entry, current_data') ->
  forecast_keys entry = served_keys self.
Proof.
  unfold predict_day. intros Hrun.
  apply bind_inr in Hrun as (last_date & _ & Hrun).
  apply bind_inr in Hrun as (forecast_date & _ & Hrun).
  cbv zeta in Hrun.
  apply bind_inr in Hrun as (df_features & _ & Hrun).
  apply bind_inr in Hrun as (X_pred & _ & Hrun).
  apply bind_inr in Hrun as (d & _ & Hrun).
  apply bind_inr in Hrun as (day_forecast & Hkeys & Hrun).
  apply bind_inr in Hrun as (new_row & _ & [= <- <-]).
  apply forecast_targets_keys in Hkeys.
  - exact Hkeys.
  - apply (bool_decide_unpack _). vm_compute. reflexivity.
  - intros t Ht. unfold target_columns in Ht. simpl in *.
    intuition (subst; discriminate).
Qed.

Lemma predict_days_keys (self : WeatherMLModel) (n : nat) :
  forall current_data forecasts result,
    predict_days self n current_data forecasts = inr result ->
    exists new,
      result = forecasts ++ new /\ length new = n /\
      Forall (fun entry => forecast_keys entry = served_keys self) new.
Proof.
  induction n as [|n IH]; intros current_data forecasts result Hrun; simpl in Hrun.
  - injection Hrun as <-. exists []. rewrite app_nil_r. auto.
  - apply bind_inr in Hrun as ([entry current_data'] & Hday & Hrun).
    apply IH in Hrun as (new & -> & Hlen & Hall).
    exists (entry :: new). rewrite <- app_assoc. simpl. repeat split; auto.
    constructor; auto. eapply predict_day_keys; eauto.
Qed.

(** C6, as the code has it.  [predict] raises "Model not trained" when the
    object holds no ensemble at all.  When it returns, the object holds
    some ensemble, there is one entry for each day, and each entry holds
    the date and exactly the targets that have an ensemble: a target
    without one is left out, and nothing is raised for it. *)
Theorem predict_omits_targets_without_ensemble (w : World) (now : Z)
  (features : list (string * pyval)) (n : nat) :
  (models (self w) = ∅ -> predict now features n w = (inl ModelNotTrained, w)) /\
  (forall forecasts,
      fst (predict now features n w) = inr forecasts ->
      models (self w) <> ∅ /\
      length forecasts = n /\
      Forall (fun entry => forecast_keys entry = served_keys (self w)) forecasts).
Proof.
  unfold predict. rewrite M_bind_unfold. unfold get_self. split.
  - intros Hempty. apply no_models_empty in Hempty. rewrite Hempty. reflexivity.
  - intros forecasts. destruct (no_models (self w)) eqn:Hno; [discriminate|].
    unfold lift. simpl. intros Hrun.
    apply bind_inr in Hrun as (dates & _ & Hrun).
    apply predict_days_keys in Hrun as (new & -> & Hlen & Hall).
    split; [|auto].
    intros Hempty. apply no_models_empty in Hempty. congruence.
Qed.

(** ** Repeated forecasts *)

Lemma assoc_frame_of_dict (features : list (string * pyval)) (k : string) :
  assoc k (columns (frame_of_dict features))
  = (fun v => broadcast v 1) <$> assoc k features.
Proof.
  unfold frame_of_dict. simpl.
  induction features as [|[k' v] features IH]; simpl; auto.
  destruct (String.eqb k' k); auto.
Qed.



End Forecast.


(** ** Frames as objects: the input of [engineer_features] is left alone *)

Lemma S_bind_unfold {A B : Type} (m : Store.S A) (k : A -> Store.S B) (h : list DataFrame) :
  (m ≫= k) h = match m h with
               | (inl e, h') => (inl e, h')
               | (inr a, h') => k a h'
               end.
Proof. reflexivity. Qed.

Lemma S_bind_return {A B : Type} (m : Store.S A) (k : A -> Store.S B)
  (h h' : list DataFrame) (a : A) :
  m h = (inr a, h') -> (m ≫= k) h = k a h'.
Proof. intros Hm. rewrite S_bind_unfold, Hm. reflexivity. Qed.

Lemma S_bind_raise {A B : Type} (m : Store.S A) (k : A -> Store.S B)
  (h h' : list DataFrame) (e : exn) :
  m h = (inl e, h') -> (m ≫= k) h = (inl e, h').
Proof. intros Hm. rewrite S_bind_unfold, Hm. reflexivity. Qed.

Lemma lookup_snoc {A : Type} (l : list A) (x : A) : (l ++ [x]) !! length l = Some x.
Proof. rewrite lookup_app_r by lia. rewrite Nat.sub_diag. reflexivity. Qed.

Lemma store_read (p : nat) (h : list DataFrame) (df : DataFrame) :
  h !! p = Some df -> Store.read p h = (inr df, h).
Proof. intros Hp. unfold Store.read. rewrite Hp. reflexivity. Qed.

Lemma store_assign (p : nat) (a : string * expr) (h : list DataFrame) (df : DataFrame) :
  h !! p = Some df ->
  Store.assign p a h
  = match snd a df with
    | inr s => (inr tt, <[p := setitem df (fst a) s]> h)
    | inl e => (inl e, h)
    end.
Proof. intros Hp. unfold Store.assign. rewrite Hp. reflexivity. Qed.

(** Running statements on the object at [p] changes that object only, the
    way the statements change its value. *)
Lemma store_assign_all (p : nat) (body : list (string * expr)) :
  forall (h : list DataFrame) (df : DataFrame),
    h !! p = Some df ->
    exists d,
      Store.assign_all p body h
      = (match assign_all body df with inr _ => inr tt | inl e => inl e end, <[p := d]> h) /\
      forall df', assign_all body df = inr df' -> d = df'.
Proof.
  induction body as [|a body IH]; intros h df Hp.
  - exists df. rewrite list_insert_id by exact Hp. simpl. split; [reflexivity|].
    intros df' [= <-]. reflexivity.
  - simpl. rewrite S_bind_unfold, (store_assign p a h df Hp).
    unfold assign. destruct (snd a df) as [e|s]; simpl.
    + exists df. rewrite list_insert_id by exact Hp. split; [reflexivity|]. discriminate.
    + assert (Hp' : <[p := setitem df (fst a) s]> h !! p = Some (setitem df (fst a) s)).
      { apply list_lookup_insert_eq. eapply lookup_lt_Some. exact Hp. }
      destruct (IH _ _ Hp') as (d & Hrun & Hd).
      exists d. rewrite Hrun, list_insert_insert_eq. auto.
Qed.

Lemma store_run_stmt (p : nat) (st : stmt) (h : list DataFrame) (df : DataFrame) :
  h !! p = Some df ->
  exists d,
    Store.run_stmt p st h
    = (match run_stmt df st with inr _ => inr tt | inl e => inl e end, <[p := d]> h) /\
    forall df', run_stmt df st = inr df' -> d = df'.
Proof.
  intros Hp. destruct st as [name rhs | required body]; simpl.
  - rewrite (store_assign p _ h df Hp). unfold assign. simpl.
    destruct (rhs df) as [e|s]; simpl.
    + exists df. rewrite list_insert_id by exact Hp. split; [reflexivity|]. discriminate.
    + eexists. split; [reflexivity|]. intros df' [= <-]. reflexivity.
  - rewrite S_bind_unfold. unfold Store.read. rewrite Hp.
    destruct (forallb (has_column df) required).
    + apply store_assign_all. exact Hp.
    + exists df. rewrite list_insert_id by exact Hp. split; [reflexivity|].
      intros df' [= <-]. reflexivity.
Qed.

Lemma store_run_block (p : nat) (b : list stmt) :
  forall (h : list DataFrame) (df : DataFrame),
    h !! p = Some df ->
    exists d,
      Store.run_block p b h
      = (match run_block b df with inr _ => inr tt | inl e => inl e end, <[p := d]> h) /\
      forall df', run_block b df = inr df' -> d = df'.
Proof.
  induction b as [|st b IH]; intros h df Hp.
  - exists df. rewrite list_insert_id by exact Hp. simpl. split; [reflexivity|].
    intros df' [= <-]. reflexivity.
  - simpl. rewrite S_bind_unfold.
    destruct (store_run_stmt p st h df Hp) as (d1 & -> & Hd1).
    destruct (run_stmt df st) as [e|df1]; simpl.
    + exists d1. split; [reflexivity|]. discriminate.
    + specialize (Hd1 df1 eq_refl). subst d1.
      assert (Hp' : <[p := df1]> h !! p = Some df1).
      { apply list_lookup_insert_eq. eapply lookup_lt_Some. exact Hp. }
      destruct (IH _ _ Hp') as (d & Hrun & Hd).
      exists d. rewrite Hrun, list_insert_insert_eq. auto.
Qed.

(** A stage copies its argument and runs its block on the copy: the store
    grows by one object, and nothing else changes. *)
Lemma store_stage (b : list stmt) (p : nat) (h : list DataFrame) (df : DataFrame) :
  h !! p = Some df ->
  exists d,
    (q ← Store.copy p; _ ← Store.run_block q b; mret q) h
    = (match run_block b df with inr _ => inr (length h) | inl e => inl e end, h ++ [d]) /\
    forall df', run_block b df = inr df' -> d = df'.
Proof.
  intros Hp. rewrite S_bind_unfold. unfold Store.copy at 1.
  rewrite S_bind_unfold. unfold Store.read, Store.alloc. rewrite Hp.
  rewrite S_bind_unfold.
  assert (Hq : (h ++ [df]) !! length h = Some df).
  { rewrite lookup_app_r by lia. rewrite Nat.sub_diag. reflexivity. }
  destruct (store_run_block (length h) b _ _ Hq) as (d & -> & Hd).
  exists d. split; [|exact Hd].
  assert (Hins : <[length h := d]> (h ++ [df]) = h ++ [d]).
  { rewrite insert_app_r_alt by lia. rewrite Nat.sub_diag. reflexivity. }
  rewrite Hins. destruct (run_block b df); reflexivity.
Qed.

Section StoreEngineer.

Context `{Library}.

(** The run on objects, against the run on values: the store grows at its
    end, and the result is the address of a new object holding the
    engineered frame, or the exception the run on values raises. *)
Lemma store_engineer_features (h : list DataFrame) (p : nat) (df : DataFrame) :
  h !! p = Some df ->
  exists ext,
    snd (Store.engineer_features p h) = h ++ ext /\
    match fst (Store.engineer_features p h) with
    | inr q => exists out, engineer_features df = inr out /\
                           (h ++ ext) !! q = Some out /\ (length h <= q)%nat
    | inl e => engineer_features df = inl e
    end.
Proof.
  intros Hp.
  unfold Store.engineer_features, engineer_features,
    Store.create_temporal_features, Store.create_lag_features,
    Store.create_rolling_features, Store.create_weather_indices,
    create_temporal_features, create_lag_features, create_rolling_features,
    create_weather_indices.
  (* temporal *)
  destruct (store_stage temporal_block p h df Hp) as (d1 & Hs1 & Hd1).
  destruct (run_block temporal_block df) as [e|df1].
  { exists [d1]. rewrite (S_bind_raise _ _ _ _ _ Hs1). split; reflexivity. }
  specialize (Hd1 df1 eq_refl). subst d1.
  rewrite (S_bind_return _ _ _ _ _ Hs1), bind_Ok.
  assert (H1 : (h ++ [df1]) !! length h = Some df1) by apply lookup_snoc.
  rewrite (S_bind_return _ _ _ _ _ (store_read _ _ _ H1)). cbv zeta.
  set (existing_cols := List.filter (has_column df1) weather_cols).
  (* lag *)
  destruct (store_stage (lag_block existing_cols [1; 2; 3; 7]%nat) _ _ _ H1)
    as (d2 & Hs2 & Hd2).
  destruct (run_block (lag_block existing_cols _) df1) as [e|df2].
  { exists [df1; d2]. rewrite (S_bind_raise _ _ _ _ _ Hs2), <- List.app_assoc.
    split; reflexivity. }
  specialize (Hd2 df2 eq_refl). subst d2.
  rewrite (S_bind_return _ _ _ _ _ Hs2), bind_Ok.
  assert (H2 : ((h ++ [df1]) ++ [df2]) !! length (h ++ [df1]) = Some df2)
    by apply lookup_snoc.
  (* rolling *)
  destruct (store_stage (rolling_block existing_cols) _ _ _ H2) as (d3 & Hs3 & Hd3).
  destruct (run_block (rolling_block existing_cols) df2) as [e|df3].
  { exists [df1; df2; d3]. rewrite (S_bind_raise _ _ _ _ _ Hs3), <- !List.app_assoc.
    split; reflexivity. }
  specialize (Hd3 df3 eq_refl). subst d3.
  rewrite (S_bind_return _ _ _ _ _ Hs3), bind_Ok.
  assert (H3 : (((h ++ [df1]) ++ [df2]) ++ [df3]) !! length ((h ++ [df1]) ++ [df2])
               = Some df3) by apply lookup_snoc.
  (* indices *)
  destruct (store_stage indices_block _ _ _ H3) as (d4 & Hs4 & Hd4).
  destruct (run_block indices_block df3) as [e|df4].
  { exists [df1; df2; df3; d4]. rewrite (S_bind_raise _ _ _ _ _ Hs4), <- !List.app_assoc.
    split; reflexivity. }
  specialize (Hd4 df4 eq_refl). subst d4.
  rewrite (S_bind_return _ _ _ _ _ Hs4), bind_Ok.
  (* dropna *)
  assert (H4 : ((((h ++ [df1]) ++ [df2]) ++ [df3]) ++ [df4])
                 !! length (((h ++ [df1]) ++ [df2]) ++ [df3]) = Some df4)
    by apply lookup_snoc.
  rewrite (S_bind_return _ _ _ _ _ (store_read _ _ _ H4)).
  unfold Store.alloc. cbn [fst snd].
  exists [df1; df2; df3; df4; dropna df4].
  assert (Hext : ((((h ++ [df1]) ++ [df2]) ++ [df3]) ++ [df4]) ++ [dropna df4]
                 = h ++ [df1; df2; df3; df4; dropna df4]).
  { rewrite <- !List.app_assoc. reflexivity. }
  rewrite Hext. split; [reflexivity|].
  exists (dropna df4). split; [reflexivity|]. split.
  - rewrite <- Hext. rewrite !length_app. simpl.
    replace (length h + 1 + 1 + 1 + 1)%nat
      with (length ((((h ++ [df1]) ++ [df2]) ++ [df3]) ++ [df4]))
      by (rewrite !length_app; simpl; lia).
    apply lookup_snoc.
  - rewrite !length_app. simpl. lia.
Qed.

(** C10. Whatever frame object [engineer_features] is given, that object
    is the same after the call, and so is every other object there was:
    each stage works on a copy.  The call returns a new object, which holds
    the engineered frame, or raises what engineering the frame raises. *)
Theorem engineer_features_leaves_input_unchanged (h : list DataFrame) (p : nat)
  (df : DataFrame) :
  h !! p = Some df ->
  let '(r, h') := Store.engineer_features p h in
  h' !! p = Some df /\
  (forall q old, h !! q = Some old -> h' !! q = Some old) /\
  match r with
  | inr q => exists out, engineer_features df = inr out /\
                         h' !! q = Some out /\ (length h <= q)%nat
  | inl e => engineer_features df = inl e
  end.
Proof.
  intros Hp. destruct (store_engineer_features h p df Hp) as (ext & Hext & Hres).
  destruct (Store.engineer_features p h) as [r h']. simpl in Hext, Hres. subst h'.
  repeat split.
  - apply lookup_app_l_Some. exact Hp.
  - intros q old Hq. apply lookup_app_l_Some. exact Hq.
  - exact Hres.
Qed.

End StoreEngineer.


(** ** Training *)

Lemma take_at_map {A B : Type} (f : A -> B) (idx : list nat) (xs : list A) :
  take_at idx (map f xs) = map f (take_at idx xs).
Proof.
  unfold take_at. induction idx as [|i idx IH]; simpl; auto.
  change (list_omap nat B (fun i0 => map f xs !! i0) idx)
    with (omap (fun i0 => map f xs !! i0) idx).
  rewrite IH.
  replace (map f xs !! i) with (f <$> xs !! i)
    by (symmetry; apply (list_lookup_fmap f xs i)).
  destruct (xs !! i); reflexivity.
Qed.

Lemma take_at_In {A : Type} (idx : list nat) (xs : list A) (x : A) :
  In x (take_at idx xs) -> In x xs.
Proof.
  unfold take_at. intros Hin. apply list_elem_of_In, list_elem_of_omap in Hin.
  destruct Hin as (i & _ & Hi). apply list_elem_of_In.
  eapply list_elem_of_lookup_2. exact Hi.
Qed.

Lemma isna_series_iloc (idx : list nat) (s : Series) :
  isna (series_iloc idx s) = take_at idx (isna s).
Proof. destruct s; simpl; symmetry; apply take_at_map. Qed.

Lemma series_iloc_defined (idx : list nat) (s : Series) :
  defined_numeric s -> defined_numeric (series_iloc idx s).
Proof.
  intros [Hnum Hna]. split.
  - destruct s; simpl in *; auto.
  - rewrite isna_series_iloc. apply not_true_is_false. intros Hex.
    apply existsb_exists in Hex as (b & Hb & Hid).
    apply take_at_In in Hb.
    assert (existsb id (isna s) = true) by (apply existsb_exists; eauto).
    congruence.
Qed.

Lemma all_defined_total (xs : list float64) :
  existsb id (map is_nan xs) = false -> exists vs, all_defined xs = Some vs.
Proof.
  induction xs as [|x xs IH]; simpl; [eauto|].
  destruct x as [v|]; simpl; [|discriminate].
  intros Hna. destruct (IH Hna) as (vs & ->). simpl. eauto.
Qed.

Lemma target_values_total (s : Series) :
  defined_numeric s -> exists vs, target_values s = inr vs.
Proof.
  intros [Hnum Hna]. unfold target_values.
  destruct s as [xs|xs|xs|xs]; simpl in *; try discriminate.
  - destruct (all_defined_total xs Hna) as (vs & ->). eauto.
  - destruct (all_defined_total (map (fun n => Some (inject_Z n)) xs)) as (vs & ->); eauto.
    rewrite map_map. simpl. clear. induction xs; simpl; auto.
Qed.

Lemma feature_rows_total (X : DataFrame) :
  Forall (fun c => numeric_dtype (snd c) = true) (columns X) ->
  exists rows, feature_rows X = inr rows.
Proof.
  unfold feature_rows. intros Hnum.
  assert (Hcols : exists cols, mapM (fun c => to_numeric (snd c)) (columns X) = inr cols).
  { induction Hnum as [|c cs Hc _ (cols & IH)]; [exists []; reflexivity|].
    destruct (to_numeric_total _ Hc) as (xs & Hxs).
    exists (xs :: cols). rewrite mapM_cons, Hxs. simpl. rewrite IH. reflexivity. }
  destruct Hcols as (cols & ->). simpl. eauto.
Qed.

Lemma df_iloc_numeric (idx : list nat) (X : DataFrame) :
  Forall (fun c => numeric_dtype (snd c) = true) (columns X) ->
  Forall (fun c => numeric_dtype (snd c) = true) (columns (df_iloc idx X)).
Proof.
  intros Hnum. unfold df_iloc. simpl. rewrite Forall_map.
  eapply Forall_impl; [exact Hnum|]. intros [n s]. simpl. destruct s; auto.
Qed.

Lemma df_iloc_nrows (idx : list nat) (X : DataFrame) :
  Forall (fun i => (i < nrows X)%nat) idx -> nrows (df_iloc idx X) = length idx.
Proof.
  intros Hidx. unfold df_iloc. simpl. f_equal.
  induction Hidx as [|i idx Hi _ IH]; simpl; auto.
  apply Nat.ltb_lt in Hi. rewrite Hi. simpl. f_equal. exact IH.
Qed.

(** The columns asked for are returned when they are all there. *)
Lemma getitems_total (P : Series -> Prop) (df : DataFrame) (names : list string) :
  (forall c, In c names -> exists s, assoc c (columns df) = Some s /\ P s) ->
  exists cols,
    getitems df names = inr {| nrows := nrows df; columns := cols |} /\
    Forall (fun c => P (snd c)) cols.
Proof.
  unfold getitems. intros Hall.
  assert (Hcols : exists cols,
             mapM (fun n => s ← getitem df n; Ok (n, s)) names = inr cols /\
             Forall (fun c => P (snd c)) cols).
  { induction names as [|n names IH]; [exists []; split; [reflexivity | constructor]|].
    destruct (Hall n (or_introl eq_refl)) as (s & Hs & HP).
    destruct IH as (cols & Hcols & HPs); [intros c Hc; apply Hall; right; exact Hc|].
    apply getitem_assoc in Hs.
    exists ((n, s) :: cols). rewrite mapM_cons, Hs. simpl. rewrite Hcols. simpl.
    split; [reflexivity | constructor; auto]. }
  destruct Hcols as (cols & -> & HP). exists cols. auto.
Qed.

(** The size of the holdout: a fifth of the rows, rounded up. *)
Lemma holdout_size (n : nat) :
  Qceiling (0.2 * inject_Z (Z.of_nat n)) = (Z.of_nat n + 4) / 5.
Proof.
  unfold Qceiling, Qfloor, Qopp, Qmult, inject_Z. simpl.
  change (Z.pos (10 * 1)) with 10.
  Z.to_euclidean_division_equations. lia.
Qed.

Lemma split_indices_small (n : nat) :
  (n < 2)%nat -> split_indices n = inl (EmptyTrainingSet n).
Proof.
  intros Hn. unfold split_indices, validate_shuffle_split. rewrite holdout_size.
  assert (Hz : (n - Z.to_nat ((Z.of_nat n + 4) / 5) = 0)%nat).
  { assert (n = 0 \/ n = 1)%nat as [-> | ->] by lia; reflexivity. }
  rewrite Hz. reflexivity.
Qed.

Lemma split_indices_large (n : nat) :
  (2 <= n)%nat ->
  exists n_train n_test,
    split_indices n = inr (seq 0 n_train, seq n_train n_test) /\
    (1 <= n_train)%nat /\ (1 <= n_test)%nat /\ (n_train + n_test = n)%nat.
Proof.
  intros Hn. unfold split_indices, validate_shuffle_split. rewrite holdout_size.
  set (n_test := Z.to_nat ((Z.of_nat n + 4) / 5)).
  assert (Htest : (1 <= n_test < n)%nat).
  { unfold n_test. Z.to_euclidean_division_equations. lia. }
  destruct (n - n_test =? 0)%nat eqn:E; [apply Nat.eqb_eq in E; lia|].
  exists (n - n_test)%nat, n_test. simpl. repeat split; lia.
Qed.


Lemma M_bind_lift_Ok {A B : Type} (r : res A) (a : A) (k : A -> M B) (w : World) :
  r = inr a -> (lift r ≫= k) w = k a w.
Proof. intros ->. reflexivity. Qed.

Lemma M_bind_lift_raise {A B : Type} (r : res A) (e : exn) (k : A -> M B) (w : World) :
  r = inl e -> (lift r ≫= k) w = (inl e, w).
Proof. intros ->. reflexivity. Qed.

Lemma M_bind_return {A B : Type} (m : M A) (k : A -> M B) (w w' : World) (a : A) :
  m w = (inr a, w') -> (m ≫= k) w = k a w'.
Proof. intros Hm. rewrite M_bind_unfold, Hm. reflexivity. Qed.

Lemma M_bind_raise {A B : Type} (m : M A) (k : A -> M B) (w w' : World) (e : exn) :
  m w = (inl e, w') -> (m ≫= k) w = (inl e, w').
Proof. intros Hm. rewrite M_bind_unfold, Hm. reflexivity. Qed.

Lemma series_select_numeric (mask : list bool) (s : Series) :
  numeric_dtype s = true -> numeric_dtype (series_select mask s) = true.
Proof. destruct s; auto. Qed.

Lemma has_na_column (df : DataFrame) (name : string) (s : Series) :
  has_na df = false -> assoc name (columns df) = Some s -> existsb id (isna s) = false.
Proof.
  intros Hna Hs. apply assoc_In in Hs. apply not_true_is_false. intros Hex.
  assert (has_na df = true); [|congruence].
  unfold has_na. apply existsb_exists. exists (name, s). auto.
Qed.

Section Train.

Context `{Library}.

(** The engineered frame of weather records can be trained on. *)
Lemma records_trainable (rs : list WeatherRecord) :
  exists eng, engineer_features (frame_of_records rs) = inr eng /\ trainable eng.
Proof.
  destruct (engineer_features_total (frame_of_records rs)) as (pre & Heng & Hnum & Hhas).
  { apply frame_of_records_dated. }
  { apply frame_of_records_numeric. }
  exists (dropna pre). split; [exact Heng|]. split; [|apply dropna_no_na].
  intros t Ht.
  assert (Hw : In t weather_cols).
  { unfold target_columns, weather_cols in *. simpl in *. tauto. }
  assert (Hc : has_column (frame_of_records rs) t = true).
  { unfold target_columns in Ht. simpl in Ht.
    destruct Ht as [<- | [<- | [<- | [<- | [<- | []]]]]]; reflexivity. }
  apply Hhas, has_column_assoc in Hc as (s & Hs).
  exists (series_select (keep_mask pre) s). split.
  - rewrite dropna_assoc, Hs. reflexivity.
  - apply series_select_numeric. eapply Hnum; eauto.
Qed.

Lemma prepare_features_total (df eng : DataFrame) (target : string) (w : World) :
  engineer_features df = inr eng -> trainable eng -> In target target_columns ->
  exists X y cols,
    prepare_features df target w
    = (inr (X, y), {| self := set_feature_columns cols (self w); disk := disk w |}) /\
    nrows X = nrows eng /\
    Forall (fun c => numeric_dtype (snd c) = true) (columns X) /\
    defined_numeric y.
Proof.
  intros Heng [Htargets Hna] Hin.
  destruct (Htargets target Hin) as (y & Hy & Hynum).
  unfold prepare_features.
  rewrite (M_bind_lift_Ok _ _ _ _ Heng). cbv zeta.
  match goal with |- context [getitems eng ?cols] => set (feature_cols := cols) end.
  destruct (getitems_total (fun s => numeric_dtype s = true) eng feature_cols)
    as (cols & HX & Hnum).
  { intros c Hc. unfold feature_cols in Hc. apply filter_In in Hc as [_ Hc].
    destruct (assoc c (columns eng)) as [s|]; [eauto | discriminate]. }
  rewrite (M_bind_lift_Ok _ _ _ _ HX).
  rewrite (M_bind_lift_Ok _ _ _ _ (proj2 (getitem_assoc eng target y) Hy)).
  do 3 eexists. split; [reflexivity|]. repeat split; auto.
  eapply has_na_column; eauto.
Qed.

(** With fewer than two rows the split refuses, before anything is fitted. *)
Lemma train_target_refused (df eng : DataFrame) (target : string)
  (all_metrics : list (string * Metrics)) (w : World) :
  engineer_features df = inr eng -> trainable eng -> In target target_columns ->
  (nrows eng < 2)%nat ->
  exists cols,
    train_target df all_metrics target w
    = (inl (EmptyTrainingSet (nrows eng)),
       {| self := set_feature_columns cols (self w); disk := disk w |}).
Proof.
  intros Heng Htr Hin Hn.
  destruct (prepare_features_total df eng target w Heng Htr Hin)
    as (X & y & cols & Hprep & HnX & _ & _).
  exists cols. unfold train_target.
  rewrite (M_bind_return _ _ _ _ _ Hprep). cbv beta iota.
  apply M_bind_lift_raise. unfold train_test_split.
  rewrite HnX, split_indices_small by exact Hn. reflexivity.
Qed.

(** With two rows or more the target is fitted, whatever their number. *)
Lemma train_target_fitted (df eng : DataFrame) (target : string)
  (all_metrics : list (string * Metrics)) (w : World) :
  engineer_features df = inr eng -> trainable eng -> In target target_columns ->
  (2 <= nrows eng)%nat ->
  exists all_metrics' ensemble cols,
    train_target df all_metrics target w
    = (inr all_metrics',
       {| self := set_model target ensemble (set_feature_columns cols (self w));
          disk := disk w |}).
Proof.
  intros Heng Htr Hin Hn.
  destruct (prepare_features_total df eng target w Heng Htr Hin)
    as (X & y & cols & Hprep & HnX & HXnum & Hy).
  destruct (split_indices_large (nrows eng) Hn)
    as (n_train & n_test & Hsplit & Htrain & Htest & Hsum).
  unfold train_target.
  rewrite (M_bind_return _ _ _ _ _ Hprep). cbv beta iota.
  assert (Hs : train_test_split X y
               = inr (df_iloc (seq 0 n_train) X, df_iloc (seq n_train n_test) X,
                      series_iloc (seq 0 n_train) y, series_iloc (seq n_train n_test) y)).
  { unfold train_test_split. rewrite HnX, Hsplit. reflexivity. }
  rewrite (M_bind_lift_Ok _ _ _ _ Hs). cbv beta iota.
  assert (Hntrain : nrows (df_iloc (seq 0 n_train) X) = n_train).
  { rewrite df_iloc_nrows, length_seq; [reflexivity|].
    apply Forall_forall. intros i Hi. apply list_elem_of_In, in_seq in Hi. lia. }
  assert (Hntest : nrows (df_iloc (seq n_train n_test) X) = n_test).
  { rewrite df_iloc_nrows, length_seq; [reflexivity|].
    apply Forall_forall. intros i Hi. apply list_elem_of_In, in_seq in Hi. lia. }
  destruct (feature_rows_total _ (df_iloc_numeric (seq 0 n_train) X HXnum))
    as (rows_train & Hrows_train).
  destruct (feature_rows_total _ (df_iloc_numeric (seq n_train n_test) X HXnum))
    as (rows_test & Hrows_test).
  destruct (target_values_total _ (series_iloc_defined (seq 0 n_train) y Hy))
    as (ys_train & Hys_train).
  destruct (target_values_total _ (series_iloc_defined (seq n_train n_test) y Hy))
    as (ys_test & Hys_test).
  assert (Hfit : exists ensemble,
             voting_fit build_ensemble (df_iloc (seq 0 n_train) X)
                        (series_iloc (seq 0 n_train) y) = inr ensemble).
  { unfold voting_fit. rewrite Hntrain.
    destruct (n_train =? 0)%nat eqn:E; [apply Nat.eqb_eq in E; lia|].
    rewrite Hrows_train, bind_Ok, Hys_train, bind_Ok. eauto. }
  destruct Hfit as (ensemble & Hfit).
  rewrite (M_bind_lift_Ok _ _ _ _ Hfit).
  assert (Hpred : voting_predict ensemble (df_iloc (seq n_train n_test) X)
                  = inr (map (predict_row ensemble) rows_test)).
  { unfold voting_predict. rewrite Hntest.
    destruct (n_test =? 0)%nat eqn:E; [apply Nat.eqb_eq in E; lia|].
    rewrite Hrows_test. reflexivity. }
  rewrite (M_bind_lift_Ok _ _ _ _ Hpred).
  rewrite (M_bind_lift_Ok _ _ _ _ Hys_test). cbv zeta.
  do 3 eexists. reflexivity.
Qed.

Lemma train_targets_fitted (df eng : DataFrame) :
  engineer_features df = inr eng -> trainable eng -> (2 <= nrows eng)%nat ->
  forall targets all_metrics w,
    incl targets target_columns ->
    exists all_metrics' w',
      train_targets df all_metrics targets w = (inr all_metrics', w') /\
      disk w' = disk w /\
      (forall t, In t targets -> is_Some (models (self w') !! t)) /\
      (forall t, is_Some (models (self w) !! t) -> is_Some (models (self w') !! t)).
Proof.
  intros Heng Htr Hn. induction targets as [|target targets IH];
    intros all_metrics w Hincl.
  - exists all_metrics, w. simpl. repeat split; auto. intros t [].
  - destruct (train_target_fitted df eng target all_metrics w Heng Htr)
      as (am1 & ensemble & cols & Hstep); auto.
    { apply Hincl. left. reflexivity. }
    destruct (IH am1 {| self := set_model target ensemble
                                  (set_feature_columns cols (self w));
                        disk := disk w |})
      as (am2 & w2 & Hrest & Hdisk & Hnew & Hold).
    { intros t Ht. apply Hincl. right. exact Ht. }
    exists am2, w2. simpl.
    rewrite (M_bind_return _ _ _ _ _ Hstep), Hrest.
    repeat split; auto.
    + intros t [<- | Ht]; [|auto].
      apply Hold. simpl. rewrite lookup_insert_eq. eauto.
    + intros t Ht. apply Hold. simpl.
      destruct (decide (target = t)) as [-> | Hne].
      * rewrite lookup_insert_eq. eauto.
      * rewrite lookup_insert_ne by exact Hne. exact Ht.
Qed.

(** C5, as the code has it.  [train] has no condition of its own for too
    little data.  On the frame of a sequence of weather records, when fewer
    than two rows are left after the undefined rows are dropped, the
    chronological split raises its [ValueError] for an empty training set:
    no ensemble is fitted and nothing is written.  When two rows or more
    are left, however few, [train] fits an ensemble for every target and
    writes the artifact. *)
Theorem train_fails_only_on_empty_training_set (now : Z) (run : string)
  (rs : list WeatherRecord) (w : World) :
  exists eng,
    engineer_features (frame_of_records rs) = inr eng /\
    ((nrows eng < 2)%nat ->
     exists w',
       train now run (Some (frame_of_records rs)) w
       = (inl (EmptyTrainingSet (nrows eng)), w') /\
       disk w' = disk w /\
       models (self w') = models (self w)) /\
    ((2 <= nrows eng)%nat ->
     exists result w' artifact,
       train now run (Some (frame_of_records rs)) w = (inr result, w') /\
       assoc (model_path result) (disk w') = Some artifact /\
       artifact_models artifact = models (self w') /\
       forall t, In t target_columns -> is_Some (models (self w') !! t)).
Proof.
  destruct (records_trainable rs) as (eng & Heng & Htr).
  exists eng. split; [exact Heng|].
  assert (Hdate : getitem (frame_of_records rs) "date"
                  = inr (DateS (map (fun r => Some (date r)) rs))) by reflexivity.
  unfold train. simpl default. split.
  - intros Hn.
    destruct (train_target_refused (frame_of_records rs) eng "temp_max" [] w Heng Htr)
      as (cols & Hstep); auto.
    { left. reflexivity. }
    eexists. split; [|split].
    + rewrite (M_bind_lift_Ok _ _ _ _ Hdate).
      apply M_bind_raise. unfold target_columns. simpl train_targets.
      apply M_bind_raise. exact Hstep.
    + reflexivity.
    + reflexivity.
  - intros Hn.
    destruct (train_targets_fitted (frame_of_records rs) eng Heng Htr Hn
                target_columns [] w) as (am & w1 & Hrun & Hdisk & Hnew & _).
    { intros t Ht. exact Ht. }
    do 3 eexists. split; [|split; [|split]].
    + rewrite (M_bind_lift_Ok _ _ _ _ Hdate).
      rewrite (M_bind_return _ _ _ _ _ Hrun). cbv zeta.
      reflexivity.
    + simpl. apply assoc_set_same.
    + reflexivity.
    + simpl. exact Hnew.
Qed.

End Train.


(** ** Closed instances *)

(** C1 at the specification's own end-to-end example: a trained object, the
    seed of 2024-01-01, three days. *)
Lemma predict_raises_on_weather_record_witness :
  predict (H := stub_library) 19723 (features_of_record seed_2024_01_01) 3
          {| self := trained_model; disk := [] |}
  = (inl EmptyInput, {| self := trained_model; disk := [] |}).
Proof.
  apply (predict_raises_on_weather_record (H := stub_library)
           {| self := trained_model; disk := [] |} 19723 seed_2024_01_01 3 "temp_max").
  - simpl. auto.
  - exists stub_ensemble. vm_compute. reflexivity.
  - lia.
Defined.


(** C5 fails on fifteen daily records.  Two rows are left after the
    undefined rows are dropped, far fewer than the lookback of fourteen days;
    [train] does not fail: it fits every ensemble on the single training row,
    scores it on the single holdout row, where R² is undefined, and writes
    the artifact. *)
Lemma train_proceeds_on_a_single_training_row :
  nrows <$> engineer_features (H := stub_library) (frame_of_records (days 15))
  = inr 2%nat /\
  split_indices 2 = inr ([0%nat], [1%nat]) /\
  raised (fst (train (H := stub_library) 19800 "run-1"
                     (Some (frame_of_records (days 15))) fresh_world)) = false /\
  avg_r2 <$> fst (train (H := stub_library) 19800 "run-1"
                        (Some (frame_of_records (days 15))) fresh_world)
  = inr None /\
  map fst (disk (snd (train (H := stub_library) 19800 "run-1"
                            (Some (frame_of_records (days 15))) fresh_world)))
  = ["/tmp/weather_model_run-1.pkl"].
Proof. vm_compute. repeat split. Qed.

(** Fourteen daily records leave one row, and the split refuses it. *)
Example train_refused_on_fourteen_days :
  fst (train (H := stub_library) 19800 "run-1" (Some (frame_of_records (days 14)))
             fresh_world)
  = inl (EmptyTrainingSet 1).
Proof. vm_compute. reflexivity. Qed.

(** C6 fails on an object that has an ensemble for [temp_max] only, seeded
    with a date and a place for one day: [predict] raises nothing and returns
    an entry that has no value for the four other targets. *)
Lemma predict_returns_without_four_targets :
  fst (predict (H := stub_library) 19723 bare_seed 1 {| self := partial_model; disk := [] |})
  = inr [[("date", PyStr "2024-01-02"); ("temp_max", PyFloat (Some 1.80%Q))]].
Proof. vm_compute. reflexivity. Qed.


(** C10 on a store that holds the frame of fifteen daily records. *)
Lemma engineer_features_leaves_input_unchanged_witness :
  let '(r, h') := Store.engineer_features (H := stub_library) 0%nat
                    [frame_of_records (days 15)] in
  h' !! 0%nat = Some (frame_of_records (days 15)) /\
  (forall q old, [frame_of_records (days 15)] !! q = Some old -> h' !! q = Some old) /\
  match r with
  | inr q => exists out, engineer_features (H := stub_library)
                           (frame_of_records (days 15)) = inr out /\
                         h' !! q = Some out /\ (1 <= q)%nat
  | inl e => engineer_features (H := stub_library) (frame_of_records (days 15)) = inl e
  end.
Proof.
  apply (engineer_features_leaves_input_unchanged (H := stub_library)
           [frame_of_records (days 15)] 0%nat (frame_of_records (days 15))).
  reflexivity.
Defined.


(** * Further properties of the code

    ** Columns assigned once in a block *)

Lemma filter_sublist {A : Type} (f : A -> bool) (l : list A) : sublist (List.filter f l) l.
Proof.
  induction l as [|x l IH]; simpl; [constructor|].
  destruct (f x); constructor; exact IH.
Qed.

Lemma sublist_bind {A B : Type} (f : A -> list B) (l1 l2 : list A) :
  sublist l1 l2 -> sublist (l1 ≫= f) (l2 ≫= f).
Proof.
  induction 1 as [|x l1 l2 _ IH|x l1 l2 _ IH]; rewrite ?bind_cons.
  - constructor.
  - apply sublist_app; [reflexivity | exact IH].
  - apply sublist_inserts_l. exact IH.
Qed.

Lemma assigned_app (a b : list stmt) : assigned (a ++ b) = assigned a ++ assigned b.
Proof. unfold assigned. apply flat_map_app. Qed.

Lemma assigned_bind {A : Type} (f : A -> list stmt) (l : list A) :
  assigned (l ≫= f) = l ≫= (fun x => assigned (f x)).
Proof.
  induction l as [|x l IH]; [reflexivity|].
  rewrite !bind_cons, assigned_app, IH. reflexivity.
Qed.

Lemma expressions_cons (st : stmt) (b : list stmt) :
  expressions (st :: b) = expressions_of st ++ expressions b.
Proof. reflexivity. Qed.

Lemma run_stmt_well_formed (st : stmt) (df df' : DataFrame) :
  Forall fits (expressions_of st) -> well_formed df -> run_stmt df st = inr df' ->
  well_formed df'.
Proof.
  intros Hfits Hwf Hrun.
  apply (run_block_well_formed [st]) with (df := df); auto.
  - unfold expressions. simpl. rewrite app_nil_r. exact Hfits.
  - simpl. rewrite Hrun. reflexivity.
Qed.

(** A column that a block assigns once holds, when the block is through,
    what its right-hand side gave on the frame as it was at that point. *)
Lemma run_block_assigned_once (b : list stmt) (name : string) (rhs : expr) :
  NoDup (assigned b) -> In (Assign name rhs) b -> Forall fits (expressions b) ->
  forall df df', well_formed df -> run_block b df = inr df' ->
  exists d s,
    well_formed d /\ nrows d = nrows df /\ rhs d = inr s /\
    assoc name (columns df') = Some s /\
    (forall c, ~ In c (assigned b) -> assoc c (columns d) = assoc c (columns df)).
Proof.
  induction b as [|st b IH]; intros Hnodup Hin Hfits df df' Hwf Hrun; [contradiction|].
  rewrite run_block_cons in Hrun. apply bind_inr in Hrun as (d1 & Hst & Hrun).
  change (assigned (st :: b)) with (assigned_by st ++ assigned b) in *.
  rewrite expressions_cons in Hfits. apply Forall_app in Hfits as [Hfst Hfb].
  apply NoDup_app in Hnodup as (Hnd1 & Hdisj & Hnd2).
  destruct Hin as [-> | Hin].
  - exists df. simpl in Hst. apply assign_inr in Hst as (s & Hs & ->). simpl in Hs.
    exists s. repeat split; auto.
    apply run_block_frame in Hrun as [_ Hframe]. rewrite Hframe.
    + simpl. apply assoc_set_same.
    + intros Hname. apply (Hdisj name); [left; reflexivity | apply list_elem_of_In; exact Hname].
  - pose proof (run_stmt_well_formed _ _ _ Hfst Hwf Hst) as Hwf1.
    apply run_stmt_frame in Hst as [Hn1 Hframe1].
    destruct (IH Hnd2 Hin Hfb d1 df' Hwf1 Hrun) as (d & s & Hwfd & Hnd & Hs & Hcol & Hframe).
    exists d, s. repeat split; auto; [congruence|].
    intros c Hc. rewrite Hframe, Hframe1; auto.
    + intros Hc1. apply Hc, in_or_app. left. exact Hc1.
    + intros Hc2. apply Hc, in_or_app. right. exact Hc2.
Qed.

(** ** Rows that can never survive *)

Lemma notna_row_false (df : DataFrame) (i : nat) (name : string) (s : Series) :
  assoc name (columns df) = Some s -> nth i (isna s) false = true ->
  notna_row df i = false.
Proof.
  intros Hs Hna. apply assoc_In in Hs. unfold notna_row.
  apply not_true_is_false. intros Hall.
  rewrite forallb_forall in Hall. specialize (Hall _ Hs). simpl in Hall.
  rewrite Hna in Hall. discriminate.
Qed.

Lemma select_all_false (mask : list bool) :
  Forall (fun b => b = false) mask -> select mask mask = [].
Proof. induction 1 as [|b mask -> _ IH]; simpl; auto. Qed.

Lemma select_app {A : Type} (m1 m2 : list bool) (xs1 xs2 : list A) :
  length m1 = length xs1 ->
  select (m1 ++ m2) (xs1 ++ xs2) = select m1 xs1 ++ select m2 xs2.
Proof.
  revert xs1. induction m1 as [|b m1 IH]; intros [|x xs1] Hlen; try discriminate; simpl.
  - reflexivity.
  - injection Hlen as Hlen. rewrite (IH _ Hlen). destruct b; reflexivity.
Qed.

(** When the first [k] rows each hold an undefined cell, [dropna] removes
    them all. *)
Lemma dropna_head (df : DataFrame) (k : nat) :
  (forall i, (i < k)%nat -> (i < nrows df)%nat -> notna_row df i = false) ->
  (nrows (dropna df) <= nrows df - k)%nat.
Proof.
  intros Hall. rewrite dropna_nrows.
  assert (Hlen : length (keep_mask df) = nrows df)
    by (unfold keep_mask; rewrite length_map, length_seq; reflexivity).
  rewrite <- (take_drop k (keep_mask df)).
  rewrite select_app by reflexivity.
  rewrite select_all_false, app_nil_l.
  - etransitivity; [apply select_length_le|]. rewrite length_drop. lia.
  - apply Forall_forall. intros b Hb.
    apply list_elem_of_lookup in Hb as (i & Hi).
    apply lookup_take_Some in Hi as (Hi & Hk).
    unfold keep_mask in Hi. rewrite list_lookup_fmap in Hi.
    destruct (seq 0 (nrows df) !! i) as [j|] eqn:Hj; [|discriminate].
    apply lookup_seq in Hj as [-> Hj]. simpl in Hi. injection Hi as <-.
    apply Hall; auto.
Qed.

(** A window of [w] rows is undefined on the first [w - 1] rows. *)
Lemma rolling_head (w : nat) (agg : list Q -> float64) (xs : list float64) (i : nat) :
  (i + 1 < w)%nat -> (i < length xs)%nat ->
  nth i (isna (FloatS (rolling w agg xs))) false = true.
Proof.
  intros Hi Hlen. simpl. unfold rolling. rewrite map_map.
  rewrite (nth_indep _ false (is_nan (window w xs 0 ≫= agg))) by (rewrite length_map, length_seq; lia).
  rewrite (map_nth (fun i => is_nan (window w xs i ≫= agg))).
  rewrite seq_nth by lia. simpl. unfold window.
  destruct (w <=? i + 1)%nat eqn:E; [apply Nat.leb_le in E; lia | reflexivity].
Qed.

Section ShortHistory.

Context `{Library}.

Lemma rolling_block_bind (cols : list string) :
  assigned (rolling_block cols) = cols ≫= (fun col => assigned (rolling_block [col])).
Proof.
  unfold rolling_block at 1. rewrite assigned_bind.
  apply list_bind_ext; [|reflexivity]. intros col.
  unfold rolling_block. rewrite bind_singleton. reflexivity.
Qed.

Lemma rolling_block_nodup (cols : list string) :
  sublist cols weather_cols -> NoDup (assigned (rolling_block cols)).
Proof.
  intros Hsub. apply (sublist_NoDup _ (assigned (rolling_block weather_cols))).
  - apply (bool_decide_unpack _). vm_compute. reflexivity.
  - rewrite (rolling_block_bind cols), (rolling_block_bind weather_cols).
    apply sublist_bind. exact Hsub.
Qed.

(** The stages [engineer_features] went through. *)
Lemma engineer_features_stages (df eng : DataFrame) :
  engineer_features df = inr eng ->
  exists df1 df2 df3 df4,
    run_block temporal_block df = inr df1 /\
    run_block (lag_block (List.filter (has_column df1) weather_cols) [1; 2; 3; 7]%nat) df1
    = inr df2 /\
    run_block (rolling_block (List.filter (has_column df1) weather_cols)) df2 = inr df3 /\
    run_block indices_block df3 = inr df4 /\
    eng = dropna df4.
Proof.
  unfold engineer_features, create_temporal_features, create_lag_features,
    create_rolling_features, create_weather_indices. intros Hrun.
  apply bind_inr in Hrun as (df1 & H1 & Hrun).
  apply bind_inr in Hrun as (df2 & H2 & Hrun).
  apply bind_inr in Hrun as (df3 & H3 & Hrun).
  apply bind_inr in Hrun as (df4 & H4 & Hrun).
  injection Hrun as <-.
  exists df1, df2, df3, df4. auto.
Qed.

(** The first thirteen rows hold an undefined cell when the frame has a
    weather column: the window of fourteen days is not defined on them. *)
Lemma stages_head (df df1 df2 df3 df4 : DataFrame) (c : string) :
  well_formed df -> In c weather_cols -> has_column df c = true ->
  run_block temporal_block df = inr df1 ->
  run_block (lag_block (List.filter (has_column df1) weather_cols) [1; 2; 3; 7]%nat) df1
  = inr df2 ->
  run_block (rolling_block (List.filter (has_column df1) weather_cols)) df2 = inr df3 ->
  run_block indices_block df3 = inr df4 ->
  nrows df4 = nrows df /\
  forall i, (i < 13)%nat -> (i < nrows df)%nat -> notna_row df4 i = false.
Proof.
  intros Hwf Hc Hhas H1 H2 H3 H4.
  pose proof (run_block_well_formed _ temporal_block_fits _ _ Hwf H1) as Hwf1.
  pose proof (run_block_well_formed _ (lag_block_fits _ _) _ _ Hwf1 H2) as Hwf2.
  pose proof (run_block_has_column _ c _ _ H1 Hhas) as Hhas1.
  set (existing := List.filter (has_column df1) weather_cols) in *.
  assert (Hex : In c existing) by (apply filter_In; auto).
  assert (Hsub : sublist existing weather_cols) by apply filter_sublist.
  assert (Hin : In (Assign (c +:+ "_roll_mean_" +:+ str 14) (roll c 14 Qmean))
                   (rolling_block existing)).
  { unfold rolling_block. apply list_elem_of_In, list_elem_of_bind.
    exists c. split; [|apply list_elem_of_In; exact Hex].
    apply list_elem_of_bind. exists 14%nat. split; [|apply list_elem_of_In; simpl; tauto].
    apply list_elem_of_In. left. reflexivity. }
  destruct (run_block_assigned_once _ _ _ (rolling_block_nodup _ Hsub) Hin
              (rolling_block_fits _) _ _ Hwf2 H3)
    as (d & s & Hwfd & Hnd & Hs & Hcol & _).
  unfold roll in Hs.
  apply bind_inr in Hs as (sc & Hsc & Hs).
  apply bind_inr in Hs as (xs & Hxs & [= <-]).
  pose proof (run_block_frame _ _ _ H4) as [Hn4 Hframe4].
  apply run_block_frame in H1 as [Hn1 _]. apply run_block_frame in H2 as [Hn2 _].
  apply run_block_frame in H3 as [Hn3 _].
  assert (Hlen : length xs = nrows df).
  { rewrite (to_numeric_length _ _ Hxs), (well_formed_column _ _ _ Hwfd Hsc). congruence. }
  split; [congruence|]. intros i Hk Hi.
  apply (notna_row_false _ _ (c +:+ "_roll_mean_" +:+ str 14)
                         (FloatS (rolling 14 Qmean xs))).
  - rewrite Hframe4; [exact Hcol|].
    clear -Hc. simpl in Hc.
    destruct Hc as [<-|[<-|[<-|[<-|[<-|[<-|[]]]]]]]; vm_compute; intuition discriminate.
  - apply rolling_head; lia.
Qed.

Lemma engineer_features_loses_head (df eng : DataFrame) (c : string) :
  well_formed df -> In c weather_cols -> has_column df c = true ->
  engineer_features df = inr eng -> (nrows eng <= nrows df - 13)%nat.
Proof.
  intros Hwf Hc Hhas Hrun.
  apply engineer_features_stages in Hrun as (df1 & df2 & df3 & df4 & H1 & H2 & H3 & H4 & ->).
  destruct (stages_head _ _ _ _ _ _ Hwf Hc Hhas H1 H2 H3 H4) as [Hn Hhead].
  rewrite <- Hn. apply dropna_head. intros i Hk Hi. apply Hhead; [exact Hk | congruence].
Qed.

Lemma short_history_leaves_no_row (df eng : DataFrame) (c : string) :
  well_formed df -> In c weather_cols -> has_column df c = true ->
  (nrows df <= 13)%nat ->
  engineer_features df = inr eng -> nrows eng = 0%nat.
Proof.
  intros Hwf Hc Hhas Hn Hrun.
  pose proof (engineer_features_loses_head _ _ _ Hwf Hc Hhas Hrun). lia.
Qed.

End ShortHistory.

Section FirstRows.

Context `{Library}.

(** X1. Whatever frame [engineer_features] is given, if it has one of
    the six weather columns and the pipeline returns, the engineered frame
    is at least thirteen rows shorter than the input: the first thirteen
    rows are always dropped, and an input of thirteen rows or fewer leaves
    no row at all. *)
Theorem engineer_features_drops_first_thirteen_rows (df eng : DataFrame) (c : string) :
  well_formed df -> In c weather_cols -> has_column df c = true ->
  engineer_features df = inr eng ->
  (nrows eng <= nrows df - 13)%nat /\ ((nrows df <= 13)%nat -> nrows eng = 0%nat).
Proof.
  intros Hwf Hc Hhas Hrun. split.
  - eapply engineer_features_loses_head; eauto.
  - intros Hn. eapply short_history_leaves_no_row; eauto.
Qed.

End FirstRows.

Lemma engineer_features_drops_first_thirteen_rows_witness :
  exists eng,
    engineer_features (H := stub_library) (frame_of_records (days 20)) = inr eng /\
    (nrows eng <= 20 - 13)%nat.
Proof.
  eexists. split; [vm_compute; reflexivity|].
  apply (engineer_features_drops_first_thirteen_rows (H := stub_library)
           (frame_of_records (days 20)) _ "temp_max").
  - apply frame_of_records_well_formed.
  - left. reflexivity.
  - reflexivity.
  - vm_compute. reflexivity.
Defined.


(** ** The loop of [predict] *)

Lemma broadcast_length (v : pyval) (n : nat) : series_len (broadcast v n) = n.
Proof.
  unfold series_len. destruct v; simpl; rewrite length_map, length_replicate; reflexivity.
Qed.

Lemma frame_of_dict_well_formed (d : list (string * pyval)) : well_formed (frame_of_dict d).
Proof.
  unfold well_formed, frame_of_dict. simpl. apply Forall_forall. intros c Hc.
  apply list_elem_of_In, in_map_iff in Hc as ([k v] & <- & _). simpl.
  apply broadcast_length.
Qed.

Lemma well_formed_assoc (df : DataFrame) (name : string) (s : Series) :
  well_formed df -> assoc name (columns df) = Some s -> series_len s = nrows df.
Proof. intros Hwf Hs. eapply well_formed_column; eauto. apply getitem_assoc. exact Hs. Qed.

Lemma concat_series_length (n1 n2 : nat) (a b : option Series) :
  (forall s, a = Some s -> series_len s = n1) ->
  (forall s, b = Some s -> series_len s = n2) ->
  series_len (concat_series n1 n2 a b) = (n1 + n2)%nat.
Proof.
  intros Ha Hb. unfold series_len in *.
  destruct a as [sa|], b as [sb|];
    try (specialize (Ha _ eq_refl)); try (specialize (Hb _ eq_refl)).
  - destruct sa, sb; simpl in *; unfold of_ints in *;
      repeat rewrite ?length_app, ?length_map, ?length_replicate in *;
      first [lia | subst; reflexivity].
  - destruct sa; simpl in *; unfold of_ints in *;
      repeat rewrite ?length_app, ?length_map, ?length_replicate in *;
      first [lia | subst; reflexivity].
  - destruct sb; simpl in *; unfold of_ints in *;
      repeat rewrite ?length_app, ?length_map, ?length_replicate in *;
      first [lia | subst; reflexivity].
  - simpl. rewrite length_map, length_replicate. reflexivity.
Qed.

Lemma concat_well_formed (a b : DataFrame) :
  well_formed a -> well_formed b -> well_formed (concat a b).
Proof.
  intros Ha Hb. unfold well_formed, concat. simpl.
  apply Forall_forall. intros c Hc.
  apply list_elem_of_In, in_map_iff in Hc as (n & <- & _). simpl.
  apply concat_series_length; intros s Hs; eapply well_formed_assoc; eauto.
Qed.

Lemma assoc_tabulate {A : Type} (f : string -> A) (names : list string) (n : string) :
  In n names -> assoc n (map (fun n => (n, f n)) names) = Some (f n).
Proof.
  induction names as [|k names IH]; [contradiction|]. simpl.
  destruct (String.eqb k n) eqn:E.
  - apply String.eqb_eq in E. subst. reflexivity.
  - intros [-> | Hin]; [rewrite String.eqb_refl in E; discriminate | auto].
Qed.

Lemma concat_assoc (a b : DataFrame) (n : string) :
  has_column a n = true \/ has_column b n = true ->
  assoc n (columns (concat a b))
  = Some (concat_series (nrows a) (nrows b) (assoc n (columns a)) (assoc n (columns b))).
Proof.
  intros Hn. unfold concat. simpl.
  apply (assoc_tabulate (fun n => concat_series (nrows a) (nrows b)
                                    (assoc n (columns a)) (assoc n (columns b)))).
  apply in_or_app. destruct (has_column a n) eqn:Ea.
  - left. apply mem_In. exact Ea.
  - right. apply filter_In. rewrite Ea. split; [|reflexivity].
    destruct Hn as [Hn | Hn]; [discriminate|]. apply mem_In. exact Hn.
Qed.

Lemma concat_has_column (a b : DataFrame) (n : string) :
  has_column b n = true -> has_column (concat a b) n = true.
Proof.
  intros Hn. apply has_column_assoc. rewrite concat_assoc by auto. eauto.
Qed.

Lemma frame_of_dict_has_column (d : list (string * pyval)) (k : string) :
  has_column (frame_of_dict d) k = mem k (map fst d).
Proof.
  unfold has_column, column_names, frame_of_dict. simpl. rewrite map_map.
  f_equal. apply map_ext. intros [k' v]. reflexivity.
Qed.

Lemma assoc_set_mem {A : Type} (k k' : string) (v : A) (l : list (string * A)) :
  mem k' (map fst l) = true -> mem k' (map fst (assoc_set k v l)) = true.
Proof.
  intros Hk'. rewrite assoc_set_names. destruct (mem k (map fst l)); [exact Hk'|].
  apply mem_In, in_or_app. left. apply mem_In. exact Hk'.
Qed.

Lemma assoc_set_mem_same {A : Type} (k : string) (v : A) (l : list (string * A)) :
  mem k (map fst (assoc_set k v l)) = true.
Proof. rewrite assoc_mem, assoc_set_same. reflexivity. Qed.

Section Loop.

Context `{Library}.

(** The prediction of a target goes into the row the next day starts
    from. *)
Lemma carry_mem_fold (day_forecast : list (string * pyval)) (targets : list string) :
  forall new_row k,
    mem k (map fst new_row) = true \/
    (In k targets /\ is_Some (assoc k day_forecast)) ->
    mem k (map fst (fold_left (fun new_row target =>
                                 match assoc target day_forecast with
                                 | Some v => assoc_set target v new_row
                                 | None => new_row
                                 end) targets new_row)) = true.
Proof.
  induction targets as [|t targets IH]; intros new_row k Hk; simpl.
  - destruct Hk as [Hk | [[] _]]. exact Hk.
  - apply IH. destruct Hk as [Hk | [[-> | Hin] Hsome]].
    + left. destruct (assoc t day_forecast); [apply assoc_set_mem|]; exact Hk.
    + left. destruct Hsome as [v ->]. apply assoc_set_mem_same.
    + right. auto.
Qed.

Lemma carry_mem (day_forecast new_row : list (string * pyval)) (k : string) :
  In k target_columns -> is_Some (assoc k day_forecast) ->
  mem k (map fst (carry day_forecast new_row)) = true.
Proof. intros Hk Hsome. unfold carry. apply carry_mem_fold. right. auto. Qed.



(** What a day that went through went through. *)
Lemma predict_day_inr (self : WeatherMLModel) (current_data current_data' : DataFrame)
  (entry : list (string * pyval)) :
  predict_day self current_data = inr (entry, current_data') ->
  exists last_date forecast_date eng X new_row,
    getitem current_data "date" ≫= series_last = inr last_date /\
    next_day last_date = inr (Some forecast_date) /\
    engineer_features
      (setitem current_data "date"
               (broadcast (PyTimestamp (Some forecast_date)) (nrows current_data)))
    = inr eng /\
    getitems eng (List.filter (has_column eng) (feature_columns self)) = inr X /\
    forecast_targets self (iloc_tail X)
                     (List.filter (has_column eng) (feature_columns self))
                     [("date", PyStr (Calendar.strftime forecast_date))] target_columns
    = inr entry /\
    iloc_last current_data = inr new_row /\
    current_data'
    = concat current_data
             (frame_of_dict
                (carry entry (assoc_set "date" (PyTimestamp (Some forecast_date)) new_row))).
Proof.
  unfold predict_day. intros Hrun.
  apply bind_inr in Hrun as (last_date & Hlast & Hrun).
  apply bind_inr in Hrun as (forecast_date & Hnext & Hrun).
  cbv zeta in Hrun.
  apply bind_inr in Hrun as (eng & Heng & Hrun).
  apply bind_inr in Hrun as (X_pred & HX & Hrun).
  apply bind_inr in Hrun as (d & Hd & Hrun).
  apply bind_inr in Hrun as (day_forecast & Hday & Hrun).
  apply bind_inr in Hrun as (new_row & Hrow & [= <- <-]).
  destruct forecast_date as [forecast_date|]; [|discriminate].
  injection Hd as <-.
  destruct (getitems eng (List.filter (has_column eng) (feature_columns self)))
    as [e|X] eqn:EX; [discriminate|].
  injection HX as <-.
  exists last_date, forecast_date, eng, X, new_row. repeat split; auto.
Qed.

(** A day does not go through on thirteen rows or fewer when the frame has
    a weather column and the object an ensemble to ask. *)
Lemma predict_day_short (self : WeatherMLModel) (current_data : DataFrame)
  (c target : string) :
  well_formed current_data -> (nrows current_data <= 13)%nat ->
  In c weather_cols -> has_column current_data c = true ->
  In target target_columns -> is_Some (models self !! target) ->
  forall r, predict_day self current_data <> inr r.
Proof.
  intros Hwf Hn Hc Hhas Hin Hsome [entry current_data'] Hrun.
  pose proof Hrun as Hrun'.
  apply predict_day_inr in Hrun' as (last_date & fd & eng & X & new_row
                                     & Hlast & Hnext & Heng & _).
  assert (Hempty : nrows eng = 0%nat).
  { apply (short_history_leaves_no_row _ _ c) in Heng; auto.
    - apply well_formed_setitem; [exact Hwf | apply broadcast_length].
    - apply has_column_setitem. exact Hhas. }
  rewrite (predict_day_empty self current_data eng last_date fd target) in Hrun; auto.
  discriminate.
Qed.

(** The frame the next day starts from: one row more, and a column for
    every target that was predicted. *)
Lemma predict_day_next (self : WeatherMLModel) (current_data current_data' : DataFrame)
  (entry : list (string * pyval)) (target : string) :
  well_formed current_data ->
  In target target_columns -> is_Some (models self !! target) ->
  predict_day self current_data = inr (entry, current_data') ->
  well_formed current_data' /\
  nrows current_data' = (nrows current_data + 1)%nat /\
  has_column current_data' target = true.
Proof.
  intros Hwf Hin Hsome Hrun.
  pose proof (predict_day_keys _ _ _ _ Hrun) as Hkeys.
  apply predict_day_inr in Hrun as (last_date & fd & eng & X & new_row & _ & _ & _ & _
                                    & _ & _ & ->).
  split; [|split].
  - apply concat_well_formed; [exact Hwf | apply frame_of_dict_well_formed].
  - reflexivity.
  - apply concat_has_column. rewrite frame_of_dict_has_column.
    apply carry_mem; [exact Hin|].
    assert (Hmem : mem target (map fst entry) = true).
    { apply mem_In. unfold forecast_keys in Hkeys. rewrite Hkeys. right.
      apply filter_In. split; [exact Hin|]. destruct Hsome as [m ->]. reflexivity. }
    rewrite assoc_mem in Hmem. destruct (assoc target entry); [eauto | discriminate].
Qed.

Lemma target_is_weather (target : string) :
  In target target_columns -> In target weather_cols.
Proof. unfold target_columns, weather_cols. simpl. intuition. Qed.

(** Two days never go through. *)
Lemma predict_days_two (self : WeatherMLModel) (n : nat) (current_data : DataFrame)
  (forecasts : list (list (string * pyval))) (target : string) :
  well_formed current_data -> nrows current_data = 1%nat ->
  In target target_columns -> is_Some (models self !! target) ->
  forall r, predict_days self (S (S n)) current_data forecasts <> inr r.
Proof.
  intros Hwf Hn Hin Hsome r Hrun.
  cbn [predict_days] in Hrun.
  apply bind_inr in Hrun as ([entry cd1] & Hday1 & Hrun).
  apply bind_inr in Hrun as ([entry2 cd2] & Hday2 & _).
  destruct (predict_day_next _ _ _ _ target Hwf Hin Hsome Hday1) as (Hwf1 & Hn1 & Hhas1).
  revert Hday2. apply (predict_day_short self cd1 target target); auto.
  - lia.
  - apply target_is_weather. exact Hin.
Qed.

Lemma seed_frame_well_formed (now : Z) (features : list (string * pyval)) (dates : Series) :
  seed_dates now (frame_of_dict features) = inr dates ->
  well_formed (setitem (frame_of_dict features) "date" dates) /\
  nrows (setitem (frame_of_dict features) "date" dates) = 1%nat.
Proof.
  intros Hdates. split; [|reflexivity].
  apply well_formed_setitem; [apply frame_of_dict_well_formed|].
  unfold seed_dates in Hdates. rewrite assoc_frame_of_dict in Hdates.
  destruct (assoc "date" features) as [v|]; simpl in Hdates.
  - apply pd_to_datetime_length in Hdates. rewrite Hdates. apply broadcast_length.
  - injection Hdates as <-. reflexivity.
Qed.

(** X2. An object that holds an ensemble for some target never returns a
    forecast of two days or more, whatever the seed; and it returns one day
    only for a seed that has none of the six weather columns.  In every
    other case [predict] raises, and the object is as it was. *)
Theorem predict_returns_one_day_at_most (w w' : World) (now : Z)
  (features : list (string * pyval)) (n : nat) (target : string)
  (forecasts : list (list (string * pyval))) :
  In target target_columns -> is_Some (models (self w) !! target) ->
  predict now features n w = (inr forecasts, w') ->
  (n <= 1)%nat /\
  (n = 1%nat -> forall c, In c weather_cols -> assoc c features = None) /\
  w' = w.
Proof.
  intros Hin Hsome. unfold predict. rewrite M_bind_unfold. unfold get_self.
  rewrite (no_models_lookup _ _ Hsome). unfold lift. intros [= Hrun <-].
  apply bind_inr in Hrun as (dates & Hdates & Hrun).
  destruct (seed_frame_well_formed _ _ _ Hdates) as [Hwf Hn].
  split; [|split; [|reflexivity]].
  - destruct n as [|[|n]]; [lia | lia |]. exfalso. revert Hrun.
    apply (predict_days_two _ _ _ _ target); auto.
  - intros -> c Hc. cbn [predict_days] in Hrun.
    apply bind_inr in Hrun as ([entry cd1] & Hday & _).
    destruct (assoc c features) as [v|] eqn:Hv; [exfalso | reflexivity].
    revert Hday. apply (predict_day_short _ _ c target); auto.
    + lia.
    + apply has_column_setitem. rewrite frame_of_dict_has_column, assoc_mem, Hv.
      reflexivity.
Qed.

End Loop.

(** X2 on the object that has an ensemble for [temp_max] only, seeded with a
    date and a place: one day goes through. *)
Lemma predict_returns_one_day_at_most_witness :
  (1 <= 1)%nat /\
  (1%nat = 1%nat -> forall c, In c weather_cols -> assoc c bare_seed = None) /\
  {| self := partial_model; disk := [] |} = {| self := partial_model; disk := [] |}.
Proof.
  apply (predict_returns_one_day_at_most (H := stub_library)
           {| self := partial_model; disk := [] |} _ 19723 bare_seed 1 "temp_max"
           [[("date", PyStr "2024-01-02"); ("temp_max", PyFloat (Some 1.80%Q))]]).
  - left. reflexivity.
  - vm_compute. eauto.
  - vm_compute. reflexivity.
Defined.


(** ** The dates of a forecast *)



Section Dates.

Context `{Library}.






End Dates.



(** ** The features [prepare_features] selects *)

Lemma getitems_inr (df X : DataFrame) (names : list string) :
  getitems df names = inr X ->
  nrows X = nrows df /\
  Forall2 (fun n c => fst c = n /\ assoc n (columns df) = Some (snd c)) names (columns X).
Proof.
  unfold getitems. intros Hget. apply bind_inr in Hget as (cols & Hcols & [= <-]).
  split; [reflexivity|]. simpl. revert cols Hcols.
  induction names as [|n names IH]; intros cols Hcols.
  - injection Hcols as <-. constructor.
  - rewrite mapM_cons in Hcols.
    apply bind_inr in Hcols as ([n' s] & Hs & Hcols).
    apply bind_inr in Hcols as (cols' & Hcols' & [= <-]).
    apply bind_inr in Hs as (s' & Hs & [= <- <-]).
    constructor; [|apply IH; exact Hcols'].
    split; [reflexivity|]. apply getitem_assoc. exact Hs.
Qed.


Section Prepare.

Context `{Library}.


End Prepare.



(** ** The chronological split, row for row *)

Lemma take_at_seq {A : Type} (xs : list A) (m : nat) :
  forall k, take_at (seq k m) xs = take m (drop k xs).
Proof.
  unfold take_at. induction m as [|m IH]; intros k; [reflexivity|].
  cbn [seq]. simpl.
  change (list_omap nat A (fun i => xs !! i) (seq (S k) m))
    with (omap (fun i => xs !! i) (seq (S k) m)).
  rewrite IH.
  destruct (xs !! k) as [x|] eqn:Hk.
  - rewrite (drop_S _ _ _ Hk). reflexivity.
  - apply lookup_ge_None in Hk. rewrite !drop_ge by lia. rewrite !take_nil. reflexivity.
Qed.

Lemma to_pyvals_iloc (idx : list nat) (s : Series) :
  to_pyvals (series_iloc idx s) = take_at idx (to_pyvals s).
Proof. destruct s; simpl; rewrite ?take_at_map; reflexivity. Qed.

Lemma split_indices_exact (n : nat) (train test : list nat) :
  split_indices n = inr (train, test) ->
  exists n_train n_test,
    train = seq 0 n_train /\ test = seq n_train n_test /\
    (0 < n_train)%nat /\ (n_train + n_test = n)%nat /\
    n_test = Z.to_nat ((Z.of_nat n + 4) / 5).
Proof.
  unfold split_indices, validate_shuffle_split. rewrite holdout_size.
  set (n_test := Z.to_nat ((Z.of_nat n + 4) / 5)).
  destruct (n - n_test =? 0)%nat eqn:E; [discriminate|].
  apply Nat.eqb_neq in E. intros [= <- <-].
  exists (n - n_test)%nat, n_test. repeat split; lia.
Qed.

Lemma split_rows {A : Type} (xs : list A) (n_train n_test : nat) :
  length xs = (n_train + n_test)%nat ->
  xs = take_at (seq 0 n_train) xs ++ take_at (seq n_train n_test) xs.
Proof.
  intros Hlen. rewrite !take_at_seq, drop_0.
  rewrite (take_ge (drop n_train xs)) by (rewrite length_drop; lia).
  symmetry. apply take_drop.
Qed.

Lemma df_iloc_assoc (idx : list nat) (df : DataFrame) (name : string) :
  assoc name (columns (df_iloc idx df)) = series_iloc idx <$> assoc name (columns df).
Proof.
  unfold df_iloc. simpl. induction (columns df) as [|[k s] l IH]; simpl; [reflexivity|].
  destruct (String.eqb k name); auto.
Qed.

Lemma df_iloc_names (idx : list nat) (df : DataFrame) :
  column_names (df_iloc idx df) = column_names df.
Proof.
  unfold column_names, df_iloc. simpl. rewrite map_map. apply map_ext. intros [k s].
  reflexivity.
Qed.

(** X5. [train_test_split(X, y, test_size=0.2, shuffle=False)], as [train]
    calls it, cuts the rows in two without losing, repeating or moving any:
    the training rows followed by the holdout rows are the rows of [X], and
    likewise for [y].  The holdout has the ceiling of a fifth of the rows,
    and the training set is never empty. *)
Theorem train_test_split_is_a_partition (X X_train X_test : DataFrame)
  (y y_train y_test : Series) :
  well_formed X -> series_len y = nrows X ->
  train_test_split X y = inr (X_train, X_test, y_train, y_test) ->
  nrows X_test = Z.to_nat ((Z.of_nat (nrows X) + 4) / 5) /\
  (nrows X_train + nrows X_test = nrows X)%nat /\
  (0 < nrows X_train)%nat /\
  to_pyvals y = to_pyvals y_train ++ to_pyvals y_test /\
  column_names X_train = column_names X /\
  column_names X_test = column_names X /\
  forall name s,
    assoc name (columns X) = Some s ->
    exists s1 s2,
      assoc name (columns X_train) = Some s1 /\
      assoc name (columns X_test) = Some s2 /\
      to_pyvals s = to_pyvals s1 ++ to_pyvals s2.
Proof.
  intros Hwf Hy. unfold train_test_split. intros Hrun.
  apply bind_inr in Hrun as ([train test] & Hsplit & [= <- <- <- <-]).
  apply split_indices_exact in Hsplit
    as (n_train & n_test & -> & -> & Hpos & Hsum & Htest).
  assert (Hn1 : nrows (df_iloc (seq 0 n_train) X) = n_train).
  { rewrite df_iloc_nrows, length_seq; [reflexivity|].
    apply Forall_forall. intros i Hi. apply list_elem_of_In, in_seq in Hi. lia. }
  assert (Hn2 : nrows (df_iloc (seq n_train n_test) X) = n_test).
  { rewrite df_iloc_nrows, length_seq; [reflexivity|].
    apply Forall_forall. intros i Hi. apply list_elem_of_In, in_seq in Hi. lia. }
  rewrite Hn1, Hn2, !df_iloc_names. repeat split; auto.
  - rewrite !to_pyvals_iloc. apply split_rows.
    rewrite series_len_to_pyvals. lia.
  - intros name s Hs. exists (series_iloc (seq 0 n_train) s), (series_iloc (seq n_train n_test) s).
    rewrite !df_iloc_assoc, Hs. repeat split.
    rewrite !to_pyvals_iloc. apply split_rows.
    rewrite series_len_to_pyvals, (well_formed_assoc _ _ _ Hwf Hs). lia.
Qed.

(** X5 on a frame of seven rows: five for training, two held out. *)
Lemma train_test_split_is_a_partition_witness :
  nrows (mkDataFrame 2 [("pressure", IntS [6; 7])]) = 2%nat /\
  Nat.add (nrows (mkDataFrame 5 [("pressure", IntS [1; 2; 3; 4; 5])]))
          (nrows (mkDataFrame 2 [("pressure", IntS [6; 7])])) = 7%nat.
Proof.
  pose proof (train_test_split_is_a_partition
                (mkDataFrame 7 [("pressure", IntS [1; 2; 3; 4; 5; 6; 7])])
                (mkDataFrame 5 [("pressure", IntS [1; 2; 3; 4; 5])])
                (mkDataFrame 2 [("pressure", IntS [6; 7])])
                (FloatS (map (fun n => Some (inject_Z n)) [10; 20; 30; 40; 50; 60; 70]))
                (FloatS (map (fun n => Some (inject_Z n)) [10; 20; 30; 40; 50]))
                (FloatS (map (fun n => Some (inject_Z n)) [60; 70]))) as Hthm.
  destruct Hthm as (Htest & Hsum & _).
  - repeat constructor.
  - reflexivity.
  - vm_compute. reflexivity.
  - split; [exact Htest | exact Hsum].
Defined.


(** ** What a training run leaves behind *)

Section Bookkeeping.

Context `{Library}.

Lemma train_target_inr (df : DataFrame) (all_metrics all_metrics' : list (string * Metrics))
  (target : string) (w w' : World) :
  train_target df all_metrics target w = (inr all_metrics', w') ->
  exists metrics ensemble cols,
    all_metrics' = assoc_set target metrics all_metrics /\
    w' = {| self := set_model target ensemble (set_feature_columns cols (self w));
            disk := disk w |}.
Proof.
  unfold train_target. intros Hrun.
  apply M_bind_inr in Hrun as ([X y] & w1 & Hprep & Hrun).
  apply prepare_features_inr in Hprep as (eng & cols & _ & _ & _ & _ & ->).
  apply M_bind_inr in Hrun as ([[[X_train X_test] y_train] y_test] & w2 & Hsplit & Hrun).
  apply lift_inr in Hsplit as [_ ->].
  apply M_bind_inr in Hrun as (ensemble & w3 & Hfit & Hrun).
  apply lift_inr in Hfit as [_ ->].
  apply M_bind_inr in Hrun as (y_pred & w4 & Hpred & Hrun).
  apply lift_inr in Hpred as [_ ->].
  apply M_bind_inr in Hrun as (ys & w5 & Hys & Hrun).
  apply lift_inr in Hys as [_ ->].
  apply M_bind_inr in Hrun as ([] & w6 & Hupd & Hrun).
  unfold update_self in Hupd. injection Hupd as <-.
  injection Hrun as <- <-.
  eexists _, ensemble, cols. split; reflexivity.
Qed.

Lemma train_targets_inr (df : DataFrame) (targets : list string) :
  NoDup targets ->
  forall all_metrics all_metrics' w w',
    (forall t, In t targets -> ~ In t (map fst all_metrics)) ->
    train_targets df all_metrics targets w = (inr all_metrics', w') ->
    map fst all_metrics' = map fst all_metrics ++ targets /\
    disk w' = disk w /\
    experiment_name (self w') = experiment_name (self w) /\
    model_metrics (self w') = model_metrics (self w) /\
    run_id (self w') = run_id (self w) /\
    (forall t, In t targets -> is_Some (models (self w') !! t)) /\
    (forall t, ~ In t targets -> models (self w') !! t = models (self w) !! t).
Proof.
  induction targets as [|target targets IH];
    intros Hnodup all_metrics all_metrics' w w' Hfresh Hrun.
  - injection Hrun as <- <-. rewrite app_nil_r. repeat split; auto. intros t [].
  - apply NoDup_cons in Hnodup as [Hnotin Hnodup].
    cbn [train_targets] in Hrun.
    apply M_bind_inr in Hrun as (am1 & w1 & Hstep & Hrun).
    apply train_target_inr in Hstep as (metrics & ensemble & cols & -> & ->).
    apply IH in Hrun as (Hkeys & Hdisk & Hname & Hmet & Hrunid & Hin & Hout); auto.
    + rewrite Hkeys, assoc_set_names.
      destruct (mem target (map fst all_metrics)) eqn:E.
      { apply mem_In in E. exfalso. apply (Hfresh target); [left; reflexivity | exact E]. }
      rewrite <- app_assoc. repeat split; auto.
      * intros t [<- | Ht]; [|auto].
        rewrite Hout by (intros Hin'; apply Hnotin, list_elem_of_In; exact Hin').
        simpl. rewrite lookup_insert_eq. eauto.
      * intros t Ht. rewrite Hout by (intros Hin'; apply Ht; right; exact Hin').
        simpl. apply lookup_insert_ne. intros ->. apply Ht. left. reflexivity.
    + intros t Ht Hin'. rewrite assoc_set_names in Hin'.
      destruct (mem target (map fst all_metrics)).
      * apply (Hfresh t); [right; exact Ht | exact Hin'].
      * apply in_app_or in Hin' as [Hin' | [<- | []]].
        -- apply (Hfresh t); [right; exact Ht | exact Hin'].
        -- apply Hnotin, list_elem_of_In. exact Ht.
Qed.

(** X6. When [train] returns, the run is on record in three places that
    agree: the result names the run and the file
    [/tmp/weather_model_<run>.pkl]; the object holds an ensemble for each
    of the five targets, the metrics of the result (one entry per target,
    in order) and the run id; and the file holds the ensembles, the feature
    names and the metrics of the object as they are on return.  The
    averages are those of the metrics in the result.  Ensembles under other
    keys and files under other names are left as they were. *)
Theorem train_records_the_run (now : Z) (run : string) (df : option DataFrame)
  (w w' : World) (result : TrainResult) :
  train now run df w = (inr result, w') ->
  result_run_id result = run /\
  model_path result = "/tmp/weather_model_" +:+ run +:+ ".pkl" /\
  map fst (result_metrics result) = target_columns /\
  avg_r2 result = np_mean (map (fun m => r2 (snd m)) (result_metrics result)) /\
  avg_rmse result = np_mean (map (fun m => rmse (snd m)) (result_metrics result)) /\
  model_metrics (self w') = result_metrics result /\
  run_id (self w') = Some run /\
  experiment_name (self w') = experiment_name (self w) /\
  (forall t, In t target_columns -> is_Some (models (self w') !! t)) /\
  (forall t, ~ In t target_columns -> models (self w') !! t = models (self w) !! t) /\
  assoc (model_path result) (disk w')
  = Some {| artifact_models := models (self w');
            artifact_feature_columns := feature_columns (self w');
            artifact_metrics := result_metrics result;
            artifact_run_id := run;
            artifact_trained_at := now |} /\
  (forall path, path <> model_path result -> assoc path (disk w') = assoc path (disk w)).
Proof.
  unfold train. intros Hrun.
  apply M_bind_inr in Hrun as (dates & w0 & Hdate & Hrun).
  apply lift_inr in Hdate as [_ ->].
  apply M_bind_inr in Hrun as (all_metrics & w1 & Htargets & Hrun).
  cbv zeta in Hrun.
  apply M_bind_inr in Hrun as (self1 & w2 & Hself & Hrun).
  unfold get_self in Hself. injection Hself as <- <-.
  apply M_bind_inr in Hrun as ([] & w3 & Hdump & Hrun).
  unfold joblib_dump in Hdump. injection Hdump as <-.
  apply M_bind_inr in Hrun as ([] & w4 & Hupd & Hrun).
  unfold update_self in Hupd. injection Hupd as <-.
  injection Hrun as <- <-.
  apply train_targets_inr in Htargets
    as (Hkeys & Hdisk & Hname & Hmet & Hrunid & Hin & Hout).
  - simpl. repeat split; auto.
    + apply assoc_set_same.
    + intros path Hpath. rewrite assoc_set_other by congruence. rewrite Hdisk. reflexivity.
  - apply (bool_decide_unpack _). vm_compute. reflexivity.
  - intros t _ [].
Qed.

End Bookkeeping.

(** X6 on fifteen daily records. *)
Lemma train_records_the_run_witness :
  exists result w',
    train (H := stub_library) 19800 "run-7" (Some (frame_of_records (days 15))) fresh_world
    = (inr result, w') /\
    model_path result = "/tmp/weather_model_run-7.pkl" /\
    map fst (result_metrics result) = target_columns /\
    run_id (self w') = Some "run-7".
Proof.
  destruct (train (H := stub_library) 19800 "run-7" (Some (frame_of_records (days 15)))
              fresh_world) as [[e | result] w'] eqn:Hrun;
    [vm_compute in Hrun; discriminate|].
  exists result, w'. split; [reflexivity|].
  destruct (train_records_the_run (H := stub_library) _ _ _ _ _ _ Hrun)
    as (_ & Hpath & Hkeys & _ & _ & _ & Hid & _).
  repeat split; assumption.
Defined.


(** ** The rows that are left of a sequence of records *)

Lemma Forall_assoc_set {A : Type} (P : string * A -> Prop) (k : string) (v : A)
  (l : list (string * A)) :
  Forall P l -> P (k, v) -> Forall P (assoc_set k v l).
Proof.
  intros Hall Hkv. induction Hall as [|[k' w] l Hw Hl IH]; simpl.
  - repeat constructor. exact Hkv.
  - destruct (String.eqb k' k) eqn:E.
    + apply String.eqb_eq in E. subst. constructor; [exact Hkv | exact Hl].
    + constructor; [exact Hw | exact IH].
Qed.

Lemma settled_setitem (rs : list WeatherRecord) (d : DataFrame) (name : string) (s : Series) :
  settled rs d ->
  series_len s = nrows d -> defined_on rs s ->
  (In name raw_columns -> assoc name (columns (frame_of_records rs)) = Some s) ->
  settled rs (setitem d name s).
Proof.
  intros (Hn & Hwf & Hraw & Hdef) Hlen Hs Hname. repeat split.
  - exact Hn.
  - apply well_formed_setitem; auto.
  - intros c Hc. rewrite assoc_setitem. destruct (String.eqb name c) eqn:E.
    + apply String.eqb_eq in E. subst c. symmetry. auto.
    + apply Hraw. exact Hc.
  - simpl. apply Forall_assoc_set; auto.
Qed.

Lemma settled_assign (rs : list WeatherRecord) (d d' : DataFrame) (a : string * expr) :
  settles rs a -> settled rs d -> assign d a = inr d' -> settled rs d'.
Proof.
  intros Ha Hd Hrun. apply assign_inr in Hrun as (s & Hs & ->).
  destruct (Ha d s Hd Hs) as (Hlen & Hdef & Hraw).
  apply settled_setitem; auto.
Qed.

Lemma settled_assign_all (rs : list WeatherRecord) (body : list (string * expr)) :
  Forall (settles rs) body ->
  forall d d', settled rs d -> assign_all body d = inr d' -> settled rs d'.
Proof.
  induction 1 as [|a body Ha _ IH]; intros d d' Hd Hrun; simpl in Hrun.
  - injection Hrun as <-. exact Hd.
  - apply bind_inr in Hrun as (d1 & Hstep & Hrun).
    eapply IH; [|exact Hrun]. eapply settled_assign; eauto.
Qed.

Lemma settled_run_stmt (rs : list WeatherRecord) (st : stmt) (d d' : DataFrame) :
  Forall (settles rs) (assignments_of st) ->
  settled rs d -> run_stmt d st = inr d' -> settled rs d'.
Proof.
  intros Hst Hd Hrun. destruct st as [name rhs | required body]; simpl in *.
  - apply Forall_cons in Hst as [Ha _]. eapply settled_assign; eauto.
  - destruct (forallb (has_column d) required).
    + eapply settled_assign_all; eauto.
    + injection Hrun as <-. exact Hd.
Qed.

Lemma settled_run_block (rs : list WeatherRecord) (b : list stmt) :
  Forall (settles rs) (assignments b) ->
  forall d d', settled rs d -> run_block b d = inr d' -> settled rs d'.
Proof.
  induction b as [|st b IH]; intros Hb d d' Hd Hrun.
  - injection Hrun as <-. exact Hd.
  - change (assignments (st :: b)) with (assignments_of st ++ assignments b) in Hb.
    apply Forall_app in Hb as [Hst Hb].
    rewrite run_block_cons in Hrun. apply bind_inr in Hrun as (d1 & Hstep & Hrun).
    eapply IH; [exact Hb | | exact Hrun]. eapply settled_run_stmt; eauto.
Qed.

Lemma survives_inv (rs : list WeatherRecord) (i : nat) :
  survives rs i = true ->
  (13 <= i)%nat /\ (i < length rs)%nat /\ exists r, rs !! i = Some r /\ calm r = true.
Proof.
  unfold survives. intros Hs. apply andb_true_iff in Hs as [Hi Hr].
  apply Nat.leb_le in Hi. destruct (rs !! i) as [r|] eqn:E; [|discriminate].
  repeat split; [exact Hi | eapply lookup_lt_Some; eauto | eauto].
Qed.

Lemma defined_on_ints (rs : list WeatherRecord) (zs : list Z) :
  length zs = length rs -> defined_on rs (IntS zs).
Proof.
  intros Hlen i Hi. apply survives_inv in Hi as (_ & Hi & _). simpl.
  rewrite list_lookup_fmap. destruct (zs !! i) eqn:E; [reflexivity|].
  apply lookup_ge_None in E. lia.
Qed.

Lemma defined_on_floats (rs : list WeatherRecord) (ys : list float64) :
  (forall i, survives rs i = true -> exists v, ys !! i = Some (Some v)) ->
  defined_on rs (FloatS ys).
Proof.
  intros Hall i Hi. destruct (Hall i Hi) as [v Hv]. simpl.
  unfold float64 in *. rewrite list_lookup_fmap, Hv. reflexivity.
Qed.

Lemma defined_on_floats_inv (rs : list WeatherRecord) (ys : list float64) (i : nat) :
  defined_on rs (FloatS ys) -> survives rs i = true -> exists v, ys !! i = Some (Some v).
Proof.
  intros Hdef Hi. specialize (Hdef i Hi). simpl in Hdef. unfold float64 in *.
  rewrite list_lookup_fmap in Hdef.
  destruct (ys !! i) as [[v|]|]; try discriminate. eauto.
Qed.

Lemma defined_on_dates (rs : list WeatherRecord) :
  defined_on rs (DateS (map (fun r => Some (date r)) rs)).
Proof.
  intros i Hi. apply survives_inv in Hi as (_ & _ & r & Hr & _). simpl.
  rewrite !list_lookup_fmap, Hr. reflexivity.
Qed.

Lemma settled_column (rs : list WeatherRecord) (d : DataFrame) (name : string) (s : Series) :
  settled rs d -> getitem d name = inr s -> series_len s = nrows d /\ defined_on rs s.
Proof.
  intros (_ & Hwf & _ & Hdef) Hs. split; [eapply well_formed_column; eauto|].
  apply getitem_assoc, assoc_In in Hs. rewrite Forall_forall in Hdef.
  apply (Hdef (name, s)). apply list_elem_of_In. exact Hs.
Qed.

Lemma settled_date (rs : list WeatherRecord) (d : DataFrame) :
  settled rs d -> getitem d "date" = inr (DateS (map (fun r => Some (date r)) rs)).
Proof.
  intros (_ & _ & Hraw & _). apply getitem_assoc. rewrite Hraw; [reflexivity|].
  left. reflexivity.
Qed.

Lemma frame_of_records_settled (rs : list WeatherRecord) : settled rs (frame_of_records rs).
Proof.
  repeat split.
  - apply frame_of_records_well_formed.
  - unfold frame_of_records. simpl.
    repeat (apply Forall_cons; split;
            [first [apply defined_on_dates
                   | apply defined_on_floats; intros i Hi;
                     apply survives_inv in Hi as (_ & _ & r & Hr & _);
                     rewrite list_lookup_fmap, Hr; simpl; eauto]|]).
    apply Forall_nil. exact I.
Qed.

(** *** The temporal stage *)

Lemma settles_column (rs : list WeatherRecord) (name c : string) (f : Series -> res Series) :
  ~ In name raw_columns ->
  (forall s s', series_len s = length rs -> defined_on rs s -> f s = inr s' ->
                series_len s' = length rs /\ defined_on rs s') ->
  settles rs (name, fun df => getitem df c ≫= f).
Proof.
  intros Hname Hf d s' Hd Hrun. simpl in *.
  apply bind_inr in Hrun as (s & Hs & Hrun).
  destruct (settled_column _ _ _ _ Hd Hs) as [Hlen Hdef].
  destruct Hd as (Hn & _).
  destruct (Hf s s') as [Hlen' Hdef']; auto; [congruence|].
  repeat split; [congruence | exact Hdef' | contradiction].
Qed.

Lemma dt_defined (rs : list WeatherRecord) (field : Z -> Z) (s s' : Series) :
  series_len s = length rs -> defined_on rs s -> dt field s = inr s' ->
  series_len s' = length rs /\ defined_on rs s'.
Proof.
  intros Hlen Hdef Hrun. split; [rewrite (dt_length _ _ _ Hrun); exact Hlen|].
  unfold dt in Hrun. apply bind_inr in Hrun as (xs & Hxs & Hrun).
  destruct s; try discriminate. injection Hxs as ->.
  destruct (all_dates xs) as [zs|] eqn:E; injection Hrun as <-.
  - apply defined_on_ints. rewrite length_map, (all_dates_length _ _ E).
    unfold series_len in Hlen. simpl in Hlen. rewrite length_map in Hlen. exact Hlen.
  - apply defined_on_floats. intros i Hi. specialize (Hdef i Hi). simpl in Hdef.
    rewrite list_lookup_fmap in Hdef. rewrite list_lookup_fmap.
    destruct (xs !! i) as [[z|]|]; try discriminate. simpl. eauto.
Qed.

Lemma week_defined (rs : list WeatherRecord) (s s' : Series) :
  series_len s = length rs -> defined_on rs s -> dt_isocalendar_week_int s = inr s' ->
  series_len s' = length rs /\ defined_on rs s'.
Proof.
  intros Hlen Hdef Hrun.
  split; [rewrite (dt_isocalendar_week_int_length _ _ Hrun); exact Hlen|].
  unfold dt_isocalendar_week_int in Hrun. apply bind_inr in Hrun as (xs & Hxs & Hrun).
  destruct s; try discriminate. injection Hxs as ->.
  destruct (all_dates xs) as [zs|] eqn:E; [|discriminate]. injection Hrun as <-.
  apply defined_on_ints. rewrite length_map, (all_dates_length _ _ E).
  unfold series_len in Hlen. simpl in Hlen. rewrite length_map in Hlen. exact Hlen.
Qed.

Lemma isin_defined (rs : list WeatherRecord) (values : list Z) (s s' : Series) :
  series_len s = length rs -> defined_on rs s -> Ok (isin_int values s) = inr s' ->
  series_len s' = length rs /\ defined_on rs s'.
Proof.
  intros Hlen _ [= <-]. split; [rewrite isin_int_length; exact Hlen|].
  pose proof (isin_int_length values s) as Hl. rewrite Hlen in Hl.
  unfold isin_int in *. apply defined_on_ints.
  unfold series_len in Hl. simpl in Hl. rewrite length_map in Hl. exact Hl.
Qed.

Lemma settles_date (rs : list WeatherRecord) :
  settles rs ("date", fun df => getitem df "date" ≫= pd_to_datetime).
Proof.
  intros d s Hd Hrun. simpl in *. rewrite (settled_date _ _ Hd) in Hrun.
  injection Hrun as <-. destruct Hd as (Hn & _). repeat split.
  - unfold series_len. simpl. rewrite !length_map. congruence.
  - apply defined_on_dates.
Qed.

Section Settles.

Context `{Library}.

Lemma cyclical_defined (rs : list WeatherRecord) (f : Q -> Q) (period : Z)
  (s s' : Series) :
  series_len s = length rs -> defined_on rs s -> cyclical f period s = inr s' ->
  series_len s' = length rs /\ defined_on rs s'.
Proof.
  intros Hlen Hdef Hrun. split; [rewrite (cyclical_length _ _ _ _ Hrun); exact Hlen|].
  unfold cyclical in Hrun. apply bind_inr in Hrun as (xs & Hxs & [= <-]).
  apply defined_on_floats. intros i Hi. specialize (Hdef i Hi).
  destruct s as [ys|zs|ys|ys]; try discriminate; injection Hxs as <-; simpl in Hdef;
    unfold float64 in *; rewrite list_lookup_fmap in Hdef; rewrite !list_lookup_fmap.
  - destruct (ys !! i) as [[q|]|]; try discriminate. simpl. eauto.
  - destruct (zs !! i); [|discriminate]. simpl. eauto.
Qed.

Lemma temporal_settles (rs : list WeatherRecord) :
  Forall (settles rs) (assignments temporal_block).
Proof.
  assert (Hfresh : forall name,
             mem name raw_columns = false -> ~ In name raw_columns).
  { intros name Hmem Hin. apply mem_In in Hin. congruence. }
  unfold temporal_block, assignments. cbn [flat_map assignments_of app].
  apply Forall_cons; split; [apply settles_date|].
  do 4 (apply Forall_cons; split;
        [apply settles_column; [apply Hfresh; reflexivity | apply dt_defined]|]).
  apply Forall_cons; split;
    [apply settles_column; [apply Hfresh; reflexivity | apply week_defined]|].
  apply Forall_cons; split;
    [apply settles_column; [apply Hfresh; reflexivity | apply isin_defined]|].
  do 6 (apply Forall_cons; split;
        [apply settles_column; [apply Hfresh; reflexivity | apply cyclical_defined]|]).
  apply Forall_nil. exact I.
Qed.

End Settles.

(** *** The lag and rolling stages *)

Lemma weather_column (rs : list WeatherRecord) (c : string) :
  In c weather_cols ->
  exists f, assoc c (columns (frame_of_records rs))
            = Some (FloatS (map (fun r => Some (f r)) rs)).
Proof.
  intros Hc. simpl in Hc.
  destruct Hc as [<-|[<-|[<-|[<-|[<-|[<-|[]]]]]]]; eexists; reflexivity.
Qed.

Lemma settled_weather (rs : list WeatherRecord) (d : DataFrame) (c : string) :
  settled rs d -> In c weather_cols ->
  exists f, getitem d c = inr (FloatS (map (fun r => Some (f r)) rs)).
Proof.
  intros (_ & _ & Hraw & _) Hc. destruct (weather_column rs c Hc) as [f Hf].
  exists f. apply getitem_assoc. rewrite Hraw; [exact Hf | right; exact Hc].
Qed.

Lemma fresh_name (name : string) : mem name raw_columns = false -> ~ In name raw_columns.
Proof. intros Hmem Hin. apply mem_In in Hin. congruence. Qed.

Lemma shift_list_lookup {A : Type} (fill : A) (k i : nat) (xs : list A) :
  (k <= i)%nat -> (i < length xs)%nat -> shift_list fill k xs !! i = xs !! (i - k)%nat.
Proof.
  intros Hk Hi. unfold shift_list.
  rewrite lookup_take_lt by exact Hi.
  rewrite lookup_app_r by (rewrite length_replicate; exact Hk).
  rewrite length_replicate. reflexivity.
Qed.

Lemma shift_list_length {A : Type} (fill : A) (k : nat) (xs : list A) :
  length (shift_list fill k xs) = length xs.
Proof.
  unfold shift_list. rewrite length_take, length_app, length_replicate. lia.
Qed.

Lemma settles_lag (rs : list WeatherRecord) (col name : string) (lag : nat) :
  In col weather_cols -> (lag <= 13)%nat -> ~ In name raw_columns ->
  settles rs (name, fun df => s ← getitem df col; Ok (shift lag s)).
Proof.
  intros Hcol Hlag Hname d s' Hd Hrun. simpl in *.
  destruct (settled_weather _ _ _ Hd Hcol) as [f Hf]. rewrite Hf in Hrun.
  injection Hrun as <-. destruct Hd as (Hn & _). simpl. repeat split.
  - unfold series_len. simpl. rewrite length_map, shift_list_length, length_map. congruence.
  - apply defined_on_floats. intros i Hi.
    apply survives_inv in Hi as (Hi13 & Hi & _).
    rewrite shift_list_lookup by (rewrite ?length_map; lia).
    rewrite list_lookup_fmap.
    destruct (rs !! (i - lag)%nat) as [r|] eqn:E; [simpl; eauto|].
    apply lookup_ge_None in E. lia.
  - contradiction.
Qed.

Lemma all_defined_somes (vs : list Q) : all_defined (map Some vs) = Some vs.
Proof. induction vs as [|v vs IH]; simpl; [|rewrite IH]; reflexivity. Qed.

Lemma rolling_lookup (w : nat) (agg : list Q -> float64) (xs : list float64) (i : nat) :
  (i < length xs)%nat -> rolling w agg xs !! i = Some (window w xs i ≫= agg).
Proof.
  intros Hi. unfold rolling.
  rewrite (list_lookup_fmap (fun i => window w xs i ≫= agg)), lookup_seq_lt by exact Hi.
  reflexivity.
Qed.

Lemma window_somes (w : nat) (vs : list Q) (i : nat) :
  (w <= i + 1)%nat -> (i < length vs)%nat ->
  window w (map Some vs) i = Some (take w (drop (i + 1 - w) vs)) /\
  length (take w (drop (i + 1 - w) vs)) = w.
Proof.
  intros Hw Hi. unfold window.
  destruct (w <=? i + 1)%nat eqn:E; [|apply Nat.leb_gt in E; lia].
  split.
  - change (map Some vs) with (Some <$> vs).
    rewrite <- fmap_drop, <- fmap_take. apply all_defined_somes.
  - rewrite length_take, length_drop. lia.
Qed.

Section Roll.

Context `{Library}.

Lemma settles_roll (rs : list WeatherRecord) (col name : string) (w : nat)
  (agg : list Q -> float64) :
  In col weather_cols -> (w <= 14)%nat ->
  (forall vs, length vs = w -> is_Some (agg vs)) ->
  ~ In name raw_columns ->
  settles rs (name, roll col w agg).
Proof.
  intros Hcol Hw Hagg Hname d s' Hd Hrun. unfold roll in Hrun. simpl in Hrun.
  destruct (settled_weather _ _ _ Hd Hcol) as [f Hf]. rewrite Hf in Hrun.
  simpl in Hrun. injection Hrun as <-. destruct Hd as (Hn & _). simpl. repeat split.
  - unfold series_len. simpl. rewrite length_map, rolling_length, length_map. congruence.
  - apply defined_on_floats. intros i Hi.
    apply survives_inv in Hi as (Hi13 & Hi & _).
    rewrite rolling_lookup by (rewrite length_map; exact Hi).
    rewrite <- (map_map f Some).
    destruct (window_somes w (map f rs) i) as [-> Hlen];
      [lia | rewrite length_map; exact Hi|].
    destruct (Hagg _ Hlen) as [v Hv]. simpl. rewrite Hv. eauto.
  - contradiction.
Qed.

Lemma Qmean_total (vs : list Q) : (0 < length vs)%nat -> is_Some (Qmean vs).
Proof. destruct vs; simpl; [lia | eauto]. Qed.

Lemma Qstd_total (vs : list Q) : (2 <= length vs)%nat -> is_Some (Qstd vs).
Proof. destruct vs as [|a [|b vs]]; simpl; try lia. eauto. Qed.

Lemma Qmaximum_total (vs : list Q) : (0 < length vs)%nat -> is_Some (Qmaximum vs).
Proof. destruct vs; simpl; [lia | eauto]. Qed.

Lemma Qminimum_total (vs : list Q) : (0 < length vs)%nat -> is_Some (Qminimum vs).
Proof. destruct vs; simpl; [lia | eauto]. Qed.

Lemma lag_settles (rs : list WeatherRecord) (cols : list string) :
  incl cols weather_cols ->
  Forall (settles rs) (assignments (lag_block cols [1; 2; 3; 7]%nat)).
Proof.
  intros Hcols. apply Forall_forall. intros a Ha.
  unfold assignments, lag_block in Ha.
  apply list_elem_of_In, in_flat_map in Ha as (st & Hst & Ha).
  apply list_elem_of_In, list_elem_of_bind in Hst as (col & Hst & Hcol).
  apply list_elem_of_bind in Hst as (lag & Hst & Hlag).
  apply list_elem_of_singleton in Hst. subst st.
  simpl in Ha. destruct Ha as [<- | []].
  apply list_elem_of_In in Hcol, Hlag.
  pose proof (Hcols _ Hcol) as Hw.
  apply settles_lag; [exact Hw | simpl in Hlag; lia |].
  apply fresh_name. simpl in Hw, Hlag.
  destruct Hw as [<-|[<-|[<-|[<-|[<-|[<-|[]]]]]]];
    destruct Hlag as [<-|[<-|[<-|[<-|[]]]]]; reflexivity.
Qed.

Lemma rolling_settles (rs : list WeatherRecord) (cols : list string) :
  incl cols weather_cols ->
  Forall (settles rs) (assignments (rolling_block cols)).
Proof.
  intros Hcols. apply Forall_forall. intros a Ha.
  unfold assignments, rolling_block in Ha.
  apply list_elem_of_In, in_flat_map in Ha as (st & Hst & Ha).
  apply list_elem_of_In, list_elem_of_bind in Hst as (col & Hst & Hcol).
  apply list_elem_of_bind in Hst as (w & Hst & Hw).
  apply list_elem_of_In in Hcol, Hw, Hst.
  pose proof (Hcols _ Hcol) as Hc.
  assert (Hw14 : (3 <= w <= 14)%nat) by (simpl in Hw; lia).
  simpl in Hst.
  destruct Hst as [<- | [<- | [<- | [<- | []]]]]; simpl in Ha; destruct Ha as [<- | []];
    (apply settles_roll;
     [exact Hc | lia
     | intros vs Hvs;
       first [apply Qmean_total | apply Qstd_total | apply Qmaximum_total
             | apply Qminimum_total]; lia
     | apply fresh_name; simpl in Hc, Hw;
       destruct Hc as [<-|[<-|[<-|[<-|[<-|[<-|[]]]]]]];
       destruct Hw as [<-|[<-|[<-|[]]]]; reflexivity]).
Qed.

End Roll.

(** *** The indices, and the count *)

Lemma map2_somes {A : Type} (f : float64 -> float64 -> float64) (fa fb : A -> Q)
  (rs : list A) :
  map2 f (map (fun r => Some (fa r)) rs) (map (fun r => Some (fb r)) rs)
  = map (fun r => f (Some (fa r)) (Some (fb r))) rs.
Proof.
  unfold map2. induction rs as [|r rs IH]; simpl; [reflexivity|]. rewrite IH. reflexivity.
Qed.

Section Indices.

Context `{Library}.

Lemma binary_records (rs : list WeatherRecord) (d : DataFrame) (a b : string)
  (f : float64 -> float64 -> float64) (fa fb : WeatherRecord -> Q) :
  settled rs d -> In a raw_columns -> In b raw_columns ->
  assoc a (columns (frame_of_records rs)) = Some (FloatS (map (fun r => Some (fa r)) rs)) ->
  assoc b (columns (frame_of_records rs)) = Some (FloatS (map (fun r => Some (fb r)) rs)) ->
  binary f a b d = inr (FloatS (map (fun r => f (Some (fa r)) (Some (fb r))) rs)).
Proof.
  intros (_ & _ & Hraw & _) Ha Hb Hfa Hfb. unfold binary.
  rewrite <- (Hraw a Ha) in Hfa. rewrite <- (Hraw b Hb) in Hfb.
  apply getitem_assoc in Hfa, Hfb. rewrite Hfa, Hfb. simpl.
  rewrite map2_somes. reflexivity.
Qed.

Lemma settles_binary (rs : list WeatherRecord) (name a b : string)
  (f : float64 -> float64 -> float64) (fa fb : WeatherRecord -> Q) :
  In a raw_columns -> In b raw_columns ->
  assoc a (columns (frame_of_records rs)) = Some (FloatS (map (fun r => Some (fa r)) rs)) ->
  assoc b (columns (frame_of_records rs)) = Some (FloatS (map (fun r => Some (fb r)) rs)) ->
  (forall r, calm r = true -> is_Some (f (Some (fa r)) (Some (fb r)))) ->
  ~ In name raw_columns ->
  settles rs (name, binary f a b).
Proof.
  intros Ha Hb Hfa Hfb Hf Hname d s Hd Hrun. simpl in *.
  rewrite (binary_records rs d a b f fa fb) in Hrun by auto.
  injection Hrun as <-. destruct Hd as (Hn & _). repeat split.
  - unfold series_len. simpl. rewrite !length_map. congruence.
  - apply defined_on_floats. intros i Hi.
    apply survives_inv in Hi as (_ & _ & r & Hr & Hcalm).
    rewrite list_lookup_fmap, Hr. simpl. destruct (Hf r Hcalm) as [v ->]. eauto.
  - contradiction.
Qed.

Lemma wind_chill_calm (r : WeatherRecord) :
  is_Some (wind_chill (Some (temp_min r)) (Some (wind_speed r))) <-> calm r = true.
Proof.
  unfold wind_chill, power, calm. simpl.
  destruct (Qle_bool 0 (wind_speed r)); simpl; split; intros Hs; eauto.
  - destruct Hs; discriminate.
  - discriminate.
Qed.

Lemma indices_settles (rs : list WeatherRecord) :
  Forall (settles rs) (assignments indices_block).
Proof.
  unfold indices_block, assignments. cbn [flat_map assignments_of app].
  repeat (apply Forall_cons; split); [..|apply Forall_nil; exact I].
  - apply (settles_binary rs _ _ _ _ temp_max humidity);
      [simpl; tauto | simpl; tauto | reflexivity | reflexivity | simpl; eauto
      | apply fresh_name; reflexivity].
  - apply (settles_binary rs _ _ _ _ temp_max temp_min);
      [simpl; tauto | simpl; tauto | reflexivity | reflexivity | simpl; eauto
      | apply fresh_name; reflexivity].
  - apply (settles_binary rs _ _ _ _ temp_max temp_min);
      [simpl; tauto | simpl; tauto | reflexivity | reflexivity | simpl; eauto
      | apply fresh_name; reflexivity].
  - apply (settles_binary rs _ _ _ _ temp_min wind_speed);
      [simpl; tauto | simpl; tauto | reflexivity | reflexivity
      | intros r Hr; apply wind_chill_calm; exact Hr
      | apply fresh_name; reflexivity].
Qed.


End Indices.





Section Count.

Context `{Library}.


End Count.


(** ** What the features know of the target *)

Lemma getitems_assoc (df X : DataFrame) (names : list string) (n : string) :
  getitems df names = inr X -> In n names ->
  assoc n (columns X) = assoc n (columns df).
Proof.
  intros HX Hn. apply getitems_inr in HX as [_ Hcols].
  induction Hcols as [|k c names cols [<- Hc] _ IH]; [contradiction|].
  simpl. destruct c as [k s]. simpl in *.
  destruct (String.eqb k n) eqn:E.
  - apply String.eqb_eq in E. subst. symmetry. exact Hc.
  - destruct Hn as [-> | Hn]; [rewrite String.eqb_refl in E; discriminate | auto].
Qed.

Lemma series_select_floats {A : Type} (mask : list bool) (f : A -> float64) (l : list A) :
  series_select mask (FloatS (map f l)) = FloatS (map f (select mask l)).
Proof. simpl. rewrite select_map. reflexivity. Qed.

Section Leak.

Context `{Library}.

(** The temperature range and average, as the frame holds them when the
    stages are through. *)
Lemma indices_temperatures (rs : list WeatherRecord) (df3 df4 : DataFrame) :
  settled rs df3 -> run_block indices_block df3 = inr df4 ->
  assoc "temp_range" (columns df4)
  = Some (FloatS (map (fun r => lift2 Qminus (Some (temp_max r)) (Some (temp_min r))) rs)) /\
  assoc "temp_avg" (columns df4)
  = Some (FloatS (map (fun r => lift2 (fun a b => (a + b) / 2)%Q
                                      (Some (temp_max r)) (Some (temp_min r))) rs)).
Proof.
  intros Hd Hrun. pose proof (indices_settles rs) as Hall.
  unfold indices_block in *.
  change (assignments (?a :: ?b)) with (assignments_of a ++ assignments b) in Hall.
  rewrite run_block_cons in Hrun. apply bind_inr in Hrun as (d1 & H1 & Hrun).
  apply Forall_app in Hall as [Hs1 Hall].
  pose proof (settled_run_stmt _ _ _ _ Hs1 Hd H1) as Hd1.
  rewrite run_block_cons in Hrun. apply bind_inr in Hrun as (d2 & H2 & Hrun).
  apply run_block_frame in Hrun as [_ Hframe].
  rewrite !Hframe by (vm_compute; intuition discriminate).
  assert (Hhas : forallb (has_column d1) ["temp_max"; "temp_min"] = true).
  { destruct Hd1 as (_ & _ & Hraw & _). simpl. rewrite !andb_true_iff.
    repeat split; apply has_column_assoc; rewrite Hraw by (simpl; tauto);
      eexists; reflexivity. }
  cbn [run_stmt] in H2. rewrite Hhas in H2. cbn [assign_all] in H2.
  apply bind_inr in H2 as (e1 & Ha1 & H2).
  apply bind_inr in H2 as (e2 & Ha2 & [= <-]).
  assert (Hde1 : settled rs e1).
  { eapply settled_assign; [|exact Hd1 | exact Ha1].
    change (assignments (?a :: ?b)) with (assignments_of a ++ assignments b) in Hall.
    apply Forall_app in Hall as [Hs2 _]. simpl in Hs2.
    apply Forall_cons in Hs2 as [Hs2 _]. exact Hs2. }
  apply assign_inr in Ha1 as (s1 & Hs1' & ->).
  apply assign_inr in Ha2 as (s2 & Hs2' & ->). cbn [fst snd] in *.
  rewrite (binary_records rs d1 _ _ _ temp_max temp_min) in Hs1';
    [|exact Hd1 | simpl; tauto | simpl; tauto | reflexivity | reflexivity].
  rewrite (binary_records rs _ _ _ _ temp_max temp_min) in Hs2';
    [|exact Hde1 | simpl; tauto | simpl; tauto | reflexivity | reflexivity].
  injection Hs1' as <-. injection Hs2' as <-.
  split.
  - rewrite assoc_setitem. simpl. apply assoc_set_same.
  - simpl. apply assoc_set_same.
Qed.

(** X8. In the training frame that [prepare_features] builds from weather
    records, two feature columns are computed from the targets of the same
    row and are not excluded: [temp_avg] and [temp_range].  For the target
    [temp_max], every row satisfies
    [temp_max = temp_avg + temp_range / 2]: the value to predict can be read
    off the features. *)
Theorem temp_max_is_a_function_of_the_features (rs : list WeatherRecord)
  (X : DataFrame) (y : Series) (w w' : World) :
  prepare_features (frame_of_records rs) "temp_max" w = (inr (X, y), w') ->
  exists kept,
    sublist kept rs /\
    y = FloatS (map (fun r => Some (temp_max r)) kept) /\
    assoc "temp_avg" (columns X)
    = Some (FloatS (map (fun r => Some ((temp_max r + temp_min r) / 2)%Q) kept)) /\
    assoc "temp_range" (columns X)
    = Some (FloatS (map (fun r => Some (temp_max r - temp_min r)%Q) kept)) /\
    Forall (fun r => temp_max r
                     == (temp_max r + temp_min r) / 2 + (temp_max r - temp_min r) / 2)%Q
           kept.
Proof.
  unfold prepare_features. intros Hrun.
  apply M_bind_inr in Hrun as (eng & w1 & Heng & Hrun).
  apply lift_inr in Heng as [Heng ->].
  cbv zeta in Hrun.
  apply M_bind_inr in Hrun as (X0 & w2 & HX & Hrun).
  apply lift_inr in HX as [HX ->].
  apply M_bind_inr in Hrun as (y0 & w3 & Hy & Hrun).
  apply lift_inr in Hy as [Hy ->].
  apply M_bind_inr in Hrun as ([] & w4 & Hupd & Hrun).
  injection Hrun as <- <- _.
  pose proof (frame_of_records_settled rs) as Hd0.
  apply engineer_features_stages in Heng
    as (df1 & df2 & df3 & df4 & H1 & H2 & H3 & H4 & ->).
  assert (Hincl : incl (List.filter (has_column df1) weather_cols) weather_cols)
    by (intros c Hc; apply filter_In in Hc as [Hc _]; exact Hc).
  pose proof (settled_run_block _ _ (temporal_settles rs) _ _ Hd0 H1) as Hd1.
  pose proof (settled_run_block _ _ (lag_settles rs _ Hincl) _ _ Hd1 H2) as Hd2.
  pose proof (settled_run_block _ _ (rolling_settles rs _ Hincl) _ _ Hd2 H3) as Hd3.
  pose proof (settled_run_block _ _ (indices_settles rs) _ _ Hd3 H4) as Hd4.
  destruct (indices_temperatures rs _ _ Hd3 H4) as [Hrange Havg].
  assert (Hmax : assoc "temp_max" (columns df4)
                 = Some (FloatS (map (fun r => Some (temp_max r)) rs))).
  { destruct Hd4 as (_ & _ & Hraw & _). rewrite Hraw by (simpl; tauto). reflexivity. }
  set (kept := select (keep_mask df4) rs).
  assert (Heng_max : assoc "temp_max" (columns (dropna df4))
                     = Some (FloatS (map (fun r => Some (temp_max r)) kept)))
    by (rewrite dropna_assoc, Hmax; simpl; rewrite select_map; reflexivity).
  assert (Heng_avg : assoc "temp_avg" (columns (dropna df4))
                     = Some (FloatS (map (fun r => Some ((temp_max r + temp_min r) / 2)%Q)
                                         kept)))
    by (rewrite dropna_assoc, Havg; simpl; rewrite select_map; reflexivity).
  assert (Heng_range : assoc "temp_range" (columns (dropna df4))
                       = Some (FloatS (map (fun r => Some (temp_max r - temp_min r)%Q) kept)))
    by (rewrite dropna_assoc, Hrange; simpl; rewrite select_map; reflexivity).
  assert (Hfeature : forall name s,
             assoc name (columns (dropna df4)) = Some s -> numeric_dtype s = true ->
             name <> "date" -> ~ In name target_columns ->
             assoc name (columns X0) = Some s).
  { intros name s Hs Hnum Hdate Htarget.
    rewrite (getitems_assoc _ _ _ name HX); [exact Hs|].
    apply filter_In. split; [|rewrite Hs; exact Hnum].
    apply filter_In. split.
    - apply mem_In. fold (has_column (dropna df4) name). apply has_column_assoc. eauto.
    - apply negb_true_iff, not_true_is_false. intros Hmem. apply mem_In in Hmem.
      apply (in_app_or ["date"]) in Hmem as [[<- | []] | Hmem]; [congruence|].
      apply in_app_or in Hmem as [Hmem | Hmem]; [contradiction|].
      apply filter_In in Hmem as [Hmem _]. contradiction. }
  exists kept. repeat split.
  - apply select_sublist.
  - apply getitem_assoc in Hy. congruence.
  - apply Hfeature; [exact Heng_avg | reflexivity | discriminate
                    | unfold target_columns; simpl; intuition discriminate].
  - apply Hfeature; [exact Heng_range | reflexivity | discriminate
                    | unfold target_columns; simpl; intuition discriminate].
  - apply Forall_forall. intros r _. field.
Qed.

End Leak.

(** X8 on fifteen daily records: two rows are left, of the days 14 and 15. *)
Lemma temp_max_is_a_function_of_the_features_witness :
  exists X y w' kept,
    prepare_features (H := stub_library) (frame_of_records (days 15)) "temp_max" fresh_world
    = (inr (X, y), w') /\
    y = FloatS (map (fun r => Some (temp_max r)) kept) /\
    assoc "temp_avg" (columns X)
    = Some (FloatS (map (fun r => Some ((temp_max r + temp_min r) / 2)%Q) kept)) /\
    length kept = 2%nat.
Proof.
  destruct (prepare_features (H := stub_library) (frame_of_records (days 15)) "temp_max"
              fresh_world) as [[e | [X y]] w'] eqn:Hprep;
    [vm_compute in Hprep; discriminate|].
  destruct (temp_max_is_a_function_of_the_features (H := stub_library) _ _ _ _ _ Hprep)
    as (kept & _ & Hy & Havg & _).
  exists X, y, w', kept. repeat split; auto.
  vm_compute in Hprep. injection Hprep as _ <- _.
  apply (f_equal series_len) in Hy. unfold series_len in Hy. simpl in Hy.
  rewrite !length_map in Hy. symmetry. exact Hy.
Defined.
